(** * TypedJSON deserializer: a shallow embedding and its specification

    The development follows [src/typedjson/deserializer.ts] (class
    [Deserializer]), [src/typedjson/options-base.ts] and the helper
    functions [isSubtypeOf], [isValueDefined] and [nameof].

    JavaScript values are a tagged union, a [TypeError] is a tagged union
    with one constructor per [new TypeError(...)] site, and the methods of
    [Deserializer] are functions in a monad that threads the errors handed
    to the error handler and distinguishes a normal return from a thrown
    exception.  Recursion is bounded by an explicit call-stack budget. *)

From Stdlib Require Import ZArith List String Ascii Bool Lia PeanoNat.
From Stdlib Require Import DecimalString.
From Stdlib Require Import Floats.SpecFloat.
Import ListNotations.
Local Open Scope string_scope.

Set Warnings "-register-all".

(* ================================================================== *)
(** ** JavaScript values *)

(** A JavaScript number is an IEEE-754 binary64 value. *)
Definition number := spec_float.

Definition NaN : number := S754_nan.
Definition zero : number := S754_zero false.

Definition number_of_Z (z : Z) : number := binary_normalize 53 1024 z 0 false.

(** Constructor functions: the built-ins the deserializer compares against
    with [===], and user classes, which are identified by their name.  The
    last form is what stands where a constructor is expected when the value
    found there is not a function (the own [constructor] property of a parsed
    object, line 231); [name] is what [nameof] answers for it. *)
Inductive Ctor :=
| CNumber | CString | CBoolean | CDate
| CFloat32Array | CFloat64Array
| CInt8Array | CUint8Array | CUint8ClampedArray
| CInt16Array | CUint16Array | CInt32Array | CUint32Array
| CArrayBuffer | CDataView
| CArray | CSet | CMap | CObject
| CClass (name : string)
| CNotAFunction (name : string).

Definition Ctor_eq_dec (a b : Ctor) : {a = b} + {a <> b}.
Proof. decide equality; apply string_dec. Defined.

(** [A === B] on constructor functions. *)
Definition ctor_eqb (a b : Ctor) : bool := if Ctor_eq_dec a b then true else false.

(** [typeof c === "function"]. *)
Definition isFunction (c : Ctor) : bool :=
  match c with
  | CNotAFunction _ => false
  | _ => true
  end.

(** What [new Date(x)] was built from: the deserializer only ever calls the
    constructor with a string or with a number. *)
Inductive DateArg :=
| DateOfString (s : string)
| DateOfNumber (n : number).

(** Values.  [VObject cls props] is an object whose prototype is
    [cls.prototype] ([CObject] for an object literal or a parsed JSON
    object) with its own enumerable data properties in key order.  The other
    object forms are what the deserializer builds; they have no own
    enumerable properties except for the indices of arrays and typed arrays.
    Properties inherited from a prototype are not part of a value. *)
Inductive value :=
| VUndefined
| VNull
| VBoolean (b : bool)
| VNumber (n : number)
| VString (s : string)
| VArray (elems : list value)
| VObject (cls : Ctor) (props : list (string * value))
| VDate (arg : DateArg)
| VTypedArray (kind : Ctor) (elems : list number)
| VArrayBuffer (units : list N)
| VDataView (units : list N)
| VSet (elems : list value)
| VMap (entries : list (value * value)).

(** The debug label of the position being converted ([objectName],
    [memberName], [memberNameForDebug] in the source). *)
Inductive label :=
| LName (s : string)
| LMember (className propKey : string)   (* `${nameof(classType)}.${propKey}` *)
| LElement (parent : label)                    (* `${memberName}[]` *)
| LIndex (parent : label) (i : nat)            (* `${memberName}[${i}]` *)
| LKey (parent : label) (key : value).         (* `${memberName}[${key}]` *)

(** Errors.  Every constructor but the last two is a [new TypeError(...)] of
    the source and carries the data interpolated into its message. *)
Inductive Error :=
| ENotAFunction (parameter : string)
    (* "'typeResolverCallback' is not a function." *)
| EMustBeDefinedObject (objectName : label)
    (* "Cannot deserialize ...: 'sourceObject' must be a defined object." *)
| ENoConverter (memberNameForDebug : label)
    (* "... thers is no constructor nor deserlization function to use." *)
| EMissingRequiredMember (memberNameForDebug : label)
| EInitializerReturnedNothing (objectName : label) (expected : string)
| EInitializerWrongType (objectName : label) (got expected : string)
| EHookNotAMethod (className hook : string)
| ETypeErrorMessage (expectedTypeName actualTypeName : string) (memberName : label)
    (* _makeTypeErrorMessage *)
| ETypeMismatch (targetType expectedSourceType actualSourceType : string) (memberName : label)
    (* _throwTypeMismatchError *)
| EMissingElementCtor (container : string) (memberName : label)
| EMissingKeyCtor (memberName : label)
| EMissingValueCtor (memberName : label)
| ETypeErrorMessageOf (expectedTypeName : string) (actualType : value) (memberName : label)
    (* _makeTypeErrorMessage with an actualType that is not a function: the
       value itself is interpolated into the message *)
| EHostTypeError (what : string)
    (* raised by the runtime: a property read on undefined or null, or a
       call of something that is not a function *)
| EUser (payload : value).
    (* whatever a user-supplied callback throws *)

(** The result of a user-supplied callback. *)
Inductive Result (A : Type) :=
| Ok (a : A)
| Raise (e : Error).
Arguments Ok {A} a.
Arguments Raise {A} e.

(** A value that is expected to be a function: [typeof x === "function"]
    holds exactly for [Callable]. *)
Inductive Callback (F : Type) :=
| NotCallable (v : value)
| Callable (f : F).
Arguments NotCallable {F} v.
Arguments Callable {F} f.

(* ------------------------------------------------------------------ *)
(** *** Primitive operations on values *)

Definition truthy (v : value) : bool :=
  match v with
  | VUndefined | VNull => false
  | VBoolean b => b
  | VNumber n =>
      match n with
      | S754_nan | S754_zero _ => false
      | _ => true
      end
  | VString s => negb (String.eqb s "")
  | _ => true
  end.

(** [typeof v === "object"]; note that this holds for [null]. *)
Definition typeof_object (v : value) : bool :=
  match v with
  | VUndefined | VBoolean _ | VNumber _ | VString _ => false
  | _ => true
  end.

Definition is_null (v : value) : bool :=
  match v with VNull => true | _ => false end.

Definition typeof_string (v : value) : bool :=
  match v with VString _ => true | _ => false end.

(** [v instanceof Array]: arrays are the values built with [VArray]; a user
    class that extends [Array] is not modelled. *)
Definition instanceof_Array (v : value) : bool :=
  match v with VArray _ => true | _ => false end.

(** The constructor function whose [prototype] is the prototype of [v]:
    what [instanceof] and the lookup of a method start from.  [undefined] and
    [null] have none. *)
Definition classOf (v : value) : option Ctor :=
  match v with
  | VUndefined | VNull => None
  | VBoolean _ => Some CBoolean
  | VNumber _ => Some CNumber
  | VString _ => Some CString
  | VArray _ => Some CArray
  | VObject cls _ => Some cls
  | VDate _ => Some CDate
  | VTypedArray kind _ => Some kind
  | VArrayBuffer _ => Some CArrayBuffer
  | VDataView _ => Some CDataView
  | VSet _ => Some CSet
  | VMap _ => Some CMap
  end.

Definition index_key (i : nat) : string := NilEmpty.string_of_uint (Nat.to_uint i).

Fixpoint indexed_from {A} (i : nat) (l : list A) : list (string * A) :=
  match l with
  | [] => []
  | x :: l' => (index_key i, x) :: indexed_from (S i) l'
  end.

(** The own enumerable properties, in the order of [Object.keys]. *)
Definition ownEntries (v : value) : list (string * value) :=
  match v with
  | VObject _ props => props
  | VArray elems => indexed_from 0 elems
  | VTypedArray _ elems => indexed_from 0 (map VNumber elems)
  | _ => []
  end.

Fixpoint assoc {A} (k : string) (l : list (string * A)) : option A :=
  match l with
  | [] => None
  | (k', x) :: l' => if String.eqb k' k then Some x else assoc k l'
  end.

(** [m.set(k, x)] on a [Map] with string keys, and [o[k] = x] on the own
    properties of an object: an existing key keeps its place. *)
Fixpoint assoc_set {A} (k : string) (x : A) (l : list (string * A)) : list (string * A) :=
  match l with
  | [] => [(k, x)]
  | (k', y) :: l' => if String.eqb k' k then (k, x) :: l' else (k', y) :: assoc_set k x l'
  end.

(** [v[k]] for a value that is not [undefined] or [null], as far as the own
    properties answer it.  What a prototype would answer (a method or an
    accessor under one of the [Object_prototype_names] below, the [length]
    and the methods of an array or a string, the members of a class) is a
    function or a computed value and is read as [undefined]; the statements
    that depend on such a read keep to own keys. *)
Definition getProp (v : value) (k : string) : value :=
  match assoc k (ownEntries v) with
  | Some x => x
  | None => VUndefined
  end.

(** The names under which every object finds a property of
    [Object.prototype] when it has no own property of that name. *)
Definition Object_prototype_names : list string :=
  ["constructor"; "hasOwnProperty"; "isPrototypeOf"; "propertyIsEnumerable";
   "toLocaleString"; "toString"; "valueOf"; "__proto__";
   "__defineGetter__"; "__defineSetter__"; "__lookupGetter__"; "__lookupSetter__"].

(** What [v.constructor] evaluates to: the constructor function found along
    the prototype chain, unless the object has an own property of that name,
    as a parsed JSON object can. *)
Inductive ConstructorRead :=
| CtorFunction (c : Ctor)
| CtorProperty (x : value).

(** [v.constructor]; the read fails on [undefined] and [null]. *)
Definition readConstructor (v : value) : option ConstructorRead :=
  match v with
  | VObject cls props =>
      match assoc "constructor" props with
      | Some x => Some (CtorProperty x)
      | None => Some (CtorFunction cls)
      end
  | _ => option_map CtorFunction (classOf v)
  end.

(** The constructor function [v.constructor] evaluates to, when it
    evaluates to a function. *)
Definition constructorOf (v : value) : option Ctor :=
  match readConstructor v with
  | Some (CtorFunction c) => Some c
  | _ => None
  end.

(** [ToString(v)] returns: the conversion of an object to a primitive throws
    when an own data property hides [toString], and the [join] of an array
    converts every element. *)
Fixpoint canBeString (v : value) : bool :=
  match v with
  | VArray elems => forallb canBeString elems
  | VObject _ props =>
      match assoc "toString" props with
      | Some _ => false
      | None => true
      end
  | _ => true
  end.

(** [o[k] = x] on an object whose prototype chain ends in
    [Object.prototype]: the key [__proto__] is the accessor of
    [Object.prototype], and its setter creates no own property (given an
    object or [null] it replaces the prototype instead, which the own
    properties do not show). *)
Definition Object_set (k : string) (x : value) (o : list (string * value))
  : list (string * value) :=
  if String.eqb k "__proto__" then o else assoc_set k x o.

(** [Object.assign(target, source)], [source] given by its own properties.
    Only [VObject] carries data properties, so the other object forms are
    left as they are. *)
Definition Object_assign (target : value) (source : list (string * value)) : value :=
  match target with
  | VObject cls props =>
      VObject cls (fold_left (fun acc kv => assoc_set (fst kv) (snd kv) acc) source props)
  | _ => target
  end.

(** [SameValueZero], the key equality of [Set] and [Map].  Objects are equal
    only to themselves, and every object the deserializer puts in a
    container is freshly created. *)
Definition sameValueZero (a b : value) : bool :=
  match a, b with
  | VUndefined, VUndefined => true
  | VNull, VNull => true
  | VBoolean x, VBoolean y => Bool.eqb x y
  | VNumber x, VNumber y =>
      match x, y with
      | S754_nan, S754_nan => true
      | _, _ => SFeqb x y
      end
  | VString x, VString y => String.eqb x y
  | _, _ => false
  end.

(** [Set.prototype.add] and [Map.prototype.set] store [-0] as [+0]. *)
Definition canonicalKey (v : value) : value :=
  match v with
  | VNumber (S754_zero true) => VNumber zero
  | _ => v
  end.

Definition Set_add (x : value) (s : list value) : list value :=
  if existsb (sameValueZero x) s then s else (s ++ [canonicalKey x])%list.

Fixpoint Map_set (k x : value) (m : list (value * value)) : list (value * value) :=
  match m with
  | [] => [(canonicalKey k, x)]
  | (k', y) :: m' => if sameValueZero k' k then (k', x) :: m' else (k', y) :: Map_set k x m'
  end.

(* ------------------------------------------------------------------ *)
(** *** Numeric conversions of the host *)

(** The integer part of a number, rounded toward zero; 0 for NaN and the
    infinities. *)
Definition truncate (n : number) : Z :=
  match n with
  | S754_finite s m e =>
      let a := if (0 <=? e)%Z then Z.shiftl (Zpos m) e else Z.shiftr (Zpos m) (- e) in
      if s then (- a)%Z else a
  | _ => 0%Z
  end.

(** [ToInt32]. *)
Definition ToInt32 (n : number) : Z :=
  let k := (truncate n mod 2 ^ 32)%Z in
  if (k <? 2 ^ 31)%Z then k else (k - 2 ^ 32)%Z.

Definition ToUint (width : Z) (n : number) : Z := (truncate n mod 2 ^ width)%Z.

(** [ToUint8Clamp]: clamp to 0..255, ties to even. *)
Definition ToUint8Clamp (n : number) : Z :=
  match n with
  | S754_finite false m e =>
      if (0 <=? e)%Z then Z.min 255 (Z.shiftl (Zpos m) e)
      else
        let f := Z.shiftr (Zpos m) (- e) in
        let r := (Zpos m - Z.shiftl f (- e))%Z in
        let half := Z.shiftl 1 (- e - 1) in
        let rounded :=
          match (r ?= half)%Z with
          | Lt => f
          | Gt => (f + 1)%Z
          | Eq => if Z.even f then f else (f + 1)%Z
          end in
        Z.min 255 rounded
  | S754_infinity false => 255%Z
  | _ => 0%Z
  end.

(** Rounding of a binary64 value to binary32. *)
Definition fround (n : number) : number :=
  match n with
  | S754_finite s m e =>
      match binary_normalize 24 128 (cond_Zopp s (Zpos m)) e s with
      | S754_finite s' m' e' => binary_normalize 53 1024 (cond_Zopp s' (Zpos m')) e' s'
      | r => r
      end
  | _ => n
  end.

(* ================================================================== *)
(** ** options-base.ts *)

(** [OptionsBase]: the key [preserveNull] is absent ([None]), present with
    [undefined] or [null] ([Some None]), or present with a boolean. *)
Record OptionsBase := { preserveNull : option (option bool) }.

Definition getDefaultOptionOf_preserveNull : bool := false.

Definition getOptionValue_preserveNull (options : option OptionsBase) : bool :=
  match options with
  | Some o =>
      match preserveNull o with
      | Some (Some b) => b                       (* options[key] != null *)
      | _ => getDefaultOptionOf_preserveNull
      end
  | None => getDefaultOptionOf_preserveNull
  end.

(** One source argument of [Object.assign]: every own key is copied. *)
Definition assignOptions (target : OptionsBase) (source : option OptionsBase) : OptionsBase :=
  match source with
  | Some s =>
      match preserveNull s with
      | Some x => {| preserveNull := Some x |}
      | None => target
      end
  | None => target
  end.

Definition mergeOptions (existing moreSpecific : option OptionsBase) : option OptionsBase :=
  match moreSpecific with
  | None => existing
  | Some _ =>
      Some (assignOptions (assignOptions {| preserveNull := None |} existing) moreSpecific)
  end.

(* ================================================================== *)
(** ** The collaborators of the deserializer *)

(** [IScopeTypeInfo]. *)
Record IScopeTypeInfo := {
  selfConstructor : Ctor;
  elementConstructor : option (list Ctor);
  keyConstructor : option Ctor;
  knownTypes : list (string * Ctor)           (* Map<string, Function> *)
}.

(** The member and class metadata of [metadata.ts], which is not part of the
    sources at hand: the records list the fields the deserializer reads, with
    the types it reads them at. *)
Record JsonMemberMetadata := {
  key : string;
  ctor : option Ctor;
  elementType : option (list Ctor);
  keyType : option Ctor;
  isRequired : bool;
  deserializer : option (value -> Result value);
  memberOptions_ : option OptionsBase         (* memberMetadata.options *)
}.

Record JsonObjectMetadata := {
  classType : Ctor;
  metadataName : option string;                (* metadata.name *)
  isExplicitlyMarked : bool;
  metadataKnownTypes : list Ctor;              (* metadata.knownTypes: Set<Function> *)
  dataMembers : list (string * JsonMemberMetadata);   (* Map, in insertion order *)
  classOptions_ : option OptionsBase;          (* metadata.options *)
  initializerCallback : option (value -> value -> Result value);
  onDeserializedMethodName : option string
}.

(** The host and the class definitions a deserializer runs against. *)
Record Env := {
  (** [ToNumber] on a string, and on an object (through [ToPrimitive]). *)
  StringToNumber : string -> number;
  ObjectToNumber : value -> number;
  (** The constructors [B] other than [A] with [A.prototype instanceof B]. *)
  superclasses : Ctor -> list Ctor;
  (** [new ctor()]. *)
  construct : Ctor -> Result value;
  (** The method an instance of the class finds under a name along its
      prototype chain; called with the instance as [this], it returns the
      instance as it has left it. *)
  instanceMethod : Ctor -> string -> option (value -> Result value);
  (** A function-valued static property of the class. *)
  staticMethod : Ctor -> string -> option (Result unit);
  (** [JsonObjectMetadata.getFromConstructor]. *)
  getFromConstructor : Ctor -> option JsonObjectMetadata
}.

(* ------------------------------------------------------------------ *)
(** *** helpers *)

(** [nameof(fn)]: the [name] of a constructor function. *)
Definition nameof (fn : Ctor) : string :=
  match fn with
  | CNumber => "Number" | CString => "String" | CBoolean => "Boolean"
  | CDate => "Date"
  | CFloat32Array => "Float32Array" | CFloat64Array => "Float64Array"
  | CInt8Array => "Int8Array" | CUint8Array => "Uint8Array"
  | CUint8ClampedArray => "Uint8ClampedArray"
  | CInt16Array => "Int16Array" | CUint16Array => "Uint16Array"
  | CInt32Array => "Int32Array" | CUint32Array => "Uint32Array"
  | CArrayBuffer => "ArrayBuffer" | CDataView => "DataView"
  | CArray => "Array" | CSet => "Set" | CMap => "Map" | CObject => "Object"
  | CClass name => name
  | CNotAFunction name => name
  end.

(** [nameof(fn)] for whatever [v.constructor] has given: [fn.name] when it is
    a string, which it is for a function; the read of [name] fails on
    [undefined] and [null]. *)
Definition nameofRead (fn : ConstructorRead) : Result string :=
  match fn with
  | CtorFunction c => Ok (nameof c)
  | CtorProperty x =>
      match x with
      | VUndefined | VNull =>
          Raise (EHostTypeError "cannot read property 'name' of undefined or null")
      | VObject _ props =>
          match assoc "name" props with
          | Some (VString s) => Ok s
          | _ => Ok "undefined"
          end
      | _ => Ok "undefined"
      end
  end.

(** The value a constructor read leaves where a constructor is expected. *)
Definition asConstructor (fn : ConstructorRead) : Ctor :=
  match fn with
  | CtorFunction c => c
  | CtorProperty x =>
      CNotAFunction match nameofRead fn with
                    | Ok name => name
                    | Raise _ => "undefined"
                    end
  end.

Definition isValueDefined (v : value) : bool :=
  match v with
  | VUndefined | VNull => false
  | _ => true
  end.

Section Helpers.
Variable E : Env.

(** [A === B || A.prototype instanceof B]. *)
Definition isSubtypeOf (A B : Ctor) : bool :=
  ctor_eqb A B || existsb (ctor_eqb B) (superclasses E A).

(** The call [isSubtypeOf(A, B)]: [instanceof] throws when its right-hand
    side is not a function. *)
Definition isSubtypeOf_call (A B : Ctor) : Result bool :=
  if ctor_eqb A B then Ok true
  else if isFunction B then Ok (isSubtypeOf A B)
  else Raise (EHostTypeError "Right-hand side of 'instanceof' is not callable").

(** [v instanceof C]: false for a primitive. *)
Definition instanceof (v : value) (C : Ctor) : bool :=
  if typeof_object v then
    match classOf v with
    | Some A => ctor_eqb A C || existsb (ctor_eqb C) (superclasses E A)
    | None => false
    end
  else false.

Definition ToNumber (v : value) : number :=
  match v with
  | VUndefined => NaN
  | VNull => zero
  | VBoolean b => if b then number_of_Z 1 else zero
  | VNumber n => n
  | VString s => StringToNumber E s
  | _ => ObjectToNumber E v
  end.

(** The global [isNaN], when [ToNumber] returns. *)
Definition isNaN (v : value) : bool :=
  match ToNumber v with
  | S754_nan => true
  | _ => false
  end.

(** The call [isNaN(v)]: [ToNumber] throws for an object that cannot be
    converted to a primitive, which is one that cannot be converted to a
    string either. *)
Definition isNaN_call (v : value) : Result bool :=
  if canBeString v then Ok (isNaN v)
  else Raise (EHostTypeError "Cannot convert object to primitive value").

(** [elems.every(elem => !isNaN(elem))]: the elements are tested in order,
    up to the first one that fails the test. *)
Fixpoint everyNotNaN (elems : list value) : Result bool :=
  match elems with
  | [] => Ok true
  | elem :: rest =>
      match isNaN_call elem with
      | Ok true => Ok false
      | Ok false => everyNotNaN rest
      | Raise e => Raise e
      end
  end.

(** [~~value]. *)
Definition double_bitwise_not (v : value) : value :=
  VNumber (number_of_Z (ToInt32 (ToNumber v))).

(** The conversion of a number to the element type of a typed array. *)
Definition toElement (kind : Ctor) (n : number) : number :=
  match kind with
  | CFloat32Array => fround n
  | CUint8Array => number_of_Z (ToUint 8 n)
  | CUint8ClampedArray => number_of_Z (ToUint8Clamp n)
  | CUint16Array => number_of_Z (ToUint 16 n)
  | CUint32Array => number_of_Z (ToUint 32 n)
  | _ => n
  end.

(** [new kind(elems)] for a typed-array constructor and an array. *)
Definition newTypedArray (kind : Ctor) (elems : list value) : value :=
  VTypedArray kind (map (fun v => toElement kind (ToNumber v)) elems).
End Helpers.

(** [array.indexOf(x)] on an array of constructors. *)
Fixpoint indexOf (x : Ctor) (l : list Ctor) : Z :=
  match l with
  | [] => (-1)%Z
  | y :: l' =>
      if ctor_eqb y x then 0%Z
      else
        let i := indexOf x l' in
        if (i <? 0)%Z then (-1)%Z else (i + 1)%Z
  end.

(** [~n] on a 32-bit integer. *)
Definition bitwise_not (n : Z) : Z := Z.lnot n.

(** [str.charCodeAt(i)] for every [i]. *)
Definition charCodes (s : string) : list N := map N_of_ascii (list_ascii_of_string s).

(* ================================================================== *)
(** ** Effects: reported errors, exceptions, and the call stack *)

(** The errors handed to the error handler so far, oldest first. *)
Definition World := list Error.

Inductive Outcome (A : Type) :=
| Return (a : A)            (* the call returns *)
| Throw (e : Error)         (* the call throws *)
| StackExhausted.           (* the call-stack budget ran out *)
Arguments Return {A} a.
Arguments Throw {A} e.
Arguments StackExhausted {A}.

Definition M (A : Type) := World -> Outcome A * World.

Definition ret {A} (a : A) : M A := fun w => (Return a, w).
Definition throw {A} (e : Error) : M A := fun w => (Throw e, w).
Definition stackExhausted {A} : M A := fun w => (StackExhausted, w).

Definition bind {A B} (m : M A) (k : A -> M B) : M B :=
  fun w =>
    match m w with
    | (Return a, w') => k a w'
    | (Throw e, w') => (Throw e, w')
    | (StackExhausted, w') => (StackExhausted, w')
    end.

(** [try { m } catch (e) { h e }]. *)
Definition tryCatch {A} (m : M A) (h : Error -> M A) : M A :=
  fun w =>
    match m w with
    | (Throw e, w') => h e w'
    | r => r
    end.

(** A call of a user-supplied function. *)
Definition call {A} (r : Result A) : M A :=
  match r with
  | Ok a => ret a
  | Raise e => throw e
  end.

Declare Scope monad_scope.
Delimit Scope monad_scope with monad.
Notation "x <- c1 ;; c2" := (bind c1 (fun x => c2))
  (at level 61, c1 at next level, right associativity) : monad_scope.
Notation "' pat <- c1 ;; c2" := (bind c1 (fun x => match x with pat => c2 end))
  (at level 61, pat pattern, c1 at next level, right associativity) : monad_scope.
Notation "c1 ;; c2" := (bind c1 (fun _ => c2))
  (at level 61, right associativity) : monad_scope.
Local Open Scope monad_scope.

(** [l.forEach(x => { s = f(s, x) })] for a loop that updates local state. *)
Fixpoint foldM {A S} (f : S -> A -> M S) (l : list A) (s : S) : M S :=
  match l with
  | [] => ret s
  | x :: l' => s' <- f s x ;; foldM f l' s'
  end.

(** [l.map(f)]. *)
Fixpoint mapM {A B} (f : A -> M B) (l : list A) : M (list B) :=
  match l with
  | [] => ret []
  | x :: l' => y <- f x ;; ys <- mapM f l' ;; ret (y :: ys)
  end.

(** [v.constructor]. *)
Definition getConstructorRead (v : value) : M ConstructorRead :=
  match readConstructor v with
  | Some fn => ret fn
  | None => throw (EHostTypeError "cannot read property 'constructor' of undefined or null")
  end.

(** [fn === c] for a constructor function [c]. *)
Definition sameConstructor (fn : ConstructorRead) (c : Ctor) : bool :=
  match fn with
  | CtorFunction c' => ctor_eqb c' c
  | CtorProperty _ => false
  end.

(** [v.constructor], where a constructor is expected. *)
Definition getConstructor (v : value) : M Ctor :=
  fn <- getConstructorRead v ;; ret (asConstructor fn).

(** [new TypeError(this._makeTypeErrorMessage(expectedType, actualType,
    memberName))] (lines 542-548): the name of [actualType] when it is a
    function, else the value itself, whose interpolation can throw. *)
Definition _makeTypeErrorMessage (expectedTypeName : string) (actualType : ConstructorRead)
           (memberName : label) : M Error :=
  match actualType with
  | CtorFunction c => ret (ETypeErrorMessage expectedTypeName (nameof c) memberName)
  | CtorProperty x =>
      if canBeString x then ret (ETypeErrorMessageOf expectedTypeName x memberName)
      else throw (EHostTypeError "Cannot convert object to primitive value")
  end.

(** [v[k]]. *)
Definition readProp (v : value) (k : string) : M value :=
  if isValueDefined v then ret (getProp v k)
  else throw (EHostTypeError "cannot read a property of undefined or null").

(** The elements [v.forEach] visits, for the values that have a [forEach]
    method; for a [Map] the callback's first argument is the entry's value. *)
Definition forEachElements (v : value) : option (list value) :=
  match v with
  | VArray elems => Some elems
  | VTypedArray _ elems => Some (map VNumber elems)
  | VSet elems => Some elems
  | VMap entries => Some (map snd entries)
  | _ => None
  end.

(** The name of the class of [v]. *)
Definition constructorName (v : value) : string :=
  match classOf v with
  | Some c => nameof c
  | None => "undefined"
  end.

(** [srcTypeNameForDebug] of [convertSingleValue] (line 249):
    [sourceObject ? nameof(sourceObject.constructor) : "undefined"]. *)
Definition srcTypeNameForDebug (sourceObject : value) : Result string :=
  if truthy sourceObject then
    match readConstructor sourceObject with
    | Some fn => nameofRead fn
    | None => Ok "undefined"
    end
  else Ok "undefined".

(** The scope the keys of a map are converted in (lines 486-489). *)
Definition keyScope (keyCtor : Ctor) (typeInfo : IScopeTypeInfo) : IScopeTypeInfo :=
  {| selfConstructor := keyCtor;
     elementConstructor := None;
     keyConstructor := None;
     knownTypes := knownTypes typeInfo |}.

(* ================================================================== *)
(** ** class Deserializer *)

Definition TypeResolver := value -> list (string * Ctor) -> Result (option Ctor).
Definition NameResolver := Ctor -> Result string.
Definition ErrorHandler := Error -> Result unit.

Record Deserializer := {
  options : option OptionsBase;
  _typeResolver : TypeResolver;
  _nameResolver : Callback NameResolver;      (* undefined until it is set *)
  _errorHandler : ErrorHandler
}.

(** [logError] writes to the console and returns. *)
Definition logError (message : Error) : Result unit := Ok tt.

(** The type resolver installed by the constructor. *)
Definition defaultTypeResolver : TypeResolver :=
  fun sourceObject knownTypes =>
    if isValueDefined sourceObject then
      let hint := getProp sourceObject "__type" in
      if truthy hint then
        match hint with
        | VString name => Ok (assoc name knownTypes)
        | _ => Ok None                   (* the keys of knownTypes are strings *)
        end
      else Ok None
    else Raise (EHostTypeError "cannot read property '__type' of undefined or null").

(** [new Deserializer()]. *)
Definition newDeserializer : Deserializer :=
  {| options := None;
     _typeResolver := defaultTypeResolver;
     _nameResolver := NotCallable VUndefined;
     _errorHandler := fun error => logError error |}.

(** The setters: [Ok d'] is the deserializer after the call, [Raise e] a
    throw that leaves it as it was. *)
Definition setNameResolver (d : Deserializer) (nameResolverCallback : Callback NameResolver)
  : Result Deserializer :=
  Ok {| options := options d;
        _typeResolver := _typeResolver d;
        _nameResolver := nameResolverCallback;
        _errorHandler := _errorHandler d |}.

Definition setTypeResolver (d : Deserializer) (typeResolverCallback : Callback TypeResolver)
  : Result Deserializer :=
  match typeResolverCallback with
  | NotCallable _ => Raise (ENotAFunction "typeResolverCallback")
  | Callable f =>
      Ok {| options := options d;
            _typeResolver := f;
            _nameResolver := _nameResolver d;
            _errorHandler := _errorHandler d |}
  end.

Definition setErrorHandler (d : Deserializer) (errorHandlerCallback : Callback ErrorHandler)
  : Result Deserializer :=
  match errorHandlerCallback with
  | NotCallable _ => Raise (ENotAFunction "errorHandlerCallback")
  | Callable f =>
      Ok {| options := options d;
            _typeResolver := _typeResolver d;
            _nameResolver := _nameResolver d;
            _errorHandler := f |}
  end.

(** [this._errorHandler(e)]: the error is on record whether the handler
    returns or throws. *)
Definition report (d : Deserializer) (e : Error) : M unit :=
  fun w =>
    match _errorHandler d e with
    | Ok _ => (Return tt, (w ++ [e])%list)
    | Raise x => (Throw x, (w ++ [e])%list)
    end.

(** [if (this._nameResolver) ... this._nameResolver(ctor)]: [None] when the
    field is falsy. *)
Definition resolveName (d : Deserializer) (c : Ctor) : option (M string) :=
  match _nameResolver d with
  | Callable f => Some (call (f c))
  | NotCallable v =>
      if truthy v then Some (throw (EHostTypeError "this._nameResolver is not a function"))
      else None
  end.

Definition retrievePreserveNull (d : Deserializer) (memberOptions : option OptionsBase) : bool :=
  getOptionValue_preserveNull (mergeOptions (options d) memberOptions).

Definition _isDirectlyDeserializableNativeType (c : Ctor) : Z :=
  bitwise_not (indexOf c [CNumber; CString; CBoolean]).

Definition _stringToArrayBuffer (str : string) : value := VArrayBuffer (charCodes str).
Definition _stringToDataView (str : string) : value := VDataView (charCodes str).

Definition _mergeKnownTypes (d : Deserializer) (knownTypeMaps : list (list (string * Ctor)))
  : M (list (string * Ctor)) :=
  foldM (fun result knownTypes =>
           foldM (fun result entry =>
                    let '(name, c) := entry in
                    match resolveName d c with
                    | Some resolved => n <- resolved ;; ret (assoc_set n c result)
                    | None => ret (assoc_set name c result)
                    end)
                 knownTypes result)
        knownTypeMaps [].

Section Engine.
Variable E : Env.

Definition _instantiateType (c : Ctor) : M value := call (construct E c).

(** The name a known type is entered under when no name resolver is
    installed (lines 589-592). *)
Definition knownTypeName (c : Ctor) : string :=
  match getFromConstructor E c with
  | Some knownTypeMeta =>
      if isExplicitlyMarked knownTypeMeta then
        match metadataName knownTypeMeta with
        | Some n => if String.eqb n "" then nameof c else n
        | None => nameof c
        end
      else nameof c
  | None => nameof c
  end.

Definition _createKnownTypesMap (d : Deserializer) (knowTypes : list Ctor)
  : M (list (string * Ctor)) :=
  foldM (fun map c =>
           match resolveName d c with
           | Some resolved => n <- resolved ;; ret (assoc_set n c map)
           | None =>
               let name := knownTypeName c in
               ret (assoc_set name c map)
           end)
        knowTypes [].

(** Known types received from above merged with those declared on the
    class of [metadata]; as they are when there is no metadata. *)
Definition mergeWithOwnKnownTypes (d : Deserializer) (knownTypeConstructors : list (string * Ctor))
           (metadata : option JsonObjectMetadata) : M (list (string * Ctor)) :=
  match metadata with
  | Some md =>
      own <- _createKnownTypesMap d (metadataKnownTypes md) ;;
      _mergeKnownTypes d [knownTypeConstructors; own]
  | None => ret knownTypeConstructors
  end.
(** The scope of an element of a container: the first element constructor
    is consumed, the others are passed down. *)
Definition elementScope (first : Ctor) (others : list Ctor) (typeInfo : IScopeTypeInfo)
  : IScopeTypeInfo :=
  {| selfConstructor := first;
     elementConstructor := Some others;   (* length > 1 ? slice(1) : [] *)
     keyConstructor := None;
     knownTypes := knownTypes typeInfo |}.

(** The type-hint step of [convertAsObject] (lines 82-103): the expected
    type, its metadata and the known types after the hint is looked at. *)
Definition applyTypeHint (d : Deserializer) (typeFromTypeHint : option Ctor)
           (expectedSelfType : Ctor) (sourceObjectMetadata : option JsonObjectMetadata)
           (knownTypeConstructors : list (string * Ctor))
  : M (Ctor * option JsonObjectMetadata * list (string * Ctor)) :=
  match typeFromTypeHint with
  | Some hinted =>
      subtype <- call (isSubtypeOf_call E hinted expectedSelfType) ;;
      if subtype : bool then
        let hintedMetadata := getFromConstructor E hinted in
        known <- mergeWithOwnKnownTypes d knownTypeConstructors hintedMetadata ;;
        ret (hinted, hintedMetadata, known)
      else ret (expectedSelfType, sourceObjectMetadata, knownTypeConstructors)
  | None => ret (expectedSelfType, sourceObjectMetadata, knownTypeConstructors)
  end.

(** [sourceObjectMetadata && sourceObjectMetadata.isExplicitlyMarked]. *)
Definition explicitlyMarked (sourceObjectMetadata : option JsonObjectMetadata)
  : option JsonObjectMetadata :=
  match sourceObjectMetadata with
  | Some md => if isExplicitlyMarked md then Some md else None
  | None => None
  end.

(** The instantiation step of [convertAsObject] (lines 154-195); [None]
    stands for the [return undefined] of the [catch] block. *)
Definition instantiateTarget (d : Deserializer) (sourceObjectMetadata : JsonObjectMetadata)
           (expectedSelfType : Ctor) (staged : list (string * value))
           (sourceObject : value) (objectName : label) : M (option value) :=
  match initializerCallback sourceObjectMetadata with
  | Some initializer =>
      tryCatch
        (targetObject <- call (initializer (VObject CObject staged) sourceObject) ;;
         if negb (truthy targetObject) then
           throw (EInitializerReturnedNothing objectName
                    (nameof (classType sourceObjectMetadata)))
         else if negb (instanceof E targetObject (classType sourceObjectMetadata)) then
           throw (EInitializerWrongType objectName (constructorName targetObject)
                    (nameof (classType sourceObjectMetadata)))
         else ret (Some targetObject))
        (fun e => report d e ;; ret None)
  | None =>
      targetObject <- _instantiateType expectedSelfType ;;
      ret (Some targetObject)
  end.

(** [typeof targetObject[name] === "function"]: an own data property hides
    a method of the prototype chain. *)
Definition findInstanceMethod (targetObject : value) (name : string)
  : option (value -> Result value) :=
  match assoc name (ownEntries targetObject) with
  | Some _ => None
  | None =>
      match classOf targetObject with
      | Some c => instanceMethod E c name
      | None => None
      end
  end.

Definition findStaticMethod (targetObject : value) (name : string) : option (Result unit) :=
  match classOf targetObject with
  | Some c => staticMethod E c name
  | None => None
  end.

(** The [onDeserialized] step of [convertAsObject] (lines 200-219). *)
Definition callOnDeserialized (d : Deserializer) (sourceObjectMetadata : JsonObjectMetadata)
           (targetObject : value) : M value :=
  match onDeserializedMethodName sourceObjectMetadata with
  | Some name =>
      if String.eqb name "" then ret targetObject
      else
        match findInstanceMethod targetObject name with
        | Some method => call (method targetObject)
        | None =>
            match findStaticMethod targetObject name with
            | Some method => call method ;; ret targetObject
            | None =>
                report d (EHookNotAMethod (nameof (classType sourceObjectMetadata)) name) ;;
                ret targetObject
            end
        end
  | None => ret targetObject
  end.

(** What the loop over the data members does with a revived value
    (lines 143-151). *)
Definition stageMember (d : Deserializer) (memberMetadata : JsonMemberMetadata)
           (memberNameForDebug : label) (memberOptions : option OptionsBase)
           (revivedValue : value) (staged : list (string * value))
  : M (list (string * value)) :=
  if isValueDefined revivedValue
     || (retrievePreserveNull d memberOptions && is_null revivedValue)
  then ret (Object_set (key memberMetadata) revivedValue staged)
  else if isRequired memberMetadata then
    report d (EMissingRequiredMember memberNameForDebug) ;; ret staged
  else ret staged.

(** [sourceObject instanceof Array && sourceObject.every(elem => !isNaN(elem))]:
    the elements of the array when the test holds. *)
Definition isNumericArray (sourceObject : value) : Result (option (list value)) :=
  match sourceObject with
  | VArray elems =>
      match everyNotNaN E elems with
      | Ok true => Ok (Some elems)
      | Ok false => Ok None
      | Raise e => Raise e
      end
  | _ => Ok None
  end.

(** The recursive call [this.convertSingleValue], as the steps of
    [convertAsObject] and the loop of [convertAsMap] receive it. *)
Definition Converter :=
  value -> IScopeTypeInfo -> label -> option OptionsBase -> M value.

(** Lines 69-103 of [convertAsObject]: the expected type, its metadata
    and the known types, once the type hint has been looked at. *)
Definition resolveObjectType (d : Deserializer) (sourceObject : value)
           (sourceObjectTypeInfo : IScopeTypeInfo)
  : M (Ctor * option JsonObjectMetadata * list (string * Ctor)) :=
  let expectedSelfType := selfConstructor sourceObjectTypeInfo in
  let sourceObjectMetadata := getFromConstructor E expectedSelfType in
  knownTypeConstructors <-
    mergeWithOwnKnownTypes d (knownTypes sourceObjectTypeInfo) sourceObjectMetadata ;;
  typeFromTypeHint <- call (_typeResolver d sourceObject knownTypeConstructors) ;;
  applyTypeHint d typeFromTypeHint expectedSelfType sourceObjectMetadata
                knownTypeConstructors.

(** Lines 110-152: the loop over [dataMembers] that fills
    [sourceObjectWithDeserializedProperties]. *)
Definition deserializeMembers (convertSingleValue : Converter) (d : Deserializer)
           (sourceObject : value) (sourceMetadata : JsonObjectMetadata)
           (knownTypeConstructors : list (string * Ctor)) : M (list (string * value)) :=
  let classOptions := mergeOptions (options d) (classOptions_ sourceMetadata) in
  foldM (fun sourceObjectWithDeserializedProperties member =>
           let '(propKey, memberMetadata) := member in
           let memberValue := getProp sourceObject propKey in
           let memberNameForDebug := LMember (nameof (classType sourceMetadata)) propKey in
           let memberOptions := mergeOptions classOptions (memberOptions_ memberMetadata) in
           revivedValue <-
             match deserializer memberMetadata with
             | Some custom => call (custom memberValue)
             | None =>
                 match ctor memberMetadata with
                 | Some memberCtor =>
                     convertSingleValue memberValue
                       {| selfConstructor := memberCtor;
                          elementConstructor := elementType memberMetadata;
                          keyConstructor := keyType memberMetadata;
                          knownTypes := knownTypeConstructors |}
                       memberNameForDebug memberOptions
                 | None => throw (ENoConverter memberNameForDebug)
                 end
             end ;;
           stageMember d memberMetadata memberNameForDebug memberOptions
                       revivedValue sourceObjectWithDeserializedProperties)
        (dataMembers sourceMetadata) [].

(** Lines 154-221: instantiate the target, assign the deserialized
    properties, call [onDeserialized]. *)
Definition finishObject (d : Deserializer) (sourceMetadata : JsonObjectMetadata)
           (expectedSelfType : Ctor)
           (sourceObjectWithDeserializedProperties : list (string * value))
           (sourceObject : value) (objectName : label) : M value :=
  instantiated <-
    instantiateTarget d sourceMetadata expectedSelfType
                      sourceObjectWithDeserializedProperties sourceObject objectName ;;
  match instantiated with
  | None => ret VUndefined
  | Some targetObject =>
      callOnDeserialized d sourceMetadata
        (Object_assign targetObject sourceObjectWithDeserializedProperties)
  end.

(** One turn of the loop over [Object.keys(sourceObject)] (lines 228-236). *)
Definition convertUntypedMember (convertSingleValue : Converter) (sourceObject : value)
           (sourceObjectTypeInfo : IScopeTypeInfo)
           (targetObject : list (string * value)) (sourceKey : string)
  : M (list (string * value)) :=
  let memberValue := getProp sourceObject sourceKey in
  memberCtor <- getConstructor memberValue ;;
  converted <-
    convertSingleValue memberValue
      {| selfConstructor := memberCtor;
         knownTypes := knownTypes sourceObjectTypeInfo;
         elementConstructor := elementConstructor sourceObjectTypeInfo;
         keyConstructor := keyConstructor sourceObjectTypeInfo |}
      (LName sourceKey) None ;;
  ret (Object_set sourceKey converted targetObject).

(** Lines 223-239: untyped deserialization into an [Object] instance. *)
Definition convertUntyped (convertSingleValue : Converter) (sourceObject : value)
           (sourceObjectTypeInfo : IScopeTypeInfo) : M value :=
  targetObject <-
    foldM (convertUntypedMember convertSingleValue sourceObject sourceObjectTypeInfo)
          (map fst (ownEntries sourceObject)) [] ;;
  ret (VObject CObject targetObject).

(** Lines 105-239: the conversion once the type is resolved. *)
Definition convertResolved (convertSingleValue : Converter) (d : Deserializer)
           (sourceObject : value) (sourceObjectTypeInfo : IScopeTypeInfo)
           (objectName : label)
           (resolved : Ctor * option JsonObjectMetadata * list (string * Ctor)) : M value :=
  let '(expectedSelfType, sourceObjectMetadata, knownTypeConstructors) := resolved in
  match explicitlyMarked sourceObjectMetadata with
  | Some sourceMetadata =>
      sourceObjectWithDeserializedProperties <-
        deserializeMembers convertSingleValue d sourceObject sourceMetadata
                           knownTypeConstructors ;;
      finishObject d sourceMetadata expectedSelfType
                   sourceObjectWithDeserializedProperties sourceObject objectName
  | None => convertUntyped convertSingleValue sourceObject sourceObjectTypeInfo
  end.

(** One turn of the loop of [convertAsMap] (lines 499-525). *)
Definition convertMapEntry (convertSingleValue : Converter) (d : Deserializer)
           (keyTypeInfo valueTypeInfo : IScopeTypeInfo) (memberName : label)
           (memberOptions : option OptionsBase)
           (resultMap : list (value * value)) (element : value)
  : M (list (value * value)) :=
  tryCatch
    (rawKey <- readProp element "key" ;;
     key <- convertSingleValue rawKey keyTypeInfo memberName memberOptions ;;
     if isValueDefined key then
       rawValue <- readProp element "value" ;;
       converted <-
         convertSingleValue rawValue valueTypeInfo (LKey memberName key) memberOptions ;;
       ret (Map_set key converted resultMap)
     else ret resultMap)
    (fun e => report d e ;; ret resultMap).

(** One element of [sourceObject.map(...)] in [convertAsArray]
    (lines 399-415). *)
Definition convertArrayElement (convertSingleValue : Converter) (d : Deserializer)
           (elementTypeInfo : IScopeTypeInfo) (memberName : label)
           (memberOptions : option OptionsBase) (element : value) : M value :=
  tryCatch
    (convertSingleValue element elementTypeInfo (LElement memberName) memberOptions)
    (fun e => report d e ;; ret VUndefined).

Fixpoint convertSingleValue (fuel : nat) (d : Deserializer) (sourceObject : value)
         (typeInfo : IScopeTypeInfo) (memberName : label)
         (memberOptions : option OptionsBase) {struct fuel} : M value :=
  match fuel with
  | O => stackExhausted
  | S fuel =>
    let expectedSelfType := selfConstructor typeInfo in
    srcTypeNameForDebug <- call (srcTypeNameForDebug sourceObject) ;;
    if retrievePreserveNull d memberOptions && is_null sourceObject then ret VNull
    else if negb (isValueDefined sourceObject) then ret VUndefined
    else if negb (_isDirectlyDeserializableNativeType expectedSelfType =? 0)%Z then
      actualType <- getConstructorRead sourceObject ;;
      if sameConstructor actualType expectedSelfType then ret sourceObject
      else
        e <- _makeTypeErrorMessage (nameof expectedSelfType) actualType memberName ;;
        throw e
    else if ctor_eqb expectedSelfType CDate then
      match sourceObject with
      | VString s => ret (VDate (DateOfString s))
      | VNumber n =>
          if SFltb zero n then ret (VDate (DateOfNumber n))
          else throw (ETypeMismatch "Date" "an ISO-8601 string" srcTypeNameForDebug memberName)
      | _ => throw (ETypeMismatch "Date" "an ISO-8601 string" srcTypeNameForDebug memberName)
      end
    else if ctor_eqb expectedSelfType CFloat32Array then
      numeric <- call (isNumericArray sourceObject) ;;
      match numeric with
      | Some elems => ret (newTypedArray E CFloat32Array elems)
      | None => throw (ETypeMismatch "Float32Array" "a numeric source array"
                         srcTypeNameForDebug memberName)
      end
    else if ctor_eqb expectedSelfType CFloat64Array then
      numeric <- call (isNumericArray sourceObject) ;;
      match numeric with
      | Some elems => ret (newTypedArray E CFloat64Array elems)
      | None => throw (ETypeMismatch "Float64Array" "a numeric source array"
                         srcTypeNameForDebug memberName)
      end
    else if ctor_eqb expectedSelfType CUint8Array then
      numeric <- call (isNumericArray sourceObject) ;;
      match numeric with
      | Some elems => ret (newTypedArray E CUint8Array (map (double_bitwise_not E) elems))
      | None => throw (ETypeMismatch "Uint8Array" "a numeric source array"
                         srcTypeNameForDebug memberName)
      end
    else if ctor_eqb expectedSelfType CUint8ClampedArray then
      numeric <- call (isNumericArray sourceObject) ;;
      match numeric with
      | Some elems =>
          ret (newTypedArray E CUint8ClampedArray (map (double_bitwise_not E) elems))
      | None => throw (ETypeMismatch "Uint8ClampedArray" "a numeric source array"
                         srcTypeNameForDebug memberName)
      end
    else if ctor_eqb expectedSelfType CUint16Array then
      numeric <- call (isNumericArray sourceObject) ;;
      match numeric with
      | Some elems => ret (newTypedArray E CUint16Array (map (double_bitwise_not E) elems))
      | None => throw (ETypeMismatch "Uint16Array" "a numeric source array"
                         srcTypeNameForDebug memberName)
      end
    else if ctor_eqb expectedSelfType CUint32Array then
      numeric <- call (isNumericArray sourceObject) ;;
      match numeric with
      | Some elems => ret (newTypedArray E CUint32Array (map (double_bitwise_not E) elems))
      | None => throw (ETypeMismatch "Uint32Array" "a numeric source array"
                         srcTypeNameForDebug memberName)
      end
    else if ctor_eqb expectedSelfType CArrayBuffer then
      match sourceObject with
      | VString str => ret (_stringToArrayBuffer str)
      | _ => throw (ETypeMismatch "ArrayBuffer" "a string source"
                      srcTypeNameForDebug memberName)
      end
    else if ctor_eqb expectedSelfType CDataView then
      match sourceObject with
      | VString str => ret (_stringToDataView str)
      | _ => throw (ETypeMismatch "DataView" "a string source" srcTypeNameForDebug memberName)
      end
    else if ctor_eqb expectedSelfType CArray then
      if instanceof_Array sourceObject then
        convertAsArray fuel d sourceObject typeInfo memberName memberOptions
      else
        actualType <- getConstructorRead sourceObject ;;
        e <- _makeTypeErrorMessage (nameof CArray) actualType memberName ;;
        throw e
    else if ctor_eqb expectedSelfType CSet then
      if instanceof_Array sourceObject then
        convertAsSet fuel d sourceObject typeInfo memberName memberOptions
      else throw (ETypeMismatch "Set" "Array" srcTypeNameForDebug memberName)
    else if ctor_eqb expectedSelfType CMap then
      if instanceof_Array sourceObject then
        convertAsMap fuel d sourceObject typeInfo memberName memberOptions
      else throw (ETypeMismatch "Map" "a source array of key-value-pair objects"
                    srcTypeNameForDebug memberName)
    else if truthy sourceObject && typeof_object sourceObject then
      convertAsObject fuel d sourceObject typeInfo memberName memberOptions
    else ret VUndefined
  end

with convertAsObject (fuel : nat) (d : Deserializer) (sourceObject : value)
         (sourceObjectTypeInfo : IScopeTypeInfo) (objectName : label)
         (memberOptions : option OptionsBase) {struct fuel} : M value :=
  match fuel with
  | O => stackExhausted
  | S fuel =>
    if negb (typeof_object sourceObject) || is_null sourceObject then
      report d (EMustBeDefinedObject objectName) ;;
      ret VUndefined
    else
      resolved <- resolveObjectType d sourceObject sourceObjectTypeInfo ;;
      convertResolved (convertSingleValue fuel d) d sourceObject sourceObjectTypeInfo
                      objectName resolved
  end

with convertAsArray (fuel : nat) (d : Deserializer) (sourceObject : value)
         (typeInfo : IScopeTypeInfo) (memberName : label)
         (memberOptions : option OptionsBase) {struct fuel} : M value :=
  match fuel with
  | O => stackExhausted
  | S fuel =>
    match sourceObject with
    | VArray elems =>
        match elementConstructor typeInfo with
        | Some (first :: others) =>
            let elementTypeInfo := elementScope first others typeInfo in
            converted <-
              mapM (convertArrayElement (convertSingleValue fuel d) d elementTypeInfo
                                        memberName memberOptions)
                   elems ;;
            ret (VArray converted)
        | _ =>
            report d (EMissingElementCtor "Array" memberName) ;;
            ret (VArray [])
        end
    | _ =>
        actualType <- getConstructorRead sourceObject ;;
        e <- _makeTypeErrorMessage (nameof CArray) actualType memberName ;;
        report d e ;;
        ret (VArray [])
    end
  end

with convertAsSet (fuel : nat) (d : Deserializer) (sourceObject : value)
         (typeInfo : IScopeTypeInfo) (memberName : label)
         (memberOptions : option OptionsBase) {struct fuel} : M value :=
  match fuel with
  | O => stackExhausted
  | S fuel =>
    match sourceObject with
    | VArray elems =>
        match elementConstructor typeInfo with
        | Some (first :: others) =>
            let elementTypeInfo := elementScope first others typeInfo in
            resultSet <-
              foldM (fun resultSet indexed =>
                       let '(i, element) := indexed in
                       tryCatch
                         (converted <-
                            convertSingleValue fuel d element elementTypeInfo
                                               (LIndex memberName i) memberOptions ;;
                          ret (Set_add converted resultSet))
                         (fun e => report d e ;; ret resultSet))
                    (combine (seq 0 (List.length elems)) elems) [] ;;
            ret (VSet resultSet)
        | _ =>
            report d (EMissingElementCtor "Set" memberName) ;;
            ret (VSet [])
        end
    | _ =>
        actualType <- getConstructorRead sourceObject ;;
        e <- _makeTypeErrorMessage (nameof CArray) actualType memberName ;;
        report d e ;;
        ret (VSet [])
    end
  end

with convertAsMap (fuel : nat) (d : Deserializer) (sourceObject : value)
         (typeInfo : IScopeTypeInfo) (memberName : label)
         (memberOptions : option OptionsBase) {struct fuel} : M value :=
  match fuel with
  | O => stackExhausted
  | S fuel =>
    (if instanceof_Array sourceObject then ret tt
     else
       actualType <- getConstructorRead sourceObject ;;
       e <- _makeTypeErrorMessage (nameof CArray) actualType memberName ;;
       report d e) ;;
    match keyConstructor typeInfo with
    | None =>
        report d (EMissingKeyCtor memberName) ;;
        ret (VMap [])
    | Some keyCtor =>
        match elementConstructor typeInfo with
        | Some (first :: others) =>
            let keyTypeInfo := keyScope keyCtor typeInfo in
            let valueTypeInfo := elementScope first others typeInfo in
            match forEachElements sourceObject with
            | None => throw (EHostTypeError "sourceObject.forEach is not a function")
            | Some elems =>
                resultMap <-
                  foldM (convertMapEntry (convertSingleValue fuel d) d keyTypeInfo
                                         valueTypeInfo memberName memberOptions)
                        elems [] ;;
                ret (VMap resultMap)
            end
        | _ =>
            report d (EMissingValueCtor memberName) ;;
            ret (VMap [])
        end
    end
  end.
End Engine.

(* ================================================================== *)
(** ** The call-stack budget *)

(** The nesting depth of a value: 0 for a primitive, one more than its
    deepest component for an object. *)
Fixpoint depth (v : value) : nat :=
  match v with
  | VUndefined | VNull | VBoolean _ | VNumber _ | VString _ => 0
  | VArray elems => S (list_max (map depth elems))
  | VObject _ props => S (list_max (map (fun kv => depth (snd kv)) props))
  | VSet elems => S (list_max (map depth elems))
  | VMap entries => S (list_max (map (fun kv => depth (snd kv)) entries))
  | VDate _ | VTypedArray _ _ | VArrayBuffer _ | VDataView _ => 1
  end.

(** Two frames per level of nesting: a budget above [stackNeeded v] is
    enough to convert [v]. *)
Definition stackNeeded (v : value) : nat := 2 * depth v.

(** The call does not run out of stack, whatever has been reported before. *)
Definition terminates {A} (m : M A) : Prop :=
  forall w, fst (m w) <> StackExhausted.

(* ================================================================== *)
(** ** The vocabulary of the specification *)

(** The error handler returns normally, as the default one does. *)
Definition handlerReturns (d : Deserializer) : Prop :=
  forall e, _errorHandler d e = Ok tt.

(** The run of [sourceObject.map(...)]: slot by slot and in order, the
    output holds what the conversion of the element returned, or
    [undefined] when it threw, in which case the error is handed to the
    error handler before the next element is looked at. *)
Inductive slots (convert : value -> M value)
  : list value -> World -> list value -> World -> Prop :=
| slots_nil w : slots convert [] w [] w
| slots_converted x xs y ys w w1 w2 :
    convert x w = (Return y, w1) ->
    slots convert xs w1 ys w2 ->
    slots convert (x :: xs) w (y :: ys) w2
| slots_failed x xs e ys w w1 w2 :
    convert x w = (Throw e, w1) ->
    slots convert xs (w1 ++ [e])%list ys w2 ->
    slots convert (x :: xs) w (VUndefined :: ys) w2.

(** The typed-array constructors [convertSingleValue] has a branch for. *)
Definition typedArrayBranches : list Ctor :=
  [CFloat32Array; CFloat64Array; CUint8Array; CUint8ClampedArray; CUint16Array; CUint32Array].

Definition isFloatArray (kind : Ctor) : bool :=
  match kind with
  | CFloat32Array | CFloat64Array => true
  | _ => false
  end.

(** What the branch of [kind] builds from the elements of the source: the
    integer variants map [~~] over them first. *)
Definition typedArrayOf (E : Env) (kind : Ctor) (elems : list value) : value :=
  if isFloatArray kind then newTypedArray E kind elems
  else newTypedArray E kind (map (double_bitwise_not E) elems).

(* ================================================================== *)
(** ** A small program to run the deserializer on *)

Module Example.
Definition Shape := CClass "Shape".
Definition Circle := CClass "Circle".                   (* extends Shape *)
Definition Stranger := CClass "Stranger".
Definition Account := CClass "Account".
Definition SavingsAccount := CClass "SavingsAccount".   (* extends Account *)
Definition Broken := CClass "Broken".
Definition Hooked := CClass "Hooked".

Definition num (z : Z) : value := VNumber (number_of_Z z).

Definition nameMember : JsonMemberMetadata :=
  {| key := "name"; ctor := Some CString; elementType := None; keyType := None;
     isRequired := false; deserializer := None; memberOptions_ := None |}.

(** A class marked with [@jsonObject] that declares the member [name]. *)
Definition marked (c : Ctor) : JsonObjectMetadata :=
  {| classType := c; metadataName := None; isExplicitlyMarked := true;
     metadataKnownTypes := []; dataMembers := [("name", nameMember)];
     classOptions_ := None; initializerCallback := None;
     onDeserializedMethodName := None |}.

Definition withInitializer (c : Ctor) (f : value -> value -> Result value)
  : JsonObjectMetadata :=
  {| classType := c; metadataName := None; isExplicitlyMarked := true;
     metadataKnownTypes := []; dataMembers := [("name", nameMember)];
     classOptions_ := None; initializerCallback := Some f;
     onDeserializedMethodName := None |}.

Definition withHook (c : Ctor) (hook : string) : JsonObjectMetadata :=
  {| classType := c; metadataName := None; isExplicitlyMarked := true;
     metadataKnownTypes := []; dataMembers := [("name", nameMember)];
     classOptions_ := None; initializerCallback := None;
     onDeserializedMethodName := Some hook |}.

Definition registry (c : Ctor) : option JsonObjectMetadata :=
  match c with
  | CClass "Shape" => Some (marked Shape)
  | CClass "Circle" => Some (marked Circle)
  | CClass "Stranger" => Some (marked Stranger)
  | CClass "Account" =>
      Some (withInitializer Account (fun _ _ => Ok (VObject SavingsAccount [])))
  | CClass "Broken" =>
      Some (withInitializer Broken (fun _ _ => Ok (VObject Stranger [])))
  | CClass "Hooked" => Some (withHook Hooked "afterDeserialized")
  | _ => None
  end.

Definition env : Env :=
  {| StringToNumber := fun _ => NaN;
     ObjectToNumber := fun _ => NaN;
     superclasses := fun c =>
       match c with
       | CObject => []
       | CClass "Circle" => [Shape; CObject]
       | CClass "SavingsAccount" => [Account; CObject]
       | _ => [CObject]
       end;
     construct := fun c => Ok (VObject c []);
     instanceMethod := fun _ _ => None;
     staticMethod := fun _ _ => None;
     getFromConstructor := registry |}.

(** A scope for a value expected to be of type [c]. *)
Definition scope (c : Ctor) : IScopeTypeInfo :=
  {| selfConstructor := c; elementConstructor := None; keyConstructor := None;
     knownTypes := [] |}.

Definition container (c : Ctor) (element : Ctor) (k : option Ctor) : IScopeTypeInfo :=
  {| selfConstructor := c; elementConstructor := Some [element]; keyConstructor := k;
     knownTypes := [] |}.

Definition object : label := LName "object".

(** The parsed JSON object [{"name": "x"}]. *)
Definition named : value := VObject CObject [("name", VString "x")].

(** The same with a type hint. *)
Definition hintedAs (typeName : string) : value :=
  VObject CObject [("__type", VString typeName); ("name", VString "x")].

(** A scope that expects a [Shape] and knows [Circle] and [Stranger]. *)
Definition shapes : IScopeTypeInfo :=
  {| selfConstructor := Shape; elementConstructor := None; keyConstructor := None;
     knownTypes := [("Circle", Circle); ("Stranger", Stranger)] |}.
End Example.

(* ================================================================== *)
(** ** More of the helpers *)

(** [getDefaultValue] (lines 8-27 of the helpers). *)
Definition getDefaultValue (type : Ctor) : value :=
  match type with
  | CNumber => VNumber zero
  | CString => VString ""
  | CBoolean => VBoolean false
  | CArray => VArray []
  | _ => VUndefined
  end.

(** [!!(~array.indexOf(type))]. *)
Definition includes (type : Ctor) (array : list Ctor) : bool :=
  negb (bitwise_not (indexOf type array) =? 0)%Z.

Definition isDirectlySerializableNativeType (type : Ctor) : bool :=
  includes type [CDate; CNumber; CString; CBoolean].

Definition isTypeTypedArray (type : Ctor) : bool :=
  includes type [CFloat32Array; CFloat64Array; CInt8Array; CUint8Array; CUint8ClampedArray;
                 CInt16Array; CUint16Array; CInt32Array; CUint32Array].

Definition isObject (v : value) : bool := typeof_object v.

(** [isPrimitiveValue]: the wrapper objects [new String(...)] and the like
    are instances of classes, when a program has them. *)
Definition isPrimitiveValue (E : Env) (obj : value) : bool :=
  match obj with
  | VString _ | VNumber _ | VBoolean _ => true
  | _ => instanceof E obj CString || instanceof E obj CNumber || instanceof E obj CBoolean
  end.

(** [isInstanceOf] (lines 132-152). *)
Definition isInstanceOf (E : Env) (v : value) (constructor : Ctor) : bool :=
  match v with
  | VNumber _ => ctor_eqb constructor CNumber
  | VString _ => ctor_eqb constructor CString
  | VBoolean _ => ctor_eqb constructor CBoolean
  | _ => if isObject v then instanceof E v constructor else false
  end.

(** White space and line terminators, as [String.prototype.trim] strips
    them, among the characters below 256. *)
Definition isWhiteSpace (c : ascii) : bool :=
  match N_of_ascii c with
  | 9%N | 10%N | 11%N | 12%N | 13%N | 32%N | 160%N => true
  | _ => false
  end.

Fixpoint trimStart (l : list ascii) : list ascii :=
  match l with
  | c :: l' => if isWhiteSpace c then trimStart l' else l
  | [] => []
  end.

(** [str.trim()], on the characters of the string. *)
Definition trim (l : list ascii) : list ascii := rev (trimStart (rev (trimStart l))).

Definition isDigit (c : ascii) : bool :=
  let n := N_of_ascii c in (48 <=? n)%N && (n <=? 57)%N.

(** [/^\d+$/.test(l)]. *)
Definition allDigits (l : list ascii) : bool :=
  match l with
  | [] => false
  | _ => forallb isDigit l
  end.

Definition doubleQuote : ascii := ascii_of_nat 34.

(** [jsonStr.length >= 2 && jsonStr[0] === '"'
     && jsonStr[jsonStr.length-1] === '"'] (line 68). *)
Definition hasQuotes (jsonStr : string) : bool :=
  (2 <=? String.length jsonStr)%nat
  && match String.get 0 jsonStr with
     | Some c => Ascii.eqb c doubleQuote
     | None => false
     end
  && match String.get (String.length jsonStr - 1) jsonStr with
     | Some c => Ascii.eqb c doubleQuote
     | None => false
     end.

(** [shouldOmitParseString] (lines 63-72). *)
Definition shouldOmitParseString (jsonStr : string) (expectedType : Ctor) : bool :=
  let expectsTypesSerializedAsStrings :=
    ctor_eqb expectedType CString
    || ctor_eqb expectedType CArrayBuffer
    || ctor_eqb expectedType CDataView in
  let hasQuotes := hasQuotes jsonStr in
  let isInteger := allDigits (trim (list_ascii_of_string jsonStr)) in
  (expectsTypesSerializedAsStrings && negb hasQuotes)
  || ((negb hasQuotes && negb isInteger) && ctor_eqb expectedType CDate).

(** [parseToJSObject] (lines 74-80); [JSON_parse] is the host's
    [JSON.parse]. *)
Definition parseToJSObject (JSON_parse : string -> Result value)
           (json : value) (expectedType : Ctor) : Result value :=
  match json with
  | VString jsonStr =>
      if shouldOmitParseString jsonStr expectedType then Ok json
      else JSON_parse jsonStr
  | _ => Ok json
  end.

(* ================================================================== *)
(** ** More of options-base.ts *)

(** [extractOptionBase] (lines 20-28), for an object whose [preserveNull],
    when it has the key, holds a boolean, [undefined] or [null]. *)
Definition extractOptionBase (own_preserveNull : option (option bool)) : option OptionsBase :=
  match own_preserveNull with
  | Some x => Some {| preserveNull := Some x |}
  | None => None
  end.

(* ================================================================== *)
(** ** More of the deserializer *)

(** The constructors [convertSingleValue] has a branch of its own for. *)
Definition builtinBranches : list Ctor :=
  [CNumber; CString; CBoolean; CDate;
   CFloat32Array; CFloat64Array; CUint8Array; CUint8ClampedArray; CUint16Array; CUint32Array;
   CArrayBuffer; CDataView; CArray; CSet; CMap].

(** One turn of [dataMembers.forEach] in [convertAsObject] (lines 115-152). *)
Definition deserializeMember (convertSingleValue : Converter) (d : Deserializer)
           (sourceObject : value) (sourceMetadata : JsonObjectMetadata)
           (knownTypeConstructors : list (string * Ctor))
           (sourceObjectWithDeserializedProperties : list (string * value))
           (member : string * JsonMemberMetadata) : M (list (string * value)) :=
  let classOptions := mergeOptions (options d) (classOptions_ sourceMetadata) in
  let '(propKey, memberMetadata) := member in
  let memberValue := getProp sourceObject propKey in
  let memberNameForDebug := LMember (nameof (classType sourceMetadata)) propKey in
  let memberOptions := mergeOptions classOptions (memberOptions_ memberMetadata) in
  revivedValue <-
    match deserializer memberMetadata with
    | Some custom => call (custom memberValue)
    | None =>
        match ctor memberMetadata with
        | Some memberCtor =>
            convertSingleValue memberValue
              {| selfConstructor := memberCtor;
                 elementConstructor := elementType memberMetadata;
                 keyConstructor := keyType memberMetadata;
                 knownTypes := knownTypeConstructors |}
              memberNameForDebug memberOptions
        | None => throw (ENoConverter memberNameForDebug)
        end
    end ;;
  stageMember d memberMetadata memberNameForDebug memberOptions
              revivedValue sourceObjectWithDeserializedProperties.

(** No element equals, by [SameValueZero], one that comes before it: the
    state [Set.prototype.add] and [Map.prototype.set] keep. *)
Fixpoint noRepeats (l : list value) : Prop :=
  match l with
  | [] => True
  | x :: l' => (forall y, In y l' -> sameValueZero x y = false) /\ noRepeats l'
  end.

(** The keys of a map are defined and no two of them are the same. *)
Definition wellKeyed (m : list (value * value)) : Prop :=
  (forall k, In k (map fst m) -> isValueDefined k = true) /\ noRepeats (map fst m).

(** What the loop over the members keeps true of the staged properties. *)
Definition stagedBy (d : Deserializer) (sourceMetadata : JsonObjectMetadata)
           (staged : list (string * value)) : Prop :=
  NoDup (map fst staged)
  /\ forall k v, In (k, v) staged ->
       v <> VUndefined
       /\ exists propKey memberMetadata,
           In (propKey, memberMetadata) (dataMembers sourceMetadata)
           /\ key memberMetadata = k
           /\ (v = VNull ->
               retrievePreserveNull d
                 (mergeOptions (mergeOptions (options d) (classOptions_ sourceMetadata))
                               (memberOptions_ memberMetadata)) = true).

(** A number, a string or a boolean. *)
Definition isPrimitive (v : value) : bool :=
  match v with
  | VBoolean _ | VNumber _ | VString _ => true
  | _ => false
  end.

(* ================================================================== *)
(** ** json-member.ts *)

Module JsonMember.

(** [IJsonMemberOptions]: an absent key is [None]; the own property
    [constructor] can be present and hold [undefined] or [null]. *)
Record IJsonMemberOptions := {
  constructor : option (option Ctor);
  isRequired : option bool;
  emitDefaultValue : option bool;
  name : option string;
  deserializer : option (value -> Result value);
  serializer : option (value -> Result value);
  preserveNull : option (option bool)
}.

(** [{}]. *)
Definition noOptions : IJsonMemberOptions :=
  {| constructor := None; isRequired := None; emitDefaultValue := None; name := None;
     deserializer := None; serializer := None; preserveNull := None |}.

(** The object handed to [injectMetadataInformation]. *)
Record Injected := {
  ctor : option Ctor;
  injectedEmitDefaultValue : option bool;
  injectedIsRequired : option bool;
  options : option OptionsBase;
  key : string;
  injectedName : string;
  injectedDeserializer : option (value -> Result value);
  injectedSerializer : option (value -> Result value)
}.

(** What the decorator writes with [logError] and [logWarning];
    [className] and [propKey] are those of [decoratorName]. *)
Inductive Problem :=
| CouldNotResolveDetected       (* "could not resolve detected property constructor at runtime." *)
| CannotResolveSpecified        (* "cannot resolve specified property constructor at runtime." *)
| CannotResolveDetected         (* "cannot resolve detected property constructor at runtime." *)
| ReflectRequired               (* "ReflectDecorators is required if no 'constructor' option is specified." *)
| TypeDoesNotMatch              (* "detected property type does not match 'constructor' option." *)
| IsArray | IsSet | IsMap.      (* "property is an Array. Use the jsonArrayMember decorator ..." *)

Inductive LogEntry :=
| Logged_error (className propKey : string) (problem : Problem)
| Logged_warning (className propKey : string) (problem : Problem).

(** The run of a decorator: what it logged, and whether it returned without
    injecting ([Ok None]), injected ([Ok (Some _)]) or threw. *)
Definition Decorated : Type := list LogEntry * Result (option Injected).

(** [isSpecialPropertyType] (lines 147-174): the log entry when it answers
    [true]. *)
Definition isSpecialPropertyType (propCtor : option Ctor) : option Problem :=
  match propCtor with
  | Some CArray => Some IsArray
  | Some CSet => Some IsSet
  | Some CMap => Some IsMap
  | _ => None
  end.

(** [Reflect.getMetadata("design:type", target, propKey)]: [None] when
    [isReflectMetadataSupported] is false, else the type found, if any. *)
Definition Reflection := option (option Ctor).

(** [jsonMember] used directly as a decorator (lines 51-85). *)
Definition decorate (reflection : Reflection) (target : Ctor) (propKey : string) : Decorated :=
  let className := nameof target in
  match reflection with
  | Some reflectPropCtor =>
      match reflectPropCtor with
      | None => ([Logged_error className propKey CouldNotResolveDetected], Ok None)
      | Some c =>
          match isSpecialPropertyType reflectPropCtor with
          | Some problem => ([Logged_error className propKey problem], Ok None)
          | None =>
              ([], Ok (Some {| ctor := Some c;
                               injectedEmitDefaultValue := None;
                               injectedIsRequired := None;
                               options := None;
                               key := propKey;
                               injectedName := propKey;
                               injectedDeserializer := None;
                               injectedSerializer := None |}))
          end
      end
  | None => ([Logged_error className propKey ReflectRequired], Ok None)
  end.

(** The last step of the decorator factory (lines 129-143). *)
Definition inject (log : list LogEntry) (options_ : IJsonMemberOptions)
           (propCtor : option Ctor) (target : Ctor) (_propKey : string) : Decorated :=
  match isSpecialPropertyType propCtor with
  | Some problem => ((log ++ [Logged_error (nameof target) _propKey problem])%list, Ok None)
  | None =>
      (log,
       Ok (Some {| ctor := propCtor;
                   injectedEmitDefaultValue := emitDefaultValue options_;
                   injectedIsRequired := isRequired options_;
                   options := extractOptionBase (preserveNull options_);
                   key := _propKey;
                   injectedName :=
                     match name options_ with
                     | Some n => if String.eqb n "" then _propKey else n
                     | None => _propKey
                     end;
                   injectedDeserializer := deserializer options_;
                   injectedSerializer := serializer options_ |}))
  end.

(** The decorator that [jsonMember(options)] returns (lines 89-144). *)
Definition decorateWith (E : Env) (reflection : Reflection) (options_ : IJsonMemberOptions)
           (target : Ctor) (_propKey : string) : Decorated :=
  let className := nameof target in
  match constructor options_ with
  | Some specified =>
      match specified with
      | None => ([Logged_error className _propKey CannotResolveSpecified], Ok None)
      | Some c =>
          match reflection with
          | Some (Some detected) =>
              if negb (isSubtypeOf E c detected) then
                inject [Logged_warning className _propKey TypeDoesNotMatch]
                       options_ (Some c) target _propKey
              else inject [] options_ (Some c) target _propKey
          | Some None =>
              (* [c.prototype instanceof undefined] *)
              ([], Raise (EHostTypeError "Right-hand side of 'instanceof' is not callable"))
          | None => inject [] options_ (Some c) target _propKey
          end
      end
  | None =>
      match reflection with
      | Some detected =>
          match detected with
          | None => ([Logged_error className _propKey CannotResolveDetected], Ok None)
          | Some _ => inject [] options_ detected target _propKey
          end
      | None =>
          match deserializer options_ with
          | None => ([Logged_error className _propKey ReflectRequired], Ok None)
          | Some _ => inject [] options_ None target _propKey
          end
      end
  end.

End JsonMember.

(** A log entry written with [logError]. *)
Definition isLoggedError (entry : JsonMember.LogEntry) : bool :=
  match entry with
  | JsonMember.Logged_error _ _ _ => true
  | JsonMember.Logged_warning _ _ _ => false
  end.

(* ================================================================== *)
(** ** A second small program *)

Module Sample.
Definition Point := CClass "Point".
Definition Loose := CClass "Loose".
Definition Figure := CClass "Figure".
Definition Polygon := CClass "Polygon".      (* extends Figure *)
Definition Triangle := CClass "Triangle".    (* extends Polygon *)

(** [@jsonMember({constructor: Number, isRequired: true}) x]. *)
Definition xMember : JsonMemberMetadata :=
  {| key := "x"; ctor := Some CNumber; elementType := None; keyType := None;
     isRequired := true; deserializer := None; memberOptions_ := None |}.

(** [@jsonMember({constructor: String, preserveNull: true}) label]. *)
Definition labelMember : JsonMemberMetadata :=
  {| key := "label"; ctor := Some CString; elementType := None; keyType := None;
     isRequired := false; deserializer := None;
     memberOptions_ := Some {| preserveNull := Some (Some true) |} |}.

(** A member registered with neither a constructor nor a deserializer. *)
Definition tagMember : JsonMemberMetadata :=
  {| key := "tag"; ctor := None; elementType := None; keyType := None;
     isRequired := false; deserializer := None; memberOptions_ := None |}.

Definition withMembers (c : Ctor) (members : list (string * JsonMemberMetadata))
  : JsonObjectMetadata :=
  {| classType := c; metadataName := None; isExplicitlyMarked := true;
     metadataKnownTypes := []; dataMembers := members;
     classOptions_ := None; initializerCallback := None;
     onDeserializedMethodName := None |}.

Definition pointMetadata : JsonObjectMetadata :=
  withMembers Point [("x", xMember); ("label", labelMember)].

Definition looseMetadata : JsonObjectMetadata :=
  withMembers Loose [("x", xMember); ("tag", tagMember)].

(** [@jsonObject({knownTypes: [Triangle]}) class Polygon extends Figure]. *)
Definition polygonMetadata : JsonObjectMetadata :=
  {| classType := Polygon; metadataName := None; isExplicitlyMarked := true;
     metadataKnownTypes := [Triangle]; dataMembers := [];
     classOptions_ := None; initializerCallback := None;
     onDeserializedMethodName := None |}.

(** The constructor of [Point] sets [x] to 0 and [visible] to [true]. *)
Definition env : Env :=
  {| StringToNumber := fun _ => NaN;
     ObjectToNumber := fun _ => NaN;
     superclasses := fun c =>
       match c with
       | CObject => []
       | CClass "Polygon" => [Figure; CObject]
       | CClass "Triangle" => [Polygon; Figure; CObject]
       | _ => [CObject]
       end;
     construct := fun c =>
       match c with
       | CClass "Point" => Ok (VObject c [("x", Example.num 0); ("visible", VBoolean true)])
       | _ => Ok (VObject c [])
       end;
     instanceMethod := fun _ _ => None;
     staticMethod := fun _ _ => None;
     getFromConstructor := fun c =>
       match c with
       | CClass "Point" => Some pointMetadata
       | CClass "Loose" => Some looseMetadata
       | CClass "Figure" => Some (withMembers Figure [])
       | CClass "Polygon" => Some polygonMetadata
       | CClass "Triangle" => Some (withMembers Triangle [])
       | _ => None
       end |}.



(** A deserializer with a name resolver that names a class after itself,
    with a prefix. *)
Definition prefixed : NameResolver := fun c => Ok ("app." ++ nameof c).

Definition named : Deserializer :=
  {| options := None;
     _typeResolver := defaultTypeResolver;
     _nameResolver := Callable prefixed;
     _errorHandler := fun error => logError error |}.

(** A deserializer whose error handler throws. *)
Definition strict : Deserializer :=
  {| options := None;
     _typeResolver := defaultTypeResolver;
     _nameResolver := NotCallable VUndefined;
     _errorHandler := fun error => Raise (EUser (VString "stop")) |}.

(** [@jsonMember({constructor: Number, name: "x-coordinate"})]. *)
Definition xOptions : JsonMember.IJsonMemberOptions :=
  {| JsonMember.constructor := Some (Some CNumber);
     JsonMember.isRequired := Some true;
     JsonMember.emitDefaultValue := None;
     JsonMember.name := Some "x-coordinate";
     JsonMember.deserializer := None;
     JsonMember.serializer := None;
     JsonMember.preserveNull := None |}.
End Sample.

(* ------------------------------------------------------------------ *)
(** *** Termination of the building blocks *)

Lemma terminates_ret {A} (a : A) : terminates (ret a).
Proof. intros w; simpl; discriminate. Qed.

Lemma terminates_throw {A} (e : Error) : terminates (@throw A e).
Proof. intros w; simpl; discriminate. Qed.

Lemma terminates_call {A} (r : Result A) : terminates (call r).
Proof. destruct r; [apply terminates_ret | apply terminates_throw]. Qed.

Lemma terminates_bind {A B} (m : M A) (k : A -> M B) :
  terminates m -> (forall a, terminates (k a)) -> terminates (bind m k).
Proof.
  intros Hm Hk w. unfold bind.
  specialize (Hm w). destruct (m w) as [[a | e |] w']; simpl in *.
  - apply Hk.
  - discriminate.
  - congruence.
Qed.

(** The same, with the continuation only at the values the first part
    returns. *)
Lemma terminates_bind_returned {A B} (m : M A) (k : A -> M B) :
  terminates m ->
  (forall a w w', m w = (Return a, w') -> terminates (k a)) ->
  terminates (bind m k).
Proof.
  intros Hm Hk w. unfold bind.
  specialize (Hm w). destruct (m w) as [[a | e |] w'] eqn:Hmw; simpl in *.
  - apply (Hk a w w' Hmw).
  - discriminate.
  - congruence.
Qed.

Lemma terminates_tryCatch {A} (m : M A) (h : Error -> M A) :
  terminates m -> (forall e, terminates (h e)) -> terminates (tryCatch m h).
Proof.
  intros Hm Hh w. unfold tryCatch.
  specialize (Hm w). destruct (m w) as [[a | e |] w']; simpl in *.
  - discriminate.
  - apply Hh.
  - congruence.
Qed.

Lemma terminates_foldM {A S} (f : S -> A -> M S) (l : list A) :
  (forall s x, In x l -> terminates (f s x)) -> forall s, terminates (foldM f l s).
Proof.
  induction l as [| x l IH]; intros Hf s; simpl.
  - apply terminates_ret.
  - apply terminates_bind.
    + apply Hf; left; reflexivity.
    + intros s'. apply IH. intros s0 y Hy. apply Hf; right; exact Hy.
Qed.

Lemma terminates_mapM {A B} (f : A -> M B) (l : list A) :
  (forall x, In x l -> terminates (f x)) -> terminates (mapM f l).
Proof.
  induction l as [| x l IH]; intros Hf; simpl.
  - apply terminates_ret.
  - apply terminates_bind.
    + apply Hf; left; reflexivity.
    + intros y. apply terminates_bind.
      * apply IH. intros z Hz. apply Hf; right; exact Hz.
      * intros ys. apply terminates_ret.
Qed.

Lemma terminates_report (d : Deserializer) (e : Error) : terminates (report d e).
Proof. intros w. unfold report. destruct (_errorHandler d e); simpl; discriminate. Qed.

Lemma terminates_getConstructorRead (v : value) : terminates (getConstructorRead v).
Proof.
  unfold getConstructorRead. destruct (readConstructor v);
    [apply terminates_ret | apply terminates_throw].
Qed.

Lemma terminates_getConstructor (v : value) : terminates (getConstructor v).
Proof.
  unfold getConstructor. apply terminates_bind;
    [apply terminates_getConstructorRead | intros; apply terminates_ret].
Qed.

Lemma terminates_makeTypeErrorMessage expected actual name :
  terminates (_makeTypeErrorMessage expected actual name).
Proof.
  unfold _makeTypeErrorMessage. destruct actual as [c | x];
    [apply terminates_ret |].
  destruct (canBeString x); [apply terminates_ret | apply terminates_throw].
Qed.

Lemma terminates_readProp (v : value) (k : string) : terminates (readProp v k).
Proof.
  unfold readProp. destruct (isValueDefined v);
    [apply terminates_ret | apply terminates_throw].
Qed.

(** One step of a termination proof: split a sequence, a [try], a
    conditional or a case distinction into its parts. *)
Ltac terminates_step :=
  match goal with
  | |- terminates (ret _) => apply terminates_ret
  | |- terminates (throw _) => apply terminates_throw
  | |- terminates (call _) => apply terminates_call
  | |- terminates (report _ _) => apply terminates_report
  | |- terminates (getConstructor _) => apply terminates_getConstructor
  | |- terminates (getConstructorRead _) => apply terminates_getConstructorRead
  | |- terminates (_makeTypeErrorMessage _ _ _) => apply terminates_makeTypeErrorMessage
  | |- terminates (readProp _ _) => apply terminates_readProp
  | |- terminates (bind _ _) => apply terminates_bind; [| intros ?]
  | |- terminates (tryCatch _ _) => apply terminates_tryCatch; [| intros ?]
  | |- terminates (let '(_, _) := ?p in _) => destruct p
  | |- terminates (match ?x with _ => _ end) => destruct x eqn:?
  end.

Lemma readProp_returned (v : value) (k : string) (a : value) (w w' : World) :
  readProp v k w = (Return a, w') -> a = getProp v k.
Proof.
  unfold readProp. destruct (isValueDefined v); cbv [ret throw]; congruence.
Qed.

Lemma terminates_resolveName (d : Deserializer) (c : Ctor) (resolved : M string) :
  resolveName d c = Some resolved -> terminates resolved.
Proof.
  unfold resolveName. destruct (_nameResolver d) as [v | f].
  - destruct (truthy v); [| discriminate].
    intros H; injection H as <-. apply terminates_throw.
  - intros H; injection H as <-. apply terminates_call.
Qed.

Lemma terminates_mergeKnownTypes (d : Deserializer) maps :
  terminates (_mergeKnownTypes d maps).
Proof.
  unfold _mergeKnownTypes. apply terminates_foldM. intros s x _.
  apply terminates_foldM. intros s' [name c] _.
  destruct (resolveName d c) eqn:Hname; [| apply terminates_ret].
  apply terminates_bind; [eapply terminates_resolveName; eassumption |].
  intros n. apply terminates_ret.
Qed.

Section EngineTerminates.
Variable E : Env.

Lemma terminates_createKnownTypesMap (d : Deserializer) knowTypes :
  terminates (_createKnownTypesMap E d knowTypes).
Proof.
  unfold _createKnownTypesMap. apply terminates_foldM. intros s c _.
  destruct (resolveName d c) eqn:Hname; [| apply terminates_ret].
  apply terminates_bind; [eapply terminates_resolveName; eassumption |].
  intros n. apply terminates_ret.
Qed.

Lemma terminates_mergeWithOwnKnownTypes (d : Deserializer) known metadata :
  terminates (mergeWithOwnKnownTypes E d known metadata).
Proof.
  unfold mergeWithOwnKnownTypes. destruct metadata.
  - apply terminates_bind; [apply terminates_createKnownTypesMap |].
    intros own. apply terminates_mergeKnownTypes.
  - apply terminates_ret.
Qed.

Lemma terminates_applyTypeHint (d : Deserializer) hint expected metadata known :
  terminates (applyTypeHint E d hint expected metadata known).
Proof.
  unfold applyTypeHint. destruct hint as [hinted |]; [| apply terminates_ret].
  apply terminates_bind; [apply terminates_call | intros subtype].
  destruct subtype; [| apply terminates_ret].
  apply terminates_bind; [apply terminates_mergeWithOwnKnownTypes |].
  intros. apply terminates_ret.
Qed.

Lemma terminates_instantiateTarget (d : Deserializer) metadata expected staged source name :
  terminates (instantiateTarget E d metadata expected staged source name).
Proof.
  unfold instantiateTarget, _instantiateType. repeat terminates_step.
Qed.

Lemma terminates_callOnDeserialized (d : Deserializer) metadata target :
  terminates (callOnDeserialized E d metadata target).
Proof. unfold callOnDeserialized. repeat terminates_step. Qed.

Lemma terminates_stageMember (d : Deserializer) mm name opts revived staged :
  terminates (stageMember d mm name opts revived staged).
Proof. unfold stageMember. repeat terminates_step. Qed.
End EngineTerminates.

(* ------------------------------------------------------------------ *)
(** *** Components are shallower than the value they belong to *)

Lemma list_max_In {A} (f : A -> nat) (l : list A) (x : A) :
  In x l -> f x <= list_max (map f l).
Proof.
  induction l as [| y l IH]; simpl; [tauto |].
  intros [-> | H]; [lia | specialize (IH H); lia].
Qed.

Lemma assoc_In {A} (k : string) (l : list (string * A)) (x : A) :
  assoc k l = Some x -> exists k', In (k', x) l.
Proof.
  induction l as [| [k' y] l IH]; simpl; [discriminate |].
  destruct (String.eqb k' k).
  - intros H; injection H as ->. exists k'. left; reflexivity.
  - intros H. destruct (IH H) as [k0 Hk0]. exists k0. right; exact Hk0.
Qed.

Lemma indexed_from_In {A} (l : list A) (i : nat) (k : string) (x : A) :
  In (k, x) (indexed_from i l) -> In x l.
Proof.
  revert i. induction l as [| y l IH]; simpl; intros i; [tauto |].
  intros [H | H].
  - injection H as _ ->. left; reflexivity.
  - right. eapply IH; exact H.
Qed.

Lemma depth_getProp (v : value) (k : string) : depth (getProp v k) <= pred (depth v).
Proof.
  unfold getProp. destruct (assoc k (ownEntries v)) as [x |] eqn:Hx; [| simpl; lia].
  apply assoc_In in Hx. destruct Hx as [k' Hin].
  destruct v; simpl in *; try tauto.
  - apply indexed_from_In in Hin. apply (list_max_In depth _ _ Hin).
  - apply (list_max_In (fun kv => depth (snd kv)) _ _ Hin).
  - apply indexed_from_In in Hin. apply in_map_iff in Hin.
    destruct Hin as [n [<- _]]. simpl; lia.
Qed.

Lemma depth_forEachElements (v : value) (elems : list value) (x : value) :
  forEachElements v = Some elems -> In x elems -> depth x <= pred (depth v).
Proof.
  destruct v; simpl; try discriminate; intros H; injection H as <-; intros Hin.
  - apply (list_max_In depth _ _ Hin).
  - apply in_map_iff in Hin. destruct Hin as [n [<- _]]. simpl; lia.
  - apply (list_max_In depth _ _ Hin).
  - apply in_map_iff in Hin. destruct Hin as [[a b] [<- Hin]].
    apply (list_max_In (fun kv => depth (snd kv)) _ _ Hin).
Qed.

Lemma depth_object (v : value) :
  typeof_object v = true -> is_null v = false -> 1 <= depth v.
Proof. destruct v; simpl; try discriminate; intros; lia. Qed.

(* ------------------------------------------------------------------ *)
(** *** The conversions terminate *)

Section ConversionsTerminate.
Variable E : Env.

(** With a budget above [stackNeeded], none of the five conversions runs
    out of stack.  The container and object conversions need one frame
    less than [convertSingleValue], which calls them. *)
Lemma conversions_terminate_aux (fuel : nat) :
  (forall d v ti name opts,
      2 * depth v < fuel -> terminates (convertSingleValue E fuel d v ti name opts))
  /\ (forall d v ti name opts,
      2 * depth v <= fuel -> 1 <= fuel ->
      terminates (convertAsObject E fuel d v ti name opts))
  /\ (forall d v ti name opts,
      2 * depth v <= fuel -> 1 <= fuel ->
      terminates (convertAsArray E fuel d v ti name opts))
  /\ (forall d v ti name opts,
      2 * depth v <= fuel -> 1 <= fuel ->
      terminates (convertAsSet E fuel d v ti name opts))
  /\ (forall d v ti name opts,
      2 * depth v <= fuel -> 1 <= fuel ->
      terminates (convertAsMap E fuel d v ti name opts)).
Proof.
  induction fuel as [| fuel IH].
  - repeat split; intros; lia.
  - destruct IH as (IHv & IHo & IHa & IHs & IHm).
    split; [| split; [| split; [| split]]]; intros d v ti name opts Hfuel.
    + (* convertSingleValue *)
      cbn [convertSingleValue].
      apply terminates_bind; [apply terminates_call | intros srcName].
      repeat match goal with
             | |- terminates (if ?b then _ else _) => destruct b eqn:?
             | |- terminates (bind (call (isNumericArray _ _)) _) =>
                 apply terminates_bind; [apply terminates_call | intros [?|]]
             | |- terminates (bind (getConstructorRead _) _) =>
                 apply terminates_bind; [apply terminates_getConstructorRead | intros ?]
             | |- terminates (bind (_makeTypeErrorMessage _ _ _) _) =>
                 apply terminates_bind; [apply terminates_makeTypeErrorMessage | intros ?]
             | |- terminates (ret _) => apply terminates_ret
             | |- terminates (throw _) => apply terminates_throw
             end.
      all: try (destruct v; repeat terminates_step; fail).
      * apply IHa; [lia |]. destruct v; simpl in *; try discriminate; lia.
      * apply IHs; [lia |]. destruct v; simpl in *; try discriminate; lia.
      * apply IHm; [lia |]. destruct v; simpl in *; try discriminate; lia.
      * apply IHo; [lia |]. destruct v; simpl in *; try discriminate; lia.
    + (* convertAsObject *)
      intros _. cbn [convertAsObject].
      destruct (negb (typeof_object v) || is_null v) eqn:Hobj;
        [repeat terminates_step |].
      apply orb_false_iff in Hobj. destruct Hobj as [Hobj Hnull].
      apply negb_false_iff in Hobj.
      pose proof (depth_object v Hobj Hnull) as Hdepth.
      apply terminates_bind.
      { unfold resolveObjectType.
        apply terminates_bind; [apply terminates_mergeWithOwnKnownTypes | intros known].
        apply terminates_bind; [apply terminates_call | intros hint].
        apply terminates_applyTypeHint. }
      intros [[expected metadata] known']. unfold convertResolved.
      destruct (explicitlyMarked metadata) as [sourceMetadata |].
      * apply terminates_bind.
        -- unfold deserializeMembers.
           apply terminates_foldM. intros staged [propKey memberMetadata] _.
           apply terminates_bind; [| intros; apply terminates_stageMember].
           destruct (deserializer memberMetadata); [apply terminates_call |].
           destruct (ctor memberMetadata); [| apply terminates_throw].
           apply IHv. pose proof (depth_getProp v propKey). lia.
        -- intros staged. unfold finishObject.
           apply terminates_bind; [apply terminates_instantiateTarget |].
           intros [target |];
             [apply terminates_callOnDeserialized | apply terminates_ret].
      * unfold convertUntyped.
        apply terminates_bind; [| intros; apply terminates_ret].
        apply terminates_foldM. intros target sourceKey _. unfold convertUntypedMember.
        apply terminates_bind; [apply terminates_getConstructor | intros c].
        apply terminates_bind; [| intros; apply terminates_ret].
        apply IHv. pose proof (depth_getProp v sourceKey). lia.
    + (* convertAsArray *)
      intros _. cbn [convertAsArray].
      destruct v; try (repeat terminates_step; fail).
      destruct (elementConstructor ti) as [[| first others] |];
        try (repeat terminates_step; fail).
      apply terminates_bind; [| intros; apply terminates_ret].
      apply terminates_mapM. intros x Hx.
      unfold convertArrayElement.
      apply terminates_tryCatch; [| intros; repeat terminates_step].
      apply IHv. pose proof (list_max_In depth _ _ Hx). simpl in Hfuel. lia.
    + (* convertAsSet *)
      intros _. cbn [convertAsSet].
      destruct v; try (repeat terminates_step; fail).
      destruct (elementConstructor ti) as [[| first others] |];
        try (repeat terminates_step; fail).
      apply terminates_bind; [| intros; apply terminates_ret].
      apply terminates_foldM. intros resultSet [i x] Hx.
      apply in_combine_r in Hx.
      apply terminates_tryCatch; [| intros; repeat terminates_step].
      apply terminates_bind; [| intros; apply terminates_ret].
      apply IHv. pose proof (list_max_In depth _ _ Hx). simpl in Hfuel. lia.
    + (* convertAsMap *)
      intros _. cbn [convertAsMap].
      apply terminates_bind;
        [destruct (instanceof_Array v); repeat terminates_step | intros _].
      destruct (keyConstructor ti) as [keyCtor |];
        [| repeat terminates_step].
      destruct (elementConstructor ti) as [[| first others] |];
        try (repeat terminates_step; fail).
      destruct (forEachElements v) as [elems |] eqn:Helems;
        [| apply terminates_throw].
      apply terminates_bind; [| intros; apply terminates_ret].
      apply terminates_foldM. intros resultMap element Helement.
      pose proof (depth_forEachElements v elems element Helems Helement) as Hdepth.
      assert (1 <= depth v) as Hv
          by (destruct v; simpl in *; try discriminate; lia).
      unfold convertMapEntry.
      apply terminates_tryCatch; [| intros; repeat terminates_step].
      apply terminates_bind_returned; [apply terminates_readProp |].
      intros rawKey w w' HrawKey. apply readProp_returned in HrawKey. subst rawKey.
      apply terminates_bind.
      * apply IHv. pose proof (depth_getProp element "key"). lia.
      * intros key. destruct (isValueDefined key); [| apply terminates_ret].
        apply terminates_bind_returned; [apply terminates_readProp |].
        intros rawValue w0 w0' HrawValue.
        apply readProp_returned in HrawValue. subst rawValue.
        apply terminates_bind; [| intros; apply terminates_ret].
        apply IHv. pose proof (depth_getProp element "value"). lia.
Qed.

(** The same for every budget above [stackNeeded]. *)
Lemma convertSingleValue_terminates fuel d v ti name opts :
  stackNeeded v < fuel -> terminates (convertSingleValue E fuel d v ti name opts).
Proof. apply conversions_terminate_aux. Qed.

Lemma convertAsObject_terminates fuel d v ti name opts :
  stackNeeded v < fuel -> terminates (convertAsObject E fuel d v ti name opts).
Proof. unfold stackNeeded. intros H. apply conversions_terminate_aux; lia. Qed.

Lemma convertAsArray_terminates fuel d v ti name opts :
  stackNeeded v < fuel -> terminates (convertAsArray E fuel d v ti name opts).
Proof. unfold stackNeeded. intros H. apply conversions_terminate_aux; lia. Qed.

Lemma convertAsSet_terminates fuel d v ti name opts :
  stackNeeded v < fuel -> terminates (convertAsSet E fuel d v ti name opts).
Proof. unfold stackNeeded. intros H. apply conversions_terminate_aux; lia. Qed.

Lemma convertAsMap_terminates fuel d v ti name opts :
  stackNeeded v < fuel -> terminates (convertAsMap E fuel d v ti name opts).
Proof. unfold stackNeeded. intros H. apply conversions_terminate_aux; lia. Qed.
End ConversionsTerminate.


(* ------------------------------------------------------------------ *)
(** *** The name of the source's type (line 249) *)

Lemma bind_call_Ok {A B} (r : Result A) (a : A) (k : A -> M B) (w : World) :
  r = Ok a -> bind (call r) k w = k a w.
Proof. intros ->. reflexivity. Qed.

Lemma bind_call_Raise {A B} (r : Result A) (e : Error) (k : A -> M B) (w : World) :
  r = Raise e -> bind (call r) k w = (Throw e, w).
Proof. intros ->. reflexivity. Qed.

(** A value whose [constructor] is a function has a type name. *)
Lemma srcName_of_constructor (v : value) (c : Ctor) :
  constructorOf v = Some c -> exists srcName, srcTypeNameForDebug v = Ok srcName.
Proof.
  unfold constructorOf, srcTypeNameForDebug.
  destruct (readConstructor v) as [[c' | x] |]; try discriminate.
  intros _. destruct (truthy v); eexists; reflexivity.
Qed.

(** The name cannot be read of an object with an own [constructor] property
    that holds [undefined] or [null], and of such an object only. *)
Lemma srcTypeNameForDebug_fails (v : value) :
  (exists e, srcTypeNameForDebug v = Raise e)
  <-> exists cls props x,
        v = VObject cls props
        /\ assoc "constructor" props = Some x
        /\ isValueDefined x = false.
Proof.
  split.
  - intros [e He]. unfold srcTypeNameForDebug in He.
    destruct (truthy v); [| discriminate He].
    destruct v; simpl in He; try discriminate He.
    destruct (assoc "constructor" props) as [x |] eqn:Hown; [| discriminate He].
    exists cls, props, x. split; [reflexivity |]. split; [exact Hown |].
    destruct x; simpl in He; try discriminate He; try reflexivity.
    destruct (assoc "name" props0) as [[] |]; discriminate He.
  - intros (cls & props & x & -> & Hown & Hx). unfold srcTypeNameForDebug. simpl.
    rewrite Hown. destruct x; try discriminate Hx; simpl; eauto.
Qed.

Lemma constructor_defined (v : value) (c : Ctor) :
  constructorOf v = Some c -> isValueDefined v = true.
Proof. destruct v; simpl; try discriminate; reflexivity. Qed.

Lemma readConstructor_of_constructor (v : value) (c : Ctor) :
  constructorOf v = Some c -> readConstructor v = Some (CtorFunction c).
Proof.
  unfold constructorOf. destruct (readConstructor v) as [[c' | x] |]; congruence.
Qed.

(* ================================================================== *)
(** ** The policy setters (lines 35-55) *)

Lemma setTypeResolver_validates (d : Deserializer) (v : value) :
  setTypeResolver d (NotCallable v) = Raise (ENotAFunction "typeResolverCallback").
Proof. reflexivity. Qed.

Lemma setErrorHandler_validates (d : Deserializer) (v : value) :
  setErrorHandler d (NotCallable v) = Raise (ENotAFunction "errorHandlerCallback").
Proof. reflexivity. Qed.

Lemma setTypeResolver_installs (d : Deserializer) (f : TypeResolver) :
  exists d', setTypeResolver d (Callable f) = Ok d' /\ _typeResolver d' = f.
Proof. eexists; split; reflexivity. Qed.

Lemma setErrorHandler_installs (d : Deserializer) (f : ErrorHandler) :
  exists d', setErrorHandler d (Callable f) = Ok d' /\ _errorHandler d' = f.
Proof. eexists; split; reflexivity. Qed.

(** C8: [setTypeResolver] and [setErrorHandler] reject a value that is not a
    function with a [TypeError], but [setNameResolver] does not: called with
    the number 5 it returns normally and installs the number as the name
    resolver, and the next merge of known types fails on calling it. *)
Theorem C8_setNameResolver_installs_non_callable :
  exists d',
    setNameResolver newDeserializer (NotCallable (Example.num 5)) = Ok d'
    /\ _nameResolver d' = NotCallable (Example.num 5)
    /\ _mergeKnownTypes d' [[("Circle", Example.Circle)]] []
       = (Throw (EHostTypeError "this._nameResolver is not a function"), []).
Proof. eexists; repeat split; reflexivity. Qed.

(* ================================================================== *)
(** ** convertSingleValue: dates (lines 270-279) *)

Section SingleValue.
Variable E : Env.

(** A defined value gets past the two [null]/[undefined] tests. *)
Lemma defined_not_null (v : value) : isValueDefined v = true -> is_null v = false.
Proof. destruct v; simpl; congruence. Qed.

(** C5 (as amended): with [Date] expected, every string, whatever its
    format, and every number greater than zero is handed to [new Date];
    every other defined value, once the name of its type has been read
    (line 249), is refused with a type-mismatch error that carries that
    name. *)
Theorem C5_date_conversion fuel d ti name opts w :
  selfConstructor ti = CDate ->
  (forall s,
      convertSingleValue E (S fuel) d (VString s) ti name opts w
      = (Return (VDate (DateOfString s)), w))
  /\ (forall n, SFltb zero n = true ->
      convertSingleValue E (S fuel) d (VNumber n) ti name opts w
      = (Return (VDate (DateOfNumber n)), w))
  /\ (forall v srcName,
      isValueDefined v = true -> typeof_string v = false ->
      (forall n, v = VNumber n -> SFltb zero n = false) ->
      srcTypeNameForDebug v = Ok srcName ->
      convertSingleValue E (S fuel) d v ti name opts w
      = (Throw (ETypeMismatch "Date" "an ISO-8601 string" srcName name), w)).
Proof.
  intros Hself. repeat split.
  - intros s. cbn [convertSingleValue]. rewrite Hself.
    destruct (srcName_of_constructor (VString s) CString eq_refl) as [srcName Hname].
    rewrite (bind_call_Ok _ srcName _ _ Hname).
    simpl. rewrite andb_false_r. reflexivity.
  - intros n Hn. cbn [convertSingleValue]. rewrite Hself.
    destruct (srcName_of_constructor (VNumber n) CNumber eq_refl) as [srcName Hname].
    rewrite (bind_call_Ok _ srcName _ _ Hname).
    simpl. rewrite andb_false_r, Hn. reflexivity.
  - intros v srcName Hdefined Hstring Hnumber Hname. cbn [convertSingleValue].
    rewrite Hself, (bind_call_Ok _ srcName _ _ Hname).
    rewrite (defined_not_null v Hdefined), andb_false_r, Hdefined.
    destruct v; try discriminate; try reflexivity.
    simpl. rewrite (Hnumber n eq_refl). reflexivity.
Qed.
End SingleValue.

(** C5, as the claim has it, at a string that is not a date. *)
Lemma C5_counterexample :
  convertSingleValue Example.env 1 newDeserializer (VString "next tuesday")
                     (Example.scope CDate) Example.object None []
  = (Return (VDate (DateOfString "next tuesday")), [])
  /\ forall e w,
      convertSingleValue Example.env 1 newDeserializer (VString "next tuesday")
                         (Example.scope CDate) Example.object None []
      <> (Throw e, w).
Proof. split; [reflexivity | intros e w; discriminate]. Qed.

Lemma C5_date_conversion_witness :
  selfConstructor (Example.scope CDate) = CDate
  /\ convertSingleValue Example.env 1 newDeserializer (VBoolean true)
                        (Example.scope CDate) Example.object None []
     = (Throw (ETypeMismatch "Date" "an ISO-8601 string" "Boolean" Example.object), []).
Proof.
  split; [reflexivity |].
  apply (C5_date_conversion Example.env 0 newDeserializer (Example.scope CDate)
                            Example.object None [] eq_refl).
  - reflexivity.
  - reflexivity.
  - intros n H; discriminate H.
  - reflexivity.
Defined.

(* ================================================================== *)
(** ** convertSingleValue: typed arrays (lines 280-333) *)


Section TypedArrays.
Variable E : Env.

(** When every element can be converted to a number, [every] is the test of
    all the elements. *)
Lemma everyNotNaN_convertible (elems : list value) :
  forallb canBeString elems = true ->
  everyNotNaN E elems = Ok (forallb (fun elem => negb (isNaN E elem)) elems).
Proof.
  induction elems as [| elem elems IH]; simpl; [reflexivity |].
  intros Hall. apply andb_true_iff in Hall. destruct Hall as [Helem Hrest].
  unfold isNaN_call. rewrite Helem.
  destruct (isNaN E elem); simpl; [reflexivity | apply IH; exact Hrest].
Qed.

Lemma isNumericArray_NaN (elems : list value) :
  forallb canBeString elems = true ->
  In (VNumber NaN) elems -> isNumericArray E (VArray elems) = Ok None.
Proof.
  intros Hconvertible Hin. unfold isNumericArray.
  rewrite (everyNotNaN_convertible elems Hconvertible).
  destruct (forallb (fun elem => negb (isNaN E elem)) elems) eqn:Hall; [| reflexivity].
  rewrite forallb_forall in Hall. specialize (Hall _ Hin). discriminate Hall.
Qed.

Lemma typed_array_branch fuel d ti name opts w (kind : Ctor) (v : value) (srcName : string)
      (numeric : option (list value)) :
  In kind typedArrayBranches ->
  selfConstructor ti = kind ->
  isValueDefined v = true ->
  srcTypeNameForDebug v = Ok srcName ->
  isNumericArray E v = Ok numeric ->
  convertSingleValue E (S fuel) d v ti name opts w
  = (match numeric with
     | Some elems => Return (typedArrayOf E kind elems)
     | None => Throw (ETypeMismatch (nameof kind) "a numeric source array" srcName name)
     end, w).
Proof.
  intros Hkind Hself Hdefined Hname Hnumeric. cbn [convertSingleValue].
  rewrite Hself, (bind_call_Ok _ srcName _ _ Hname).
  rewrite (defined_not_null v Hdefined), andb_false_r, Hdefined.
  unfold typedArrayBranches in Hkind. simpl in Hkind.
  repeat (destruct Hkind as [<- | Hkind];
          [simpl; rewrite (bind_call_Ok _ numeric _ _ Hnumeric);
           destruct numeric; reflexivity |]).
  contradiction.
Qed.

(** C6 (as amended): for each of the six typed-array constructors the
    deserializer knows, a source array none of whose elements is NaN under
    numeric coercion is turned into the typed array, and any other defined
    source, once the name of its type has been read (line 249), is refused
    with a type-mismatch error that carries that name.  The NaN test is the
    same for the integer variants as for the floating-point ones: a source
    array that contains NaN is refused by all six.  (The elements of the
    array are taken to be convertible to a number; the test itself throws at
    an object that is not.) *)
Theorem C6_typed_array_conversion fuel d ti name opts w (kind : Ctor) :
  In kind typedArrayBranches ->
  selfConstructor ti = kind ->
  (forall elems,
      forallb canBeString elems = true ->
      forallb (fun elem => negb (isNaN E elem)) elems = true ->
      convertSingleValue E (S fuel) d (VArray elems) ti name opts w
      = (Return (typedArrayOf E kind elems), w))
  /\ (forall v srcName,
      isValueDefined v = true -> isNumericArray E v = Ok None ->
      srcTypeNameForDebug v = Ok srcName ->
      convertSingleValue E (S fuel) d v ti name opts w
      = (Throw (ETypeMismatch (nameof kind) "a numeric source array" srcName name), w))
  /\ (forall elems,
      forallb canBeString elems = true ->
      In (VNumber NaN) elems ->
      convertSingleValue E (S fuel) d (VArray elems) ti name opts w
      = (Throw (ETypeMismatch (nameof kind) "a numeric source array" "Array" name), w)).
Proof.
  intros Hkind Hself. repeat split.
  - intros elems Hconvertible Hall.
    apply (typed_array_branch fuel d ti name opts w kind (VArray elems) "Array"
             (Some elems) Hkind Hself eq_refl eq_refl).
    unfold isNumericArray. rewrite (everyNotNaN_convertible elems Hconvertible), Hall.
    reflexivity.
  - intros v srcName Hdefined Hnone Hname.
    apply (typed_array_branch fuel d ti name opts w kind v srcName None Hkind Hself
             Hdefined Hname Hnone).
  - intros elems Hconvertible Hin.
    apply (typed_array_branch fuel d ti name opts w kind (VArray elems) "Array" None
             Hkind Hself eq_refl eq_refl).
    apply isNumericArray_NaN; assumption.
Qed.
End TypedArrays.

(** C6, as the claim has it, at an integer variant and a source array that
    contains NaN: the array is refused, not accepted. *)
Lemma C6_counterexample :
  convertSingleValue Example.env 1 newDeserializer
                     (VArray [Example.num 1; VNumber NaN])
                     (Example.scope CUint8Array) Example.object None []
  = (Throw (ETypeMismatch "Uint8Array" "a numeric source array" "Array" Example.object), [])
  /\ forall x w,
      convertSingleValue Example.env 1 newDeserializer
                         (VArray [Example.num 1; VNumber NaN])
                         (Example.scope CUint8Array) Example.object None []
      <> (Return x, w).
Proof. split; [reflexivity | intros x w; discriminate]. Qed.

Lemma C6_typed_array_conversion_witness :
  In CUint16Array typedArrayBranches
  /\ selfConstructor (Example.scope CUint16Array) = CUint16Array
  /\ convertSingleValue Example.env 1 newDeserializer
                        (VArray [Example.num 65537; Example.num 2])
                        (Example.scope CUint16Array) Example.object None []
     = (Return (VTypedArray CUint16Array [number_of_Z 1; number_of_Z 2]), []).
Proof.
  assert (Hkind : In CUint16Array typedArrayBranches) by (simpl; tauto).
  split; [exact Hkind |]. split; [reflexivity |].
  exact (proj1 (C6_typed_array_conversion Example.env 0 newDeserializer
                  (Example.scope CUint16Array) Example.object None []
                  CUint16Array Hkind eq_refl)
               [Example.num 65537; Example.num 2] eq_refl eq_refl).
Defined.

(* ================================================================== *)
(** ** convertAsArray (lines 375-416) *)


Lemma report_returns (d : Deserializer) (e : Error) (w : World) :
  handlerReturns d -> report d e w = (Return tt, (w ++ [e])%list).
Proof. intros H. unfold report. rewrite (H e). reflexivity. Qed.


Lemma slots_length convert xs w ys w' :
  slots convert xs w ys w' -> List.length ys = List.length xs.
Proof. induction 1; simpl; congruence. Qed.

(** Index alignment: slot [i] of the output belongs to element [i]. *)
Lemma slots_nth convert xs w ys w' :
  slots convert xs w ys w' ->
  forall i, i < List.length xs ->
    exists wi wi',
      convert (nth i xs VUndefined) wi = (Return (nth i ys VUndefined), wi')
      \/ (exists e, convert (nth i xs VUndefined) wi = (Throw e, wi')
                    /\ nth i ys VUndefined = VUndefined).
Proof.
  induction 1 as [w | x xs y ys w w1 w2 Hx _ IH | x xs e ys w w1 w2 Hx _ IH];
    intros i Hi; simpl in Hi.
  - lia.
  - destruct i as [| i]; simpl.
    + exists w, w1. left; exact Hx.
    + apply IH; lia.
  - destruct i as [| i]; simpl.
    + exists w, w1. right. exists e. split; [exact Hx | reflexivity].
    + apply IH; lia.
Qed.

Section Arrays.
Variable E : Env.

Lemma mapM_convertArrayElement (convert : Converter) d ti name opts elems :
  handlerReturns d ->
  (forall x, In x elems -> terminates (convert x ti (LElement name) opts)) ->
  forall w, exists out w',
    mapM (convertArrayElement convert d ti name opts) elems w = (Return out, w')
    /\ slots (fun x => convert x ti (LElement name) opts) elems w out w'.
Proof.
  intros Hhandler. induction elems as [| x elems IH]; intros Hterm w.
  - exists [], w. split; [reflexivity | constructor].
  - assert (Hx : terminates (convert x ti (LElement name) opts))
      by (apply Hterm; left; reflexivity).
    assert (Hrest : forall y, In y elems -> terminates (convert y ti (LElement name) opts))
      by (intros y Hy; apply Hterm; right; exact Hy).
    specialize (Hx w). simpl. unfold bind at 1. unfold convertArrayElement at 1.
    unfold tryCatch.
    destruct (convert x ti (LElement name) opts w) as [[y | e |] w1] eqn:Hconv.
    + destruct (IH Hrest w1) as (out & w' & Hout & Hslots).
      exists (y :: out), w'. split.
      * unfold bind. rewrite Hout. reflexivity.
      * eapply slots_converted; eassumption.
    + destruct (IH Hrest (w1 ++ [e])%list) as (out & w' & Hout & Hslots).
      exists (VUndefined :: out), w'. split.
      * unfold bind. rewrite (report_returns d e w1 Hhandler).
        cbv [ret]. rewrite Hout. reflexivity.
      * eapply slots_failed; eassumption.
    + simpl in Hx. congruence.
Qed.

(** C2: with an element constructor in the scope and an error handler that
    returns, [convertAsArray] returns, for every source array, an array of
    the same length whose slots are, in order, the converted elements, with
    [undefined] in the slot of every element whose conversion threw and that
    error handed to the error handler. *)
Theorem C2_convertAsArray_preserves_length fuel d ti name opts elems first others w :
  handlerReturns d ->
  elementConstructor ti = Some (first :: others) ->
  stackNeeded (VArray elems) < S fuel ->
  exists out w',
    convertAsArray E (S fuel) d (VArray elems) ti name opts w = (Return (VArray out), w')
    /\ List.length out = List.length elems
    /\ slots (fun x => convertSingleValue E fuel d x (elementScope first others ti)
                                          (LElement name) opts)
             elems w out w'.
Proof.
  intros Hhandler Hctor Hfuel.
  destruct (mapM_convertArrayElement (convertSingleValue E fuel d) d
              (elementScope first others ti) name opts elems Hhandler) with (w := w)
    as (out & w' & Hout & Hslots).
  - intros x Hx. apply convertSingleValue_terminates.
    unfold stackNeeded in *. pose proof (list_max_In depth _ _ Hx). simpl in Hfuel. lia.
  - exists out, w'. split; [| split].
    + cbn [convertAsArray]. rewrite Hctor. unfold bind. rewrite Hout. reflexivity.
    + eapply slots_length; exact Hslots.
    + exact Hslots.
Qed.
End Arrays.

(** The array of section 8 of the specification: [[1, "bad", 3]] against
    [Number] gives [[1, undefined, 3]] and one reported error. *)
Example convertAsArray_one_bad_element :
  convertAsArray Example.env 2 newDeserializer
                 (VArray [Example.num 1; VString "bad"; Example.num 3])
                 (Example.container CArray CNumber None) Example.object None []
  = (Return (VArray [Example.num 1; VUndefined; Example.num 3]),
     [ETypeErrorMessage "Number" "String" (LElement Example.object)]).
Proof. reflexivity. Qed.

Lemma C2_convertAsArray_preserves_length_witness :
  handlerReturns newDeserializer
  /\ elementConstructor (Example.container CArray CNumber None) = Some [CNumber]
  /\ stackNeeded (VArray [Example.num 1; VString "bad"; Example.num 3]) < 3
  /\ exists out w',
      convertAsArray Example.env 3 newDeserializer
                     (VArray [Example.num 1; VString "bad"; Example.num 3])
                     (Example.container CArray CNumber None) Example.object None []
      = (Return (VArray out), w')
      /\ List.length out = 3.
Proof.
  assert (Hhandler : handlerReturns newDeserializer) by (intros e; reflexivity).
  assert (Hfuel : stackNeeded (VArray [Example.num 1; VString "bad"; Example.num 3]) < 3)
    by (vm_compute; lia).
  split; [exact Hhandler |]. split; [reflexivity |]. split; [exact Hfuel |].
  destruct (C2_convertAsArray_preserves_length Example.env 2 newDeserializer
              (Example.container CArray CNumber None) Example.object None
              [Example.num 1; VString "bad"; Example.num 3] CNumber [] []
              Hhandler eq_refl Hfuel)
    as (out & w' & Hrun & Hlen & _).
  exists out, w'. split; [exact Hrun | exact Hlen].
Defined.

(* ================================================================== *)
(** ** convertAsMap (lines 465-528) *)

Section MapEntries.
Variables (convert : Converter) (d : Deserializer).
Variables (keyTypeInfo valueTypeInfo : IScopeTypeInfo).
Variables (memberName : label) (memberOptions : option OptionsBase).

Local Abbreviation entry :=
  (convertMapEntry convert d keyTypeInfo valueTypeInfo memberName memberOptions).
Local Abbreviation convertKey element :=
  (convert (getProp element "key") keyTypeInfo memberName memberOptions).
Local Abbreviation convertValue element key :=
  (convert (getProp element "value") valueTypeInfo (LKey memberName key) memberOptions).

Hypothesis handler_returns : handlerReturns d.





End MapEntries.

Section Maps.
Variable E : Env.



End Maps.


(* ------------------------------------------------------------------ *)
(** *** A source that is not an array *)

Section NotAnArray.
Variable E : Env.

Lemma defined_has_constructor (v : value) :
  isValueDefined v = true -> exists fn, readConstructor v = Some fn.
Proof.
  destruct v; simpl; try discriminate; eauto.
  intros _. destruct (assoc "constructor" props); eauto.
Qed.

Lemma no_forEach_not_array (v : value) :
  forEachElements v = None -> instanceof_Array v = false.
Proof. destruct v; simpl; congruence. Qed.

(** C9 (as amended): for a source that has no [forEach] method, neither as
    one of the built-in collections nor from its class (so is not an array),
    and whose [constructor] is a function, in a scope with a key
    constructor and an element constructor and with an error handler that
    returns, [convertAsMap] reports the type error and, not returning there,
    throws a [TypeError] at [sourceObject.forEach]; [convertAsArray] and
    [convertAsSet] report the same error and return an empty container. *)
Theorem C9_map_of_non_array fuel d ti name opts w v c keyCtor first others :
  handlerReturns d ->
  keyConstructor ti = Some keyCtor ->
  elementConstructor ti = Some (first :: others) ->
  forEachElements v = None ->
  findInstanceMethod E v "forEach" = None ->
  constructorOf v = Some c ->
  convertAsMap E (S fuel) d v ti name opts w
  = (Throw (EHostTypeError "sourceObject.forEach is not a function"),
     (w ++ [ETypeErrorMessage "Array" (nameof c) name])%list)
  /\ convertAsArray E (S fuel) d v ti name opts w
     = (Return (VArray []), (w ++ [ETypeErrorMessage "Array" (nameof c) name])%list)
  /\ convertAsSet E (S fuel) d v ti name opts w
     = (Return (VSet []), (w ++ [ETypeErrorMessage "Array" (nameof c) name])%list).
Proof.
  intros Hhandler Hkey Hctor HforEach _ Hc.
  pose proof (readConstructor_of_constructor v c Hc) as Hread.
  pose proof (no_forEach_not_array v HforEach) as Harray.
  assert (Hreport : forall w0 e, report d e w0 = (Return tt, (w0 ++ [e])%list))
    by (intros; apply report_returns; assumption).
  split; [| split].
  - cbn [convertAsMap]. rewrite Harray, Hkey, Hctor, HforEach.
    unfold bind, getConstructorRead. rewrite Hread. cbv [ret _makeTypeErrorMessage].
    rewrite Hreport. reflexivity.
  - cbn [convertAsArray]. destruct v; try discriminate;
      unfold bind, getConstructorRead; rewrite Hread; cbv [ret _makeTypeErrorMessage];
      rewrite Hreport; reflexivity.
  - cbn [convertAsSet]. destruct v; try discriminate;
      unfold bind, getConstructorRead; rewrite Hread; cbv [ret _makeTypeErrorMessage];
      rewrite Hreport; reflexivity.
Qed.
End NotAnArray.

(** C9, as the claim has it, at two sources that are not arrays: the number
    5 in a scope without a key constructor, where [convertAsMap] returns an
    empty map after two reports, and a [Set], which has a [forEach] method
    and is iterated: a map is returned after one report.  Neither call
    throws. *)
Lemma C9_counterexample :
  let withoutKey :=
    convertAsMap Example.env 1 newDeserializer (Example.num 5)
                 (Example.container CMap CNumber None) Example.object None [] in
  let ofSet :=
    convertAsMap Example.env 3 newDeserializer
                 (VSet [VObject CObject [("key", VString "a"); ("value", Example.num 1)]])
                 (Example.container CMap CNumber (Some CString)) Example.object None [] in
  instanceof_Array (Example.num 5) = false
  /\ withoutKey
     = (Return (VMap []),
        [ETypeErrorMessage "Array" "Number" Example.object; EMissingKeyCtor Example.object])
  /\ instanceof_Array
       (VSet [VObject CObject [("key", VString "a"); ("value", Example.num 1)]]) = false
  /\ ofSet
     = (Return (VMap [(VString "a", Example.num 1)]),
        [ETypeErrorMessage "Array" "Set" Example.object])
  /\ forall e w', withoutKey <> (Throw e, w') /\ ofSet <> (Throw e, w').
Proof.
  repeat split; try reflexivity; discriminate.
Qed.

Lemma C9_map_of_non_array_witness :
  handlerReturns newDeserializer
  /\ forEachElements (Example.num 5) = None
  /\ findInstanceMethod Example.env (Example.num 5) "forEach" = None
  /\ constructorOf (Example.num 5) = Some CNumber
  /\ convertAsMap Example.env 1 newDeserializer (Example.num 5)
                  (Example.container CMap CNumber (Some CString)) Example.object None []
     = (Throw (EHostTypeError "sourceObject.forEach is not a function"),
        [ETypeErrorMessage "Array" "Number" Example.object])
  /\ convertAsArray Example.env 1 newDeserializer (Example.num 5)
                    (Example.container CMap CNumber (Some CString)) Example.object None []
     = (Return (VArray []), [ETypeErrorMessage "Array" "Number" Example.object]).
Proof.
  assert (Hhandler : handlerReturns newDeserializer) by (intros e; reflexivity).
  split; [exact Hhandler |]. split; [reflexivity |]. split; [reflexivity |].
  split; [reflexivity |].
  destruct (C9_map_of_non_array Example.env 0 newDeserializer
              (Example.container CMap CNumber (Some CString)) Example.object None []
              (Example.num 5) CNumber CString CNumber [] Hhandler eq_refl eq_refl eq_refl
              eq_refl eq_refl)
    as (Hmap & Harray & _).
  split; [exact Hmap | exact Harray].
Defined.

(* ================================================================== *)
(** ** convertAsObject (lines 57-240) *)

Section Subtypes.
Variable E : Env.

Lemma isSubtypeOf_refl (A : Ctor) : isSubtypeOf E A A = true.
Proof. unfold isSubtypeOf, ctor_eqb. destruct (Ctor_eq_dec A A); [reflexivity | contradiction]. Qed.

Lemma isSubtypeOf_superclass (A B : Ctor) :
  In B (superclasses E A) -> isSubtypeOf E A B = true.
Proof.
  intros Hin. unfold isSubtypeOf. apply orb_true_iff. right.
  apply existsb_exists. exists B. split; [exact Hin |].
  unfold ctor_eqb. destruct (Ctor_eq_dec B B); [reflexivity | contradiction].
Qed.

(** [instanceof] holds for the instances of a class and of its subclasses
    alike. *)
Lemma instanceof_isSubtypeOf (cls C : Ctor) (props : list (string * value)) :
  instanceof E (VObject cls props) C = isSubtypeOf E cls C.
Proof. reflexivity. Qed.
End Subtypes.

(** The three ways the check of the initializer's result can go
    (lines 157-191). *)
Section Initializer.
Variable E : Env.
Variables (d : Deserializer) (sourceMetadata : JsonObjectMetadata).
Variables (expectedSelfType : Ctor) (staged : list (string * value)).
Variables (sourceObject : value) (objectName : label).
Variables (initializer : value -> value -> Result value) (target : value) (w : World).

Hypothesis registered : initializerCallback sourceMetadata = Some initializer.
Hypothesis returned : initializer (VObject CObject staged) sourceObject = Ok target.



End Initializer.

(* ------------------------------------------------------------------ *)
(** *** Maps with string keys *)

Lemma assoc_set_same {A} (k : string) (x : A) (l : list (string * A)) :
  assoc k (assoc_set k x l) = Some x.
Proof.
  induction l as [| [k' y] l IH]; simpl.
  - rewrite String.eqb_refl. reflexivity.
  - destruct (String.eqb k' k) eqn:Hk; simpl.
    + rewrite String.eqb_refl. reflexivity.
    + rewrite Hk. exact IH.
Qed.

Lemma assoc_set_other {A} (k k' : string) (x : A) (l : list (string * A)) :
  k' <> k -> assoc k' (assoc_set k x l) = assoc k' l.
Proof.
  intros Hneq. induction l as [| [k0 y] l IH]; simpl.
  - apply String.eqb_neq in Hneq. rewrite String.eqb_sym, Hneq. reflexivity.
  - destruct (String.eqb k0 k) eqn:Hk; simpl.
    + apply String.eqb_eq in Hk. subst k0.
      apply String.eqb_neq in Hneq. rewrite String.eqb_sym, Hneq. reflexivity.
    + destruct (String.eqb k0 k'); [reflexivity | exact IH].
Qed.

Lemma assoc_set_In {A} (k k' : string) (x x' : A) (l : list (string * A)) :
  In (k', x') (assoc_set k x l) -> (k' = k /\ x' = x) \/ In (k', x') l.
Proof.
  induction l as [| [k0 y] l IH]; simpl.
  - intros [H | []]. injection H as <- <-. left; split; reflexivity.
  - destruct (String.eqb k0 k); simpl.
    + intros [H | H]; [injection H as <- <-; left; split; reflexivity | right; right; exact H].
    + intros [H | H]; [right; left; exact H |].
      destruct (IH H) as [Hnew | Hold]; [left; exact Hnew | right; right; exact Hold].
Qed.

Lemma assoc_set_keys {A} (k : string) (x : A) (l : list (string * A)) :
  map fst (assoc_set k x l) = map fst l
  \/ (map fst (assoc_set k x l) = (map fst l ++ [k])%list /\ ~ In k (map fst l)).
Proof.
  induction l as [| [k0 y] l IH]; simpl.
  - right. split; [reflexivity | tauto].
  - destruct (String.eqb k0 k) eqn:Hk; simpl.
    + apply String.eqb_eq in Hk. subst k0. left. reflexivity.
    + destruct IH as [-> | [-> Hnew]].
      * left. reflexivity.
      * right. split; [reflexivity |].
        apply String.eqb_neq in Hk. intros [H | H]; [congruence | contradiction].
Qed.

Lemma assoc_set_NoDup {A} (k : string) (x : A) (l : list (string * A)) :
  NoDup (map fst l) -> NoDup (map fst (assoc_set k x l)).
Proof.
  intros Hl. destruct (assoc_set_keys k x l) as [-> | [-> Hnew]]; [exact Hl |].
  apply NoDup_app; [exact Hl | repeat constructor; tauto |].
  intros k0 Hk0 [<- | []]. contradiction.
Qed.

Lemma Object_set_In (k k' : string) (x x' : value) (o : list (string * value)) :
  In (k', x') (Object_set k x o) -> (k' = k /\ x' = x) \/ In (k', x') o.
Proof.
  unfold Object_set. destruct (String.eqb k "__proto__"); [tauto | apply assoc_set_In].
Qed.

Lemma Object_set_NoDup (k : string) (x : value) (o : list (string * value)) :
  NoDup (map fst o) -> NoDup (map fst (Object_set k x o)).
Proof.
  unfold Object_set. destruct (String.eqb k "__proto__"); [tauto | apply assoc_set_NoDup].
Qed.

Lemma assoc_None_not_In {A} (k : string) (l : list (string * A)) :
  ~ In k (map fst l) -> assoc k l = None.
Proof.
  induction l as [| [k0 y] l IH]; simpl; [reflexivity |].
  intros Hnot. destruct (String.eqb k0 k) eqn:Hk.
  - apply String.eqb_eq in Hk. tauto.
  - apply IH. tauto.
Qed.

(** [Object.assign]: a key of the source gets the value of the source, any
    other key keeps its value. *)
Lemma assoc_assigned {A} (source target : list (string * A)) (k : string) :
  NoDup (map fst source) ->
  assoc k (fold_left (fun acc kv => assoc_set (fst kv) (snd kv) acc) source target)
  = match assoc k source with
    | Some x => Some x
    | None => assoc k target
    end.
Proof.
  revert target. induction source as [| [k0 x0] source IH]; intros target Hnodup; simpl.
  - reflexivity.
  - inversion Hnodup as [| ? ? Hk0 Hrest]; subst. rewrite (IH _ Hrest).
    destruct (String.eqb k0 k) eqn:Hk.
    + apply String.eqb_eq in Hk. subst k0.
      rewrite (assoc_None_not_In k source Hk0). apply assoc_set_same.
    + destruct (assoc k source); [reflexivity |].
      apply assoc_set_other. apply String.eqb_neq in Hk. congruence.
Qed.

Lemma foldM_pure {A S} (f : S -> A -> M S) (g : S -> A -> S) (l : list A) :
  (forall s x w, f s x w = (Return (g s x), w)) ->
  forall s w, foldM f l s w = (Return (fold_left g l s), w).
Proof.
  intros Hf. induction l as [| x l IH]; intros s w; simpl; [reflexivity |].
  unfold bind. rewrite Hf. apply IH.
Qed.



Lemma bind_throws {A B} (m : M A) (k : A -> M B) (e : Error) (w w' : World) :
  m w = (Throw e, w') -> bind m k w = (Throw e, w').
Proof. intros H. unfold bind. rewrite H. reflexivity. Qed.

Lemma foldM_app {A S} (f : S -> A -> M S) (l l' : list A) (s : S) (w : World) :
  foldM f (l ++ l') s w = bind (foldM f l s) (foldM f l') w.
Proof.
  revert s w. induction l as [| x l IH]; intros s w.
  - reflexivity.
  - simpl. unfold bind.
    destruct (f s x w) as [[s' | e |] w']; [| reflexivity | reflexivity].
    rewrite IH. reflexivity.
Qed.

(** A loop one of whose turns throws whatever the state does not return. *)
Lemma foldM_throws {A S} (f : S -> A -> M S) (l : list A) :
  (forall s x, In x l -> terminates (f s x)) ->
  (exists x, In x l /\ forall s w, exists e w', f s x w = (Throw e, w')) ->
  forall s w, exists e w', foldM f l s w = (Throw e, w').
Proof.
  induction l as [| y l IH]; intros Hterm (x & Hin & Hx) s w.
  - destruct Hin.
  - simpl. unfold bind.
    pose proof (Hterm s y (or_introl eq_refl) w) as Hy.
    destruct (f s y w) as [[s' | e |] w'] eqn:Hstep.
    + destruct Hin as [<- | Hin].
      * destruct (Hx s w) as (e & w'' & Hthrow). congruence.
      * apply IH.
        -- intros s0 z Hz. apply Hterm. right; exact Hz.
        -- exists x. split; assumption.
    + eauto.
    + simpl in Hy. congruence.
Qed.

Lemma not_defined_no_constructor (v : value) :
  isValueDefined v = false -> readConstructor v = None.
Proof. destruct v; simpl; congruence. Qed.

Section ObjectConversion.
Variable E : Env.
Variables (fuel : nat) (d : Deserializer) (sourceObject : value).
Variables (sourceObjectTypeInfo : IScopeTypeInfo) (objectName : label).
Variable memberOptions : option OptionsBase.

Hypothesis source_is_object : typeof_object sourceObject = true.
Hypothesis source_not_null : is_null sourceObject = false.

Lemma convertAsObject_resolved w :
  convertAsObject E (S fuel) d sourceObject sourceObjectTypeInfo objectName memberOptions w
  = bind (resolveObjectType E d sourceObject sourceObjectTypeInfo)
         (convertResolved E (convertSingleValue E fuel d) d sourceObject
                          sourceObjectTypeInfo objectName) w.
Proof.
  cbn [convertAsObject]. rewrite source_is_object, source_not_null. reflexivity.
Qed.

(* ---------------------------------------------------------------- *)
(** *** The type hint (lines 82-103) *)


(* ---------------------------------------------------------------- *)
(** *** Strong-typed deserialization (lines 105-222) *)

Section Typed.
Variables (w0 w1 w2 : World) (expectedSelfType : Ctor).
Variables (metadata : option JsonObjectMetadata) (sourceMetadata : JsonObjectMetadata).
Variables (knownTypeConstructors : list (string * Ctor)).
Variable staged : list (string * value).

Hypothesis resolved :
  resolveObjectType E d sourceObject sourceObjectTypeInfo w0
  = (Return (expectedSelfType, metadata, knownTypeConstructors), w1).
Hypothesis marked : explicitlyMarked metadata = Some sourceMetadata.
Hypothesis members_deserialized :
  deserializeMembers (convertSingleValue E fuel d) d sourceObject sourceMetadata
                     knownTypeConstructors w1
  = (Return staged, w2).

Lemma convertAsObject_typed :
  convertAsObject E (S fuel) d sourceObject sourceObjectTypeInfo objectName
                  memberOptions w0
  = finishObject E d sourceMetadata expectedSelfType staged sourceObject objectName w2.
Proof.
  rewrite convertAsObject_resolved. unfold bind at 1. rewrite resolved.
  unfold convertResolved. rewrite marked.
  unfold bind. rewrite members_deserialized. reflexivity.
Qed.


End Typed.

(* ---------------------------------------------------------------- *)
(** *** Untyped deserialization (lines 223-239) *)

Section Untyped.
Variables (w0 w1 : World) (expectedSelfType : Ctor).
Variables (metadata : option JsonObjectMetadata).
Variables (knownTypeConstructors : list (string * Ctor)).

Hypothesis resolved :
  resolveObjectType E d sourceObject sourceObjectTypeInfo w0
  = (Return (expectedSelfType, metadata, knownTypeConstructors), w1).
Hypothesis not_marked : explicitlyMarked metadata = None.

Lemma convertAsObject_untyped :
  convertAsObject E (S fuel) d sourceObject sourceObjectTypeInfo objectName
                  memberOptions w0
  = convertUntyped (convertSingleValue E fuel d) sourceObject sourceObjectTypeInfo w1.
Proof.
  rewrite convertAsObject_resolved. unfold bind at 1. rewrite resolved.
  unfold convertResolved. rewrite not_marked. reflexivity.
Qed.

(** C10: in the untyped branch, when an own property of the source holds
    [undefined] or [null], [convertAsObject] throws and returns no object.
    When the properties before it have been converted, the error is the
    [TypeError] of reading [constructor] from that value. *)
Theorem C10_untyped_null_property :
  stackNeeded sourceObject < S fuel ->
  (exists sourceKey,
      In sourceKey (map fst (ownEntries sourceObject))
      /\ isValueDefined (getProp sourceObject sourceKey) = false) ->
  let convert :=
    convertAsObject E (S fuel) d sourceObject sourceObjectTypeInfo objectName
                    memberOptions w0 in
  let member :=
    convertUntypedMember (convertSingleValue E fuel d) sourceObject sourceObjectTypeInfo in
  (exists e w', convert = (Throw e, w'))
  /\ (forall x w', convert <> (Return x, w'))
  /\ (forall before sourceKey after targetObject w',
      map fst (ownEntries sourceObject) = (before ++ sourceKey :: after)%list ->
      foldM member before [] w1 = (Return targetObject, w') ->
      isValueDefined (getProp sourceObject sourceKey) = false ->
      convert
      = (Throw (EHostTypeError "cannot read property 'constructor' of undefined or null"),
         w')).
Proof.
  intros Hfuel Hnullish convert member.
  assert (Hmember : forall targetObject sourceKey w,
             isValueDefined (getProp sourceObject sourceKey) = false ->
             member targetObject sourceKey w
             = (Throw (EHostTypeError
                         "cannot read property 'constructor' of undefined or null"), w)).
  { intros targetObject sourceKey w Hundefined.
    unfold member, convertUntypedMember, getConstructor, bind, getConstructorRead.
    rewrite (not_defined_no_constructor _ Hundefined). reflexivity. }
  assert (Hthrows : exists e w', convert = (Throw e, w')).
  { unfold convert. rewrite convertAsObject_untyped. unfold convertUntyped.
    fold member.
    assert (Hloop : exists e w',
               foldM member (map fst (ownEntries sourceObject)) [] w1 = (Throw e, w')).
    { apply foldM_throws.
      - intros s sourceKey _. unfold member, convertUntypedMember.
        apply terminates_bind; [apply terminates_getConstructor | intros c].
        apply terminates_bind; [| intros; apply terminates_ret].
        apply convertSingleValue_terminates.
        pose proof (depth_getProp sourceObject sourceKey).
        pose proof (depth_object sourceObject source_is_object source_not_null).
        unfold stackNeeded in *. lia.
      - destruct Hnullish as (sourceKey & Hin & Hundefined).
        exists sourceKey. split; [exact Hin |].
        intros s w. rewrite (Hmember s sourceKey w Hundefined). eauto. }
    destruct Hloop as (e & w' & Hloop).
    exists e, w'. apply bind_throws. exact Hloop. }
  split; [exact Hthrows |]. split.
  - intros x w' Hreturn. destruct Hthrows as (e & w'' & Hthrow). congruence.
  - intros before sourceKey after targetObject w' Hkeys Hbefore Hundefined.
    unfold convert. rewrite convertAsObject_untyped. unfold convertUntyped.
    fold member. apply bind_throws. rewrite Hkeys, foldM_app.
    unfold bind. rewrite Hbefore. simpl. apply bind_throws. apply Hmember. exact Hundefined.
Qed.
End Untyped.
End ObjectConversion.

(* ------------------------------------------------------------------ *)
(** *** The theorems on convertAsObject at work *)

Lemma newDeserializer_handler_returns : handlerReturns newDeserializer.
Proof. intros e; reflexivity. Qed.


(** A hint that names a class that is not a subtype of the expected one is
    ignored: the object is converted as a [Shape], and nothing is
    reported. *)
Example convertAsObject_hint_ignored :
  _typeResolver newDeserializer (Example.hintedAs "Stranger") (knownTypes Example.shapes)
  = Ok (Some Example.Stranger)
  /\ isSubtypeOf Example.env Example.Stranger Example.Shape = false
  /\ convertAsObject Example.env 2 newDeserializer (Example.hintedAs "Stranger")
                     Example.shapes Example.object None []
     = (Return (VObject Example.Shape [("name", VString "x")]), []).
Proof. repeat split; reflexivity. Qed.

(** The same object with a hint that names a subtype is converted as a
    [Circle]. *)
Example convertAsObject_hinted_subtype :
  convertAsObject Example.env 2 newDeserializer (Example.hintedAs "Circle")
                  Example.shapes Example.object None []
  = (Return (VObject Example.Circle [("name", VString "x")]), []).
Proof. reflexivity. Qed.





Lemma C10_untyped_null_property_witness :
  stackNeeded (VObject CObject [("a", Example.num 1); ("b", VNull)]) < 3
  /\ isValueDefined (getProp (VObject CObject [("a", Example.num 1); ("b", VNull)]) "b") = false
  /\ convertAsObject Example.env 3 newDeserializer
                     (VObject CObject [("a", Example.num 1); ("b", VNull)])
                     (Example.scope CObject) Example.object None []
     = (Throw (EHostTypeError "cannot read property 'constructor' of undefined or null"), []).
Proof.
  assert (Hfuel : stackNeeded (VObject CObject [("a", Example.num 1); ("b", VNull)]) < 3)
    by (vm_compute; lia).
  assert (Hnullish :
            exists sourceKey,
              In sourceKey
                 (map fst (ownEntries (VObject CObject [("a", Example.num 1); ("b", VNull)])))
              /\ isValueDefined
                   (getProp (VObject CObject [("a", Example.num 1); ("b", VNull)]) sourceKey)
                 = false)
    by (exists "b"; split; [simpl; tauto | reflexivity]).
  split; [exact Hfuel |]. split; [reflexivity |].
  exact (proj2 (proj2 (C10_untyped_null_property Example.env 2 newDeserializer
                         (VObject CObject [("a", Example.num 1); ("b", VNull)])
                         (Example.scope CObject) Example.object None eq_refl eq_refl
                         [] [] CObject None [] eq_refl eq_refl Hfuel Hnullish))
               ["a"] "b" [] [("a", Example.num 1)] [] eq_refl eq_refl eq_refl).
Defined.

(* ================================================================== *)
(** ** convertSingleValue: the other branches (lines 248-373) *)

(** Lines 259-269 for a source whose [constructor] is a function. *)
Lemma convertSingleValue_native (E : Env) fuel d ti name opts w (expected c : Ctor)
      (v : value) :
  In expected [CNumber; CString; CBoolean] ->
  selfConstructor ti = expected ->
  constructorOf v = Some c ->
  convertSingleValue E (S fuel) d v ti name opts w
  = (if ctor_eqb c expected then Return v
     else Throw (ETypeErrorMessage (nameof expected) (nameof c) name), w).
Proof.
  intros Hexpected Hself Hc.
  assert (Hnative : negb (_isDirectlyDeserializableNativeType expected =? 0)%Z = true).
  { simpl in Hexpected. destruct Hexpected as [<- | [<- | [<- | []]]]; reflexivity. }
  cbn [convertSingleValue]. rewrite Hself.
  destruct (srcName_of_constructor v c Hc) as [srcName Hname].
  rewrite (bind_call_Ok _ srcName _ _ Hname).
  pose proof (constructor_defined v c Hc) as Hdefined.
  rewrite (defined_not_null v Hdefined), andb_false_r, Hdefined, Hnative.
  cbn [negb]. unfold bind, getConstructorRead.
  rewrite (readConstructor_of_constructor v c Hc). cbv [ret sameConstructor].
  destruct (ctor_eqb c expected); reflexivity.
Qed.

Section OtherBranches.
Variable E : Env.
Variables (fuel : nat) (d : Deserializer) (typeInfo : IScopeTypeInfo).
Variables (memberName : label) (memberOptions : option OptionsBase) (w : World).

(** X1: whatever type is expected, [undefined] converts to [undefined], and
    [null] converts to [null] when [preserveNull] is in effect and to
    [undefined] when it is not; nothing is reported or thrown. *)
Theorem convertSingleValue_absent :
  convertSingleValue E (S fuel) d VUndefined typeInfo memberName memberOptions w
  = (Return VUndefined, w)
  /\ convertSingleValue E (S fuel) d VNull typeInfo memberName memberOptions w
     = (Return (if retrievePreserveNull d memberOptions then VNull else VUndefined), w).
Proof.
  split; cbn [convertSingleValue].
  - rewrite andb_false_r. reflexivity.
  - destruct (retrievePreserveNull d memberOptions); reflexivity.
Qed.

(** X2: with [Number], [String] or [Boolean] expected, a value whose
    [constructor] is the expected one is returned as it is; a value whose
    [constructor] is another function is refused with a type error that names
    both types; and no other defined value is returned either: the call
    throws. *)
Theorem convertSingleValue_primitive (expected : Ctor) (v : value) :
  In expected [CNumber; CString; CBoolean] ->
  selfConstructor typeInfo = expected ->
  (constructorOf v = Some expected ->
   convertSingleValue E (S fuel) d v typeInfo memberName memberOptions w = (Return v, w))
  /\ (forall c, constructorOf v = Some c -> c <> expected ->
      convertSingleValue E (S fuel) d v typeInfo memberName memberOptions w
      = (Throw (ETypeErrorMessage (nameof expected) (nameof c) memberName), w))
  /\ (isValueDefined v = true -> constructorOf v <> Some expected ->
      exists e,
        convertSingleValue E (S fuel) d v typeInfo memberName memberOptions w = (Throw e, w)).
Proof.
  intros Hexpected Hself.
  assert (Hnative : negb (_isDirectlyDeserializableNativeType expected =? 0)%Z = true).
  { simpl in Hexpected. destruct Hexpected as [<- | [<- | [<- | []]]]; reflexivity. }
  assert (Hfunction : forall c,
             constructorOf v = Some c ->
             convertSingleValue E (S fuel) d v typeInfo memberName memberOptions w
             = (if ctor_eqb c expected then Return v
                else Throw (ETypeErrorMessage (nameof expected) (nameof c) memberName), w)).
  { intros c Hc. apply convertSingleValue_native; assumption. }
  split; [| split].
  - intros Hc. rewrite (Hfunction expected Hc).
    unfold ctor_eqb. destruct (Ctor_eq_dec expected expected); [reflexivity | contradiction].
  - intros c Hc Hneq. rewrite (Hfunction c Hc).
    unfold ctor_eqb. destruct (Ctor_eq_dec c expected); [contradiction | reflexivity].
  - intros Hdefined Hother. cbn [convertSingleValue]. rewrite Hself.
    destruct (srcTypeNameForDebug v) as [srcName | e] eqn:Hname.
    + rewrite (bind_call_Ok _ srcName _ _ eq_refl).
      rewrite (defined_not_null v Hdefined), andb_false_r, Hdefined, Hnative.
      cbn [negb]. unfold bind, getConstructorRead.
      destruct (defined_has_constructor v Hdefined) as [fn Hfn]. rewrite Hfn. cbv [ret].
      assert (Hdiffers : sameConstructor fn expected = false).
      { destruct fn as [c | x]; [| reflexivity]. simpl.
        unfold ctor_eqb. destruct (Ctor_eq_dec c expected) as [-> | Hneq]; [| reflexivity].
        exfalso. apply Hother. unfold constructorOf. rewrite Hfn. reflexivity. }
      rewrite Hdiffers. unfold _makeTypeErrorMessage.
      destruct fn as [c | x]; [cbv [ret throw]; eauto |].
      destruct (canBeString x); cbv [ret throw]; eauto.
    + rewrite (bind_call_Raise _ e _ _ eq_refl). eauto.
Qed.

(** X3: with [ArrayBuffer] or [DataView] expected, a string gives a buffer
    with one 16-bit unit for each character, holding its character code, in
    order; any other defined value, once the name of its type has been read
    (line 249), is refused with a type-mismatch error that carries that
    name. *)
Theorem convertSingleValue_buffer (expected : Ctor) :
  In expected [CArrayBuffer; CDataView] ->
  selfConstructor typeInfo = expected ->
  (forall str,
      exists units,
        convertSingleValue E (S fuel) d (VString str) typeInfo memberName memberOptions w
        = (Return (if ctor_eqb expected CArrayBuffer
                   then VArrayBuffer units else VDataView units), w)
        /\ List.length units = String.length str
        /\ forall i c, String.get i str = Some c -> nth_error units i = Some (N_of_ascii c))
  /\ (forall v srcName,
      isValueDefined v = true -> typeof_string v = false ->
      srcTypeNameForDebug v = Ok srcName ->
      convertSingleValue E (S fuel) d v typeInfo memberName memberOptions w
      = (Throw (ETypeMismatch (nameof expected) "a string source" srcName memberName), w)).
Proof.
  intros Hexpected Hself. split.
  - intros str. exists (charCodes str). split; [| split].
    + cbn [convertSingleValue]. rewrite Hself.
      destruct (srcName_of_constructor (VString str) CString eq_refl) as [srcName Hname].
      rewrite (bind_call_Ok _ srcName _ _ Hname). simpl in Hexpected.
      destruct Hexpected as [<- | [<- | []]]; simpl; rewrite andb_false_r; reflexivity.
    + unfold charCodes. rewrite length_map. clear.
      induction str as [| c str IH]; simpl; congruence.
    + unfold charCodes. clear. induction str as [| c0 str IH]; intros i c Hget.
      * destruct i; discriminate Hget.
      * destruct i as [| i]; simpl in *.
        -- injection Hget as ->. reflexivity.
        -- apply IH. exact Hget.
  - intros v srcName Hdefined Hstring Hname. cbn [convertSingleValue].
    rewrite Hself, (bind_call_Ok _ srcName _ _ Hname).
    rewrite (defined_not_null v Hdefined), andb_false_r, Hdefined.
    simpl in Hexpected.
    destruct Hexpected as [<- | [<- | []]]; destruct v; try discriminate; reflexivity.
Qed.

(** X4: with an expected constructor that has no branch of its own (a class,
    [Object], a signed typed array), a defined source, once the name of its
    type has been read (line 249), goes to [convertAsObject] when it is an
    object, and gives [undefined] without any error when it is a number, a
    string or a boolean. *)
Theorem convertSingleValue_structured (v : value) (srcName : string) :
  ~ In (selfConstructor typeInfo) builtinBranches ->
  isValueDefined v = true ->
  srcTypeNameForDebug v = Ok srcName ->
  convertSingleValue E (S fuel) d v typeInfo memberName memberOptions w
  = if typeof_object v
    then convertAsObject E fuel d v typeInfo memberName memberOptions w
    else (Return VUndefined, w).
Proof.
  intros Hother Hdefined Hname. cbn [convertSingleValue].
  rewrite (bind_call_Ok _ srcName _ _ Hname).
  rewrite (defined_not_null v Hdefined), andb_false_r, Hdefined.
  destruct (selfConstructor typeInfo) eqn:Hself;
    try (exfalso; apply Hother; simpl; tauto);
    simpl; destruct v; try discriminate; simpl; rewrite ?andb_false_r; reflexivity.
Qed.
End OtherBranches.

Lemma convertSingleValue_primitive_witness :
  convertSingleValue Example.env 1 newDeserializer (VString "x") (Example.scope CNumber)
                     Example.object None []
  = (Throw (ETypeErrorMessage "Number" "String" Example.object), []).
Proof.
  apply (proj1 (proj2 (convertSingleValue_primitive Example.env 0 newDeserializer
                         (Example.scope CNumber) Example.object None [] CNumber
                         (VString "x") (or_introl eq_refl) eq_refl))
               CString eq_refl).
  discriminate.
Defined.

(** A parsed object with an own property named [constructor]: the name of
    its type is read from that property (line 249), which fails when the
    property holds [null]; and the type error of line 267 shows the property,
    not [Object]. *)
Example convertSingleValue_own_constructor :
  convertSingleValue Example.env 1 newDeserializer (VObject CObject [("constructor", VNull)])
                     (Example.scope CDate) Example.object None []
  = (Throw (EHostTypeError "cannot read property 'name' of undefined or null"), [])
  /\ convertSingleValue Example.env 1 newDeserializer
                        (VObject CObject [("constructor", VString "x")])
                        (Example.scope CNumber) Example.object None []
     = (Throw (ETypeErrorMessageOf "Number" (VString "x") Example.object), [])
  /\ convertSingleValue Example.env 1 newDeserializer
                        (VObject CObject [("constructor", VObject CObject [("name", VString "n")])])
                        (Example.scope CDate) Example.object None []
     = (Throw (ETypeMismatch "Date" "an ISO-8601 string" "n" Example.object), []).
Proof. repeat split; reflexivity. Qed.

Lemma convertSingleValue_buffer_witness :
  exists units,
    convertSingleValue Example.env 1 newDeserializer (VString "ab") (Example.scope CDataView)
                       Example.object None []
    = (Return (VDataView units), [])
    /\ List.length units = 2.
Proof.
  assert (Hin : In CDataView [CArrayBuffer; CDataView]) by (simpl; tauto).
  destruct (proj1 (convertSingleValue_buffer Example.env 0 newDeserializer
                     (Example.scope CDataView) Example.object None [] CDataView Hin eq_refl)
                  "ab") as (units & Hrun & Hlen & _).
  exists units. split; [exact Hrun | exact Hlen].
Defined.

Lemma convertSingleValue_structured_witness :
  ~ In (selfConstructor (Example.scope Example.Shape)) builtinBranches
  /\ convertSingleValue Example.env 1 newDeserializer (Example.num 5)
                        (Example.scope Example.Shape) Example.object None []
     = (Return VUndefined, []).
Proof.
  assert (Hother : ~ In (selfConstructor (Example.scope Example.Shape)) builtinBranches).
  { simpl. intros H. repeat (destruct H as [H | H]; [discriminate H |]). exact H. }
  split; [exact Hother |].
  apply (convertSingleValue_structured Example.env 0 newDeserializer
           (Example.scope Example.Shape) Example.object None [] (Example.num 5) "Number"
           Hother eq_refl eq_refl).
Defined.

(* ================================================================== *)
(** ** The containers: descriptor errors, sets, and maps *)

Lemma bind_returns_inv {A B} (m : M A) (k : A -> M B) (w w' : World) (b : B) :
  bind m k w = (Return b, w') ->
  exists a w1, m w = (Return a, w1) /\ k a w1 = (Return b, w').
Proof.
  unfold bind. destruct (m w) as [[a | e |] w1]; intros H; try discriminate.
  exists a, w1. split; [reflexivity | exact H].
Qed.

(** A property of the state that every returning turn of a loop keeps holds
    when the loop returns. *)
Lemma foldM_invariant {A S} (P : S -> Prop) (f : S -> A -> M S) (l : list A) :
  (forall s x w s' w', In x l -> P s -> f s x w = (Return s', w') -> P s') ->
  forall s w s' w', P s -> foldM f l s w = (Return s', w') -> P s'.
Proof.
  induction l as [| x l IH]; intros Hstep s w s' w' Hs Hrun; simpl in Hrun.
  - injection Hrun as <- _. exact Hs.
  - apply bind_returns_inv in Hrun. destruct Hrun as (s1 & w1 & Hx & Hrest).
    apply (IH (fun s0 y w0 s0' w0' Hy => Hstep s0 y w0 s0' w0' (or_intror Hy))
              s1 w1 s' w').
    + apply (Hstep s x w s1 w1 (or_introl eq_refl) Hs Hx).
    + exact Hrest.
Qed.

Section Containers.
Variable E : Env.
Variables (fuel : nat) (d : Deserializer) (typeInfo : IScopeTypeInfo).
Variables (memberName : label) (memberOptions : option OptionsBase).

Hypothesis handler_returns : handlerReturns d.

(** X5: a source that is not an object, or is [null], is reported to the
    error handler and [convertAsObject] returns [undefined]. *)
Theorem convertAsObject_not_an_object (v : value) (w : World) :
  typeof_object v = false \/ v = VNull ->
  convertAsObject E (S fuel) d v typeInfo memberName memberOptions w
  = (Return VUndefined, (w ++ [EMustBeDefinedObject memberName])%list).
Proof.
  intros Hv. cbn [convertAsObject].
  assert (Htest : negb (typeof_object v) || is_null v = true)
    by (destruct Hv as [-> | ->]; reflexivity).
  rewrite Htest. unfold bind. rewrite (report_returns d _ w handler_returns). reflexivity.
Qed.

(** X6: a scope without element constructors makes [convertAsArray] and
    [convertAsSet] report the missing constructor and return an empty
    container, whatever the source array holds; [convertAsMap] does the same
    for a missing key constructor and, with a key constructor, for missing
    element constructors. *)
Theorem containers_missing_constructor (elems : list value) (w : World) :
  (elementConstructor typeInfo = None \/ elementConstructor typeInfo = Some [] ->
   convertAsArray E (S fuel) d (VArray elems) typeInfo memberName memberOptions w
   = (Return (VArray []), (w ++ [EMissingElementCtor "Array" memberName])%list)
   /\ convertAsSet E (S fuel) d (VArray elems) typeInfo memberName memberOptions w
      = (Return (VSet []), (w ++ [EMissingElementCtor "Set" memberName])%list)
   /\ (keyConstructor typeInfo <> None ->
       convertAsMap E (S fuel) d (VArray elems) typeInfo memberName memberOptions w
       = (Return (VMap []), (w ++ [EMissingValueCtor memberName])%list)))
  /\ (keyConstructor typeInfo = None ->
      convertAsMap E (S fuel) d (VArray elems) typeInfo memberName memberOptions w
      = (Return (VMap []), (w ++ [EMissingKeyCtor memberName])%list)).
Proof.
  assert (Hreport : forall e, report d e w = (Return tt, (w ++ [e])%list))
    by (intros; apply report_returns; exact handler_returns).
  split.
  - intros Hmissing. split; [| split].
    + cbn [convertAsArray]. unfold bind.
      destruct Hmissing as [-> | ->]; rewrite Hreport; reflexivity.
    + cbn [convertAsSet]. unfold bind.
      destruct Hmissing as [-> | ->]; rewrite Hreport; reflexivity.
    + intros Hkey. cbn [convertAsMap]. unfold bind. simpl.
      destruct (keyConstructor typeInfo); [| contradiction].
      destruct Hmissing as [-> | ->]; rewrite Hreport; reflexivity.
  - intros Hkey. cbn [convertAsMap]. unfold bind. simpl.
    rewrite Hkey, Hreport. reflexivity.
Qed.

(* ---------------------------------------------------------------- *)
(** *** convertAsSet (lines 418-463) *)

Lemma Set_add_length (x : value) (s : list value) :
  List.length (Set_add x s) <= S (List.length s).
Proof.
  unfold Set_add. destruct (existsb (sameValueZero x) s); [lia |].
  rewrite length_app. simpl. lia.
Qed.

Lemma noRepeats_app (s : list value) (x : value) :
  noRepeats s -> (forall y, In y s -> sameValueZero y x = false) -> noRepeats (s ++ [x]).
Proof.
  induction s as [| y s IH]; simpl; intros Hs Hx.
  - split; [intros _ [] | exact I].
  - destruct Hs as [Hy Hs]. split.
    + intros z Hz. apply in_app_or in Hz. destruct Hz as [Hz | [<- | []]].
      * apply Hy; exact Hz.
      * apply Hx. left; reflexivity.
    + apply IH; [exact Hs |]. intros z Hz. apply Hx. right; exact Hz.
Qed.

Lemma sameValueZero_sym (a b : value) : sameValueZero a b = sameValueZero b a.
Proof.
  destruct a, b; simpl; try reflexivity.
  - destruct b, b0; reflexivity.
  - destruct n as [s | s | | s m e], n0 as [s0 | s0 | | s0 m0 e0]; try reflexivity;
      unfold SFeqb, SFcompare;
      try (destruct s; reflexivity); try (destruct s0; reflexivity);
      try (destruct s, s0; reflexivity).
    assert (Hm : Pos.compare_cont Eq m0 m = CompOpp (Pos.compare_cont Eq m m0))
      by exact (eq_sym (Pos.compare_cont_antisym m m0 Eq)).
    destruct s, s0; try reflexivity; rewrite (Z.compare_antisym e e0), Hm;
      destruct (e ?= e0)%Z; simpl; try reflexivity;
      destruct (Pos.compare_cont Eq m m0); reflexivity.
  - apply String.eqb_sym.
Qed.

(** [-0] and [+0] are the same value to [SameValueZero]. *)
Lemma sameValueZero_canonicalKey (x y : value) :
  sameValueZero (canonicalKey x) y = sameValueZero x y.
Proof.
  destruct x as [| | | n | | | | | | | | |]; try reflexivity.
  destruct n as [[|] | | |]; reflexivity.
Qed.

Lemma canonicalKey_defined (x : value) :
  isValueDefined (canonicalKey x) = isValueDefined x.
Proof.
  destruct x as [| | | n | | | | | | | | |]; try reflexivity.
  destruct n as [[|] | | |]; reflexivity.
Qed.

Lemma Set_add_noRepeats (x : value) (s : list value) :
  noRepeats s -> noRepeats (Set_add x s).
Proof.
  intros Hs. unfold Set_add.
  destruct (existsb (sameValueZero x) s) eqn:Hexists; [exact Hs |].
  apply noRepeats_app; [exact Hs |]. intros y Hy.
  rewrite sameValueZero_sym, sameValueZero_canonicalKey.
  destruct (sameValueZero x y) eqn:Hxy; [| reflexivity].
  assert (existsb (sameValueZero x) s = true)
    by (apply existsb_exists; exists y; split; assumption).
  congruence.
Qed.

Lemma Set_add_In (x y : value) (s : list value) :
  In y (Set_add x s) -> y = canonicalKey x \/ In y s.
Proof.
  unfold Set_add. destruct (existsb (sameValueZero x) s); [tauto |].
  intros H. apply in_app_or in H. destruct H as [H | [<- | []]]; tauto.
Qed.

Lemma In_combine_seq {A} (l : list A) (start i : nat) (x : A) :
  In (i, x) (combine (seq start (List.length l)) l) ->
  start <= i /\ nth_error l (i - start) = Some x.
Proof.
  revert start. induction l as [| y l IH]; intros start; simpl; [tauto |].
  intros [H | H].
  - injection H as <- <-. rewrite Nat.sub_diag. split; [lia | reflexivity].
  - apply IH in H. destruct H as [Hle Hnth]. split; [lia |].
    replace (i - start) with (S (i - S start)) by lia. exact Hnth.
Qed.

(** X7: with an element constructor in the scope, [convertAsSet] returns a
    set that has at most as many elements as the source array, no element
    twice, and nothing but what the conversion of an element of the source
    returned, as a set stores it ([-0] as [+0]). *)
Theorem convertAsSet_elements (elems : list value) (first : Ctor) (others : list Ctor)
        (w : World) :
  elementConstructor typeInfo = Some (first :: others) ->
  stackNeeded (VArray elems) < S fuel ->
  exists out w',
    convertAsSet E (S fuel) d (VArray elems) typeInfo memberName memberOptions w
    = (Return (VSet out), w')
    /\ List.length out <= List.length elems
    /\ noRepeats out
    /\ forall y, In y out ->
         exists i x converted wi wi',
           nth_error elems i = Some x
           /\ convertSingleValue E fuel d x (elementScope first others typeInfo)
                                 (LIndex memberName i) memberOptions wi
              = (Return converted, wi')
           /\ y = canonicalKey converted.
Proof.
  intros Hctor Hfuel. cbn [convertAsSet]. rewrite Hctor.
  set (step := fun (resultSet : list value) (indexed : nat * value) =>
                 let '(i, element) := indexed in
                 tryCatch
                   (converted <-
                      convertSingleValue E fuel d element (elementScope first others typeInfo)
                                         (LIndex memberName i) memberOptions ;;
                    ret (Set_add converted resultSet))
                   (fun e => report d e ;; ret resultSet)).
  assert (Hloop : forall l acc w0,
             (forall i x, In (i, x) l ->
                terminates (convertSingleValue E fuel d x (elementScope first others typeInfo)
                                               (LIndex memberName i) memberOptions)) ->
             exists out w',
               foldM step l acc w0 = (Return out, w')
               /\ List.length out <= List.length acc + List.length l
               /\ (noRepeats acc -> noRepeats out)
               /\ forall y, In y out ->
                    In y acc
                    \/ exists i x converted wi wi',
                        In (i, x) l
                        /\ convertSingleValue E fuel d x (elementScope first others typeInfo)
                                              (LIndex memberName i) memberOptions wi
                           = (Return converted, wi')
                        /\ y = canonicalKey converted).
  { induction l as [| [i x] l IH]; intros acc w0 Hterm.
    - exists acc, w0. simpl. repeat split; [lia | tauto | tauto].
    - assert (Hrest : forall j y, In (j, y) l ->
                terminates (convertSingleValue E fuel d y (elementScope first others typeInfo)
                                               (LIndex memberName j) memberOptions))
        by (intros j y Hy; apply Hterm; right; exact Hy).
      pose proof (Hterm i x (or_introl eq_refl) w0) as Hx.
      simpl. unfold bind at 1. unfold step at 1. unfold tryCatch, bind at 1.
      destruct (convertSingleValue E fuel d x (elementScope first others typeInfo)
                                   (LIndex memberName i) memberOptions w0)
        as [[y | e |] w1] eqn:Hconv.
      + cbv [ret].
        destruct (IH (Set_add y acc) w1 Hrest) as (out & w' & Hrun & Hlen & Hno & Hin).
        exists out, w'. split; [exact Hrun |]. split; [| split].
        * pose proof (Set_add_length y acc). simpl. lia.
        * intros Hacc. apply Hno. apply Set_add_noRepeats. exact Hacc.
        * intros z Hz.
          destruct (Hin z Hz) as [Hz' | (j & x' & c' & wi & wi' & Hj & Hconv' & Hstored)].
          -- apply Set_add_In in Hz'. destruct Hz' as [-> | Hz'].
             ++ right. exists i, x, y, w0, w1.
                split; [left; reflexivity | split; [exact Hconv | reflexivity]].
             ++ left. exact Hz'.
          -- right. exists j, x', c', wi, wi'.
             split; [right; exact Hj | split; [exact Hconv' | exact Hstored]].
      + unfold bind. rewrite (report_returns d e w1 handler_returns). cbv [ret].
        destruct (IH acc (w1 ++ [e])%list Hrest) as (out & w' & Hrun & Hlen & Hno & Hin).
        exists out, w'. split; [exact Hrun |]. split; [| split].
        * simpl. lia.
        * exact Hno.
        * intros z Hz.
          destruct (Hin z Hz) as [Hz' | (j & x' & c' & wi & wi' & Hj & Hconv' & Hstored)].
          -- left. exact Hz'.
          -- right. exists j, x', c', wi, wi'.
             split; [right; exact Hj | split; [exact Hconv' | exact Hstored]].
      + simpl in Hx. congruence. }
  destruct (Hloop (combine (seq 0 (List.length elems)) elems) [] w)
    as (out & w' & Hrun & Hlen & Hno & Hin).
  - intros i x Hix. apply In_combine_seq in Hix. destruct Hix as [_ Hnth].
    apply nth_error_In in Hnth.
    apply convertSingleValue_terminates.
    unfold stackNeeded in *. pose proof (list_max_In depth _ _ Hnth). simpl in Hfuel. lia.
  - exists out, w'. split; [| split; [| split]].
    + unfold bind. fold step. rewrite Hrun. reflexivity.
    + rewrite length_combine, length_seq, Nat.min_id in Hlen. simpl in Hlen. exact Hlen.
    + apply Hno. exact I.
    + intros y Hy.
      destruct (Hin y Hy) as [[] | (i & x & converted & wi & wi' & Hix & Hconv & Hstored)].
      apply In_combine_seq in Hix. destruct Hix as [_ Hnth]. rewrite Nat.sub_0_r in Hnth.
      exists i, x, converted, wi, wi'.
      split; [exact Hnth | split; [exact Hconv | exact Hstored]].
Qed.
End Containers.

(* ---------------------------------------------------------------- *)
(** *** Arrays of numbers, strings or booleans *)

Section PrimitiveArrays.
Variable E : Env.

Lemma convertSingleValue_same_constructor fuel d ti name opts w (c : Ctor) (v : value) :
  In c [CNumber; CString; CBoolean] ->
  selfConstructor ti = c ->
  constructorOf v = Some c ->
  convertSingleValue E (S fuel) d v ti name opts w = (Return v, w).
Proof.
  intros Hc Hself Hv. cbn [convertSingleValue]. rewrite Hself.
  destruct (srcName_of_constructor v c Hv) as [srcName Hname].
  rewrite (bind_call_Ok _ srcName _ _ Hname).
  pose proof (constructor_defined v c Hv) as Hdefined.
  rewrite (defined_not_null v Hdefined), andb_false_r, Hdefined.
  unfold bind, getConstructorRead. rewrite (readConstructor_of_constructor v c Hv).
  simpl in Hc.
  destruct Hc as [<- | [<- | [<- | []]]]; reflexivity.
Qed.

(** X8: an array of numbers converted against [Number] (of strings against
    [String], of booleans against [Boolean]) comes back element for
    element, and nothing is reported. *)
Theorem convertAsArray_of_primitives fuel d ti name opts w (c : Ctor) (others : list Ctor)
        (elems : list value) :
  In c [CNumber; CString; CBoolean] ->
  elementConstructor ti = Some (c :: others) ->
  Forall (fun x => constructorOf x = Some c) elems ->
  convertAsArray E (S (S fuel)) d (VArray elems) ti name opts w = (Return (VArray elems), w).
Proof.
  intros Hc Hctor Helems. cbn [convertAsArray]. rewrite Hctor.
  assert (Hmap : mapM (convertArrayElement (convertSingleValue E (S fuel) d) d
                         (elementScope c others ti) name opts) elems w
                 = (Return elems, w)).
  { induction Helems as [| x elems Hx _ IH]; [reflexivity |].
    cbn [mapM]. unfold bind. unfold convertArrayElement at 1. unfold tryCatch.
    rewrite (convertSingleValue_same_constructor fuel d (elementScope c others ti)
               (LElement name) opts w c x Hc eq_refl Hx).
    rewrite IH. reflexivity. }
  unfold bind. rewrite Hmap. reflexivity.
Qed.
End PrimitiveArrays.

(* ---------------------------------------------------------------- *)
(** *** The keys of a converted map *)

Lemma tryCatch_returns_inv {A} (m : M A) (h : Error -> M A) (w w' : World) (a : A) :
  tryCatch m h w = (Return a, w') ->
  m w = (Return a, w') \/ exists e w1, m w = (Throw e, w1) /\ h e w1 = (Return a, w').
Proof.
  unfold tryCatch. destruct (m w) as [[a0 | e |] w1]; intros H; try discriminate.
  - left. exact H.
  - right. exists e, w1. split; [reflexivity | exact H].
Qed.

Lemma Map_set_keys (k x : value) (m : list (value * value)) :
  map fst (Map_set k x m) = map fst m
  \/ (map fst (Map_set k x m) = (map fst m ++ [canonicalKey k])%list
      /\ forall k', In k' (map fst m) -> sameValueZero k' k = false).
Proof.
  induction m as [| [k0 y] m IH]; simpl.
  - right. split; [reflexivity | intros k' []].
  - destruct (sameValueZero k0 k) eqn:Hsame; simpl.
    + left. reflexivity.
    + destruct IH as [-> | [-> Hnew]].
      * left. reflexivity.
      * right. split; [reflexivity |].
        intros k' [<- | Hk']; [exact Hsame | apply Hnew; exact Hk'].
Qed.

Lemma Map_set_wellKeyed (k x : value) (m : list (value * value)) :
  isValueDefined k = true -> wellKeyed m -> wellKeyed (Map_set k x m).
Proof.
  intros Hk [Hdefined Hrepeats]. unfold wellKeyed.
  destruct (Map_set_keys k x m) as [-> | [-> Hnew]].
  - split; assumption.
  - split.
    + intros k' Hk'. apply in_app_or in Hk'. destruct Hk' as [Hk' | [<- | []]].
      * apply Hdefined; exact Hk'.
      * rewrite canonicalKey_defined. exact Hk.
    + apply noRepeats_app; [assumption |]. intros k' Hk'.
      rewrite sameValueZero_sym, sameValueZero_canonicalKey, sameValueZero_sym.
      apply Hnew. exact Hk'.
Qed.

Section MapKeys.
Variable E : Env.

(** X9: in the map that [convertAsMap] returns, every key is a defined
    value and no two keys are the same value. *)
Theorem convertAsMap_keys fuel d sourceObject ti name opts w m w' :
  convertAsMap E (S fuel) d sourceObject ti name opts w = (Return (VMap m), w') ->
  (forall k x, In (k, x) m -> isValueDefined k = true)
  /\ noRepeats (map fst m).
Proof.
  intros Hrun.
  assert (Hkeyed : wellKeyed m).
  { assert (Hempty : wellKeyed []) by (split; [intros k [] | exact I]).
    cbn [convertAsMap] in Hrun.
    apply bind_returns_inv in Hrun. destruct Hrun as ([] & w1 & _ & Hrun).
    destruct (keyConstructor ti) as [keyCtor |].
    - destruct (elementConstructor ti) as [[| first others] |].
      + apply bind_returns_inv in Hrun. destruct Hrun as ([] & w2 & _ & Hrun).
        injection Hrun as <- _. exact Hempty.
      + destruct (forEachElements sourceObject) as [elems |]; [| discriminate Hrun].
        apply bind_returns_inv in Hrun. destruct Hrun as (resultMap & w2 & Hloop & Hrun).
        injection Hrun as <- _.
        revert Hloop. apply foldM_invariant; [| exact Hempty].
        intros s element w0 s' w0' _ Hs Hstep. unfold convertMapEntry in Hstep.
        apply tryCatch_returns_inv in Hstep.
        destruct Hstep as [Hbody | (e & w3 & _ & Hhandler)].
        * apply bind_returns_inv in Hbody. destruct Hbody as (rawKey & w3 & _ & Hbody).
          apply bind_returns_inv in Hbody. destruct Hbody as (key & w4 & _ & Hbody).
          destruct (isValueDefined key) eqn:Hkey.
          -- apply bind_returns_inv in Hbody. destruct Hbody as (rawValue & w5 & _ & Hbody).
             apply bind_returns_inv in Hbody. destruct Hbody as (converted & w6 & _ & Hbody).
             injection Hbody as <- _. apply Map_set_wellKeyed; assumption.
          -- injection Hbody as <- _. exact Hs.
        * apply bind_returns_inv in Hhandler. destruct Hhandler as ([] & w4 & _ & Hhandler).
          injection Hhandler as <- _. exact Hs.
      + apply bind_returns_inv in Hrun. destruct Hrun as ([] & w2 & _ & Hrun).
        injection Hrun as <- _. exact Hempty.
    - apply bind_returns_inv in Hrun. destruct Hrun as ([] & w2 & _ & Hrun).
      injection Hrun as <- _. exact Hempty. }
  destruct Hkeyed as [Hdefined Hrepeats]. split; [| exact Hrepeats].
  intros k x Hin. apply Hdefined. apply in_map_iff. exists (k, x). split; [reflexivity | exact Hin].
Qed.
End MapKeys.

(* ================================================================== *)
(** ** options-base.ts: the cascade of options *)

(** X10: in merged options the more specific object decides as soon as it
    has the key [preserveNull]: its boolean is the value, and [undefined] or
    [null] under the key gives the default [false], whatever the less
    specific options say; without the key, or without a more specific
    object, the less specific options decide. *)
Theorem mergeOptions_most_specific_wins (existing moreSpecific : option OptionsBase) :
  getOptionValue_preserveNull (mergeOptions existing moreSpecific)
  = match moreSpecific with
    | Some specific =>
        match preserveNull specific with
        | Some (Some b) => b
        | Some None => false
        | None => getOptionValue_preserveNull existing
        end
    | None => getOptionValue_preserveNull existing
    end.
Proof.
  destruct moreSpecific as [[[[b |] |]] |]; try reflexivity.
  destruct existing as [[[[b |] |]] |]; reflexivity.
Qed.

(** X11: the cascade can be merged in either grouping: merging instance
    options with class options and the result with member options gives the
    same options as merging the class options with the member options
    first. *)
Theorem mergeOptions_assoc (a b c : option OptionsBase) :
  mergeOptions (mergeOptions a b) c = mergeOptions a (mergeOptions b c).
Proof.
  destruct c as [[[x |]] |]; destruct b as [[[y |]] |]; destruct a as [[[z |]] |];
    reflexivity.
Qed.

(* ================================================================== *)
(** ** convertAsObject: the declared members (lines 105-222) *)

Section Members.
Variables (convert : Converter) (d : Deserializer) (sourceObject : value).
Variables (sourceMetadata : JsonObjectMetadata) (knownTypeConstructors : list (string * Ctor)).

Lemma deserializeMembers_loop :
  deserializeMembers convert d sourceObject sourceMetadata knownTypeConstructors
  = foldM (deserializeMember convert d sourceObject sourceMetadata knownTypeConstructors)
          (dataMembers sourceMetadata) [].
Proof. reflexivity. Qed.

Lemma deserializeMembers_stagedBy staged w w' :
  deserializeMembers convert d sourceObject sourceMetadata knownTypeConstructors w
  = (Return staged, w') ->
  stagedBy d sourceMetadata staged.
Proof.
  rewrite deserializeMembers_loop. apply foldM_invariant.
  - intros s [propKey memberMetadata] w0 s' w0' Hmember [Hnodup Hentries] Hstep.
    unfold deserializeMember in Hstep.
    apply bind_returns_inv in Hstep. destruct Hstep as (revived & w1 & _ & Hstage).
    unfold stageMember in Hstage.
    destruct (isValueDefined revived
              || retrievePreserveNull d
                   (mergeOptions (mergeOptions (options d) (classOptions_ sourceMetadata))
                                 (memberOptions_ memberMetadata))
                 && is_null revived) eqn:Hkeep.
    + injection Hstage as <- _. split; [apply Object_set_NoDup; exact Hnodup |].
      intros k v Hin. apply Object_set_In in Hin. destruct Hin as [[-> ->] | Hin].
      * split.
        -- intros ->. simpl in Hkeep. rewrite andb_false_r in Hkeep. discriminate Hkeep.
        -- exists propKey, memberMetadata. split; [exact Hmember |]. split; [reflexivity |].
           intros ->. simpl in Hkeep. rewrite andb_true_r in Hkeep. exact Hkeep.
      * apply Hentries. exact Hin.
    + destruct (isRequired memberMetadata).
      * apply bind_returns_inv in Hstage. destruct Hstage as ([] & w2 & _ & Hstage).
        injection Hstage as <- _. split; assumption.
      * injection Hstage as <- _. split; assumption.
  - split; [constructor | intros k v []].
Qed.

(** X12: the properties staged by the loop over the declared members have
    distinct keys, each the key of a declared member; no staged value is
    [undefined], and [null] is staged only for a member whose effective
    [preserveNull] option is on. *)
Theorem deserializeMembers_staged staged w w' :
  deserializeMembers convert d sourceObject sourceMetadata knownTypeConstructors w
  = (Return staged, w') ->
  NoDup (map fst staged)
  /\ forall k v, In (k, v) staged ->
       v <> VUndefined
       /\ exists propKey memberMetadata,
           In (propKey, memberMetadata) (dataMembers sourceMetadata)
           /\ key memberMetadata = k
           /\ (v = VNull ->
               retrievePreserveNull d
                 (mergeOptions (mergeOptions (options d) (classOptions_ sourceMetadata))
                               (memberOptions_ memberMetadata)) = true).
Proof. intros Hrun. exact (deserializeMembers_stagedBy staged w w' Hrun). Qed.
End Members.

Section MemberValues.
Variable E : Env.
Variables (fuel : nat) (d : Deserializer) (sourceObject : value).
Variables (sourceMetadata : JsonObjectMetadata) (knownTypeConstructors : list (string * Ctor)).
Variables (propKey : string) (memberMetadata : JsonMemberMetadata).
Variables (staged : list (string * value)) (w : World).

Local Abbreviation memberOptions :=
  (mergeOptions (mergeOptions (options d) (classOptions_ sourceMetadata))
                (memberOptions_ memberMetadata)).
Local Abbreviation member :=
  (deserializeMember (convertSingleValue E (S fuel) d) d sourceObject sourceMetadata
                     knownTypeConstructors staged (propKey, memberMetadata) w).

Hypothesis handler_returns : handlerReturns d.
Hypothesis no_custom_deserializer : deserializer memberMetadata = None.

(** X13: the source being a parsed JSON object and the key of the member
    not a name of [Object.prototype], so that [sourceObject[propKey]] reads
    an own property or nothing: for a member converted by its constructor, a
    source value that is missing, or is [null] while [preserveNull] is off,
    stages nothing; it is reported as a missing required member when the
    member is required and not reported at all when it is not.  A [null]
    while [preserveNull] is on is staged as [null] under the key of the
    member (a key other than [__proto__], the assignment to which creates no
    property). *)
Theorem member_absent_or_null (memberCtor : Ctor) (props : list (string * value)) :
  sourceObject = VObject CObject props ->
  ~ In propKey Object_prototype_names ->
  ctor memberMetadata = Some memberCtor ->
  (getProp sourceObject propKey = VUndefined
   \/ (getProp sourceObject propKey = VNull /\ retrievePreserveNull d memberOptions = false) ->
   member
   = (Return staged,
      if isRequired memberMetadata
      then (w ++ [EMissingRequiredMember (LMember (nameof (classType sourceMetadata))
                                            propKey)])%list
      else w))
  /\ (getProp sourceObject propKey = VNull ->
      retrievePreserveNull d memberOptions = true ->
      key memberMetadata <> "__proto__" ->
      member = (Return (assoc_set (key memberMetadata) VNull staged), w)).
Proof.
  intros Hparsed Hown Hctor. split.
  - intros Habsent. unfold deserializeMember.
    rewrite no_custom_deserializer, Hctor. unfold bind.
    assert (Hrevived :
              convertSingleValue E (S fuel) d (getProp sourceObject propKey)
                {| selfConstructor := memberCtor;
                   elementConstructor := elementType memberMetadata;
                   keyConstructor := keyType memberMetadata;
                   knownTypes := knownTypeConstructors |}
                (LMember (nameof (classType sourceMetadata)) propKey) memberOptions w
              = (Return VUndefined, w)).
    { destruct Habsent as [-> | [-> Hoff]]; cbn [convertSingleValue].
      - rewrite andb_false_r. reflexivity.
      - rewrite Hoff. reflexivity. }
    rewrite Hrevived. unfold stageMember. simpl. rewrite andb_false_r.
    destruct (isRequired memberMetadata); [| reflexivity].
    unfold bind. rewrite (report_returns d _ w handler_returns). reflexivity.
  - intros Hnull Hon Hkey. unfold deserializeMember.
    rewrite no_custom_deserializer, Hctor, Hnull. unfold bind.
    cbn [convertSingleValue]. rewrite Hon. simpl.
    unfold stageMember, Object_set. simpl. rewrite Hon.
    apply String.eqb_neq in Hkey. rewrite Hkey. reflexivity.
Qed.
End MemberValues.

Section TypedObjects.
Variable E : Env.
Variables (fuel : nat) (d : Deserializer) (sourceObject : value).
Variables (sourceObjectTypeInfo : IScopeTypeInfo) (objectName : label).
Variable memberOptions : option OptionsBase.
Variables (w0 w1 : World) (expectedSelfType : Ctor).
Variables (metadata : option JsonObjectMetadata) (sourceMetadata : JsonObjectMetadata).
Variables (knownTypeConstructors : list (string * Ctor)).

Hypothesis source_is_object : typeof_object sourceObject = true.
Hypothesis source_not_null : is_null sourceObject = false.
Hypothesis resolved :
  resolveObjectType E d sourceObject sourceObjectTypeInfo w0
  = (Return (expectedSelfType, metadata, knownTypeConstructors), w1).
Hypothesis marked : explicitlyMarked metadata = Some sourceMetadata.

(** X14: a declared member that has neither a custom deserializer nor a
    constructor is fatal: once the members before it are converted,
    [convertAsObject] throws, and neither instantiates the target nor
    reports to the error handler. *)
Theorem convertAsObject_no_converter before propKey memberMetadata after staged w' :
  dataMembers sourceMetadata = (before ++ (propKey, memberMetadata) :: after)%list ->
  deserializer memberMetadata = None ->
  ctor memberMetadata = None ->
  foldM (deserializeMember (convertSingleValue E fuel d) d sourceObject sourceMetadata
                           knownTypeConstructors) before [] w1
  = (Return staged, w') ->
  convertAsObject E (S fuel) d sourceObject sourceObjectTypeInfo objectName memberOptions w0
  = (Throw (ENoConverter (LMember (nameof (classType sourceMetadata)) propKey)), w').
Proof.
  intros Hmembers Hdeserializer Hctor Hbefore.
  rewrite (convertAsObject_resolved E fuel d sourceObject sourceObjectTypeInfo objectName
             memberOptions source_is_object source_not_null).
  unfold bind at 1. rewrite resolved. unfold convertResolved. rewrite marked.
  apply bind_throws. rewrite deserializeMembers_loop, Hmembers, foldM_app.
  unfold bind. rewrite Hbefore. cbn [foldM]. apply bind_throws.
  unfold deserializeMember. rewrite Hdeserializer, Hctor. reflexivity.
Qed.

(** X15: without an initializer callback and without a hook, the object
    returned is the one [new expectedSelfType()] made, with every staged
    member assigned to it: a staged key holds the staged value, also when the
    constructor had set the property, and every other property is as the
    constructor left it. *)
Theorem convertAsObject_assigns_members staged w2 cls initial :
  deserializeMembers (convertSingleValue E fuel d) d sourceObject sourceMetadata
                     knownTypeConstructors w1
  = (Return staged, w2) ->
  initializerCallback sourceMetadata = None ->
  onDeserializedMethodName sourceMetadata = None ->
  construct E expectedSelfType = Ok (VObject cls initial) ->
  exists props,
    convertAsObject E (S fuel) d sourceObject sourceObjectTypeInfo objectName memberOptions w0
    = (Return (VObject cls props), w2)
    /\ forall k,
        getProp (VObject cls props) k
        = match assoc k staged with
          | Some v => v
          | None => getProp (VObject cls initial) k
          end.
Proof.
  intros Hstaged Hinit Hhook Hconstruct.
  exists (fold_left (fun acc kv => assoc_set (fst kv) (snd kv) acc) staged initial). split.
  - rewrite (convertAsObject_typed E fuel d sourceObject sourceObjectTypeInfo objectName
               memberOptions source_is_object source_not_null w0 w1 w2 expectedSelfType
               metadata sourceMetadata knownTypeConstructors staged resolved marked Hstaged).
    unfold finishObject, instantiateTarget, _instantiateType, bind.
    rewrite Hinit, Hconstruct. simpl. unfold callOnDeserialized. rewrite Hhook. reflexivity.
  - intros k. unfold getProp. simpl.
    destruct (deserializeMembers_stagedBy _ _ _ _ _ staged w1 w2 Hstaged) as [Hnodup _].
    rewrite (assoc_assigned staged initial k Hnodup).
    destruct (assoc k staged); reflexivity.
Qed.
End TypedObjects.

(* ================================================================== *)
(** ** Known types and the type resolver (lines 27-30, 555-598) *)

(** X16: without a name resolver, merging two maps of known types gives a
    map in which a name stands for the constructor it has in the second map
    and, when the second map does not have the name, for the one it has in the
    first. *)
Theorem mergeKnownTypes_later_wins (d : Deserializer) (a b : list (string * Ctor))
        (w : World) (unset : value) :
  _nameResolver d = NotCallable unset ->
  truthy unset = false ->
  NoDup (map fst a) ->
  NoDup (map fst b) ->
  exists merged,
    _mergeKnownTypes d [a; b] w = (Return merged, w)
    /\ forall name,
        assoc name merged
        = match assoc name b with
          | Some c => Some c
          | None => assoc name a
          end.
Proof.
  intros Hresolver Hfalsy Ha Hb.
  set (put := fun (acc : list (string * Ctor)) (kv : string * Ctor) =>
                assoc_set (fst kv) (snd kv) acc).
  assert (Hstep : forall (result : list (string * Ctor)) (entry : string * Ctor) w0,
             (let '(name, c) := entry in
              match resolveName d c with
              | Some resolved => n <- resolved ;; ret (assoc_set n c result)
              | None => ret (assoc_set name c result)
              end) w0
             = (Return (put result entry), w0)).
  { intros result [name c] w0. unfold resolveName. rewrite Hresolver, Hfalsy. reflexivity. }
  exists (fold_left put b (fold_left put a [])). split.
  - unfold _mergeKnownTypes. cbn [foldM]. unfold bind.
    rewrite (foldM_pure _ put a Hstep), (foldM_pure _ put b Hstep). reflexivity.
  - intros name. unfold put. rewrite (assoc_assigned b _ name Hb).
    destruct (assoc name b); [reflexivity |].
    rewrite (assoc_assigned a [] name Ha). destruct (assoc name a); reflexivity.
Qed.

(** X17: with a name resolver installed, every name in the merged map of
    known types, and in the map made from the known types of a class, is the
    name the resolver gives to the constructor the name stands for. *)
Theorem knownTypes_named_by_resolver (E : Env) (d : Deserializer) (resolver : NameResolver) :
  _nameResolver d = Callable resolver ->
  (forall maps w merged w',
      _mergeKnownTypes d maps w = (Return merged, w') ->
      forall name c, In (name, c) merged -> resolver c = Ok name)
  /\ (forall knowTypes w map w',
      _createKnownTypesMap E d knowTypes w = (Return map, w') ->
      forall name c, In (name, c) map -> resolver c = Ok name).
Proof.
  intros Hresolver.
  set (P := fun (m : list (string * Ctor)) =>
              forall name c, In (name, c) m -> resolver c = Ok name).
  assert (Hput : forall (m : list (string * Ctor)) c w m' w',
             P m ->
             (n <- call (resolver c) ;; ret (assoc_set n c m)) w = (Return m', w') -> P m').
  { intros m c w m' w' Hm Hrun.
    apply bind_returns_inv in Hrun. destruct Hrun as (n & w1 & Hn & Hrun).
    injection Hrun as <- _.
    destruct (resolver c) as [n' |] eqn:Hc; [| discriminate Hn]. injection Hn as <- _.
    intros name c' Hin. apply assoc_set_In in Hin. destruct Hin as [[-> ->] | Hin].
    - exact Hc.
    - apply Hm. exact Hin. }
  split.
  - intros maps w merged w'. unfold _mergeKnownTypes.
    apply (foldM_invariant P); [| intros name c []].
    intros s knownTypes w0 s' w0' _ Hs.
    apply (foldM_invariant P); [| exact Hs].
    intros s1 [name c] w1 s1' w1' _ Hs1 Hrun.
    unfold resolveName in Hrun. rewrite Hresolver in Hrun.
    apply (Hput s1 c w1 s1' w1' Hs1 Hrun).
  - intros knowTypes w map w'. unfold _createKnownTypesMap.
    apply (foldM_invariant P); [| intros name c []].
    intros s c w0 s' w0' _ Hs Hrun.
    unfold resolveName in Hrun. rewrite Hresolver in Hrun.
    apply (Hput s c w0 s' w0' Hs Hrun).
Qed.

(* ================================================================== *)
(** ** convertAsObject: untyped objects (lines 223-239) *)

Lemma assoc_NoDup_In {A} (k : string) (x : A) (l : list (string * A)) :
  NoDup (map fst l) -> In (k, x) l -> assoc k l = Some x.
Proof.
  induction l as [| [k0 y] l IH]; simpl; [tauto |].
  intros Hnodup Hin. inversion Hnodup as [| ? ? Hk0 Hrest]; subst.
  destruct Hin as [H | H].
  - injection H as -> ->. rewrite String.eqb_refl. reflexivity.
  - destruct (String.eqb k0 k) eqn:Hk.
    + apply String.eqb_eq in Hk. subst k0. exfalso. apply Hk0.
      apply in_map_iff. exists (k, x). split; [reflexivity | exact H].
    + apply IH; assumption.
Qed.

Lemma assoc_set_new {A} (k : string) (x : A) (l : list (string * A)) :
  ~ In k (map fst l) -> assoc_set k x l = (l ++ [(k, x)])%list.
Proof.
  induction l as [| [k0 y] l IH]; simpl; [reflexivity |].
  intros Hnot. destruct (String.eqb k0 k) eqn:Hk.
  - apply String.eqb_eq in Hk. tauto.
  - rewrite IH; [reflexivity | tauto].
Qed.

Lemma primitive_constructor (v : value) :
  isPrimitive v = true ->
  exists c, constructorOf v = Some c /\ In c [CNumber; CString; CBoolean].
Proof.
  destruct v; try discriminate; intros _; eexists; (split; [reflexivity | simpl; tauto]).
Qed.

Section UntypedObjects.
Variable E : Env.
Variables (fuel : nat) (d : Deserializer).
Variables (cls : Ctor) (props : list (string * value)).
Variables (sourceObjectTypeInfo : IScopeTypeInfo) (objectName : label).
Variable memberOptions : option OptionsBase.
Variables (w0 w1 : World) (expectedSelfType : Ctor).
Variables (metadata : option JsonObjectMetadata).
Variables (knownTypeConstructors : list (string * Ctor)).

Hypothesis resolved :
  resolveObjectType E d (VObject cls props) sourceObjectTypeInfo w0
  = (Return (expectedSelfType, metadata, knownTypeConstructors), w1).
Hypothesis not_marked : explicitlyMarked metadata = None.

(** X19: the untyped conversion of an object whose own properties are
    numbers, strings and booleans returns a plain object with the same
    properties, in the same order, and reports nothing; only an own property
    named [__proto__] is not in the result, as the assignment to that key
    creates none. *)
Theorem convertAsObject_untyped_flat :
  NoDup (map fst props) ->
  Forall (fun kv => isPrimitive (snd kv) = true) props ->
  convertAsObject E (S (S fuel)) d (VObject cls props) sourceObjectTypeInfo objectName
                  memberOptions w0
  = (Return (VObject CObject
               (filter (fun kv => negb (String.eqb (fst kv) "__proto__")) props)), w1).
Proof.
  intros Hnodup Hprimitive.
  rewrite (convertAsObject_untyped E (S fuel) d (VObject cls props) sourceObjectTypeInfo
             objectName memberOptions eq_refl eq_refl w0 w1 expectedSelfType metadata
             knownTypeConstructors resolved not_marked).
  unfold convertUntyped.
  set (kept := filter (fun kv : string * value => negb (String.eqb (fst kv) "__proto__"))).
  assert (Hloop : forall suffix prefix,
             props = (prefix ++ suffix)%list ->
             foldM (convertUntypedMember (convertSingleValue E (S fuel) d)
                                         (VObject cls props) sourceObjectTypeInfo)
                   (map fst suffix) (kept prefix) w1
             = (Return (kept props), w1)).
  { induction suffix as [| [k v] suffix IH]; intros prefix Hprops.
    - rewrite app_nil_r in Hprops. subst prefix. reflexivity.
    - cbn [map fst foldM]. unfold bind at 1. unfold convertUntypedMember at 1.
      assert (Hin : In (k, v) props)
        by (rewrite Hprops; apply in_or_app; right; left; reflexivity).
      assert (Hget : getProp (VObject cls props) k = v)
        by (unfold getProp; simpl; rewrite (assoc_NoDup_In k v props Hnodup Hin); reflexivity).
      rewrite Hget.
      rewrite Forall_forall in Hprimitive.
      destruct (primitive_constructor v (Hprimitive (k, v) Hin)) as (c & Hc & Hnative).
      unfold getConstructor, bind, getConstructorRead.
      rewrite (readConstructor_of_constructor v c Hc). cbv [ret asConstructor].
      rewrite (convertSingleValue_same_constructor E fuel d
                 {| selfConstructor := c;
                    knownTypes := knownTypes sourceObjectTypeInfo;
                    elementConstructor := elementConstructor sourceObjectTypeInfo;
                    keyConstructor := keyConstructor sourceObjectTypeInfo |}
                 (LName k) None w1 c v Hnative eq_refl Hc).
      assert (Hnext : Object_set k v (kept prefix) = kept (prefix ++ [(k, v)])%list).
      { unfold Object_set, kept. rewrite filter_app. simpl.
        destruct (String.eqb k "__proto__"); simpl; [rewrite app_nil_r; reflexivity |].
        apply assoc_set_new. intros Hk.
        rewrite Hprops, map_app in Hnodup. simpl in Hnodup.
        apply NoDup_remove_2 in Hnodup. apply Hnodup.
        apply in_or_app. left.
        apply in_map_iff in Hk. destruct Hk as ([k' v'] & Hfst & Hkept).
        apply filter_In in Hkept. destruct Hkept as [Hkept _].
        apply in_map_iff. exists (k', v'). split; assumption. }
      rewrite Hnext.
      apply IH. rewrite Hprops, <- app_assoc. reflexivity. }
  cbn [ownEntries]. unfold bind at 1.
  change (@nil (string * value)) with (kept []) at 1.
  rewrite (Hloop props [] eq_refl). reflexivity.
Qed.
End UntypedObjects.

(* ================================================================== *)
(** ** The helpers *)

(** X20: for a number, a string or a boolean, [isInstanceOf] answers for
    [Number], [String] and [Boolean] as the deserializer decides: it holds
    exactly when [convertSingleValue] returns the value for that expected
    type. *)
Theorem isInstanceOf_agrees (E : Env) fuel d ti name opts w (c : Ctor) (v : value) :
  isPrimitive v = true ->
  In c [CNumber; CString; CBoolean] ->
  selfConstructor ti = c ->
  isInstanceOf E v c = true
  <-> convertSingleValue E (S fuel) d v ti name opts w = (Return v, w).
Proof.
  intros Hv Hc Hself.
  assert (Hrun : convertSingleValue E (S fuel) d v ti name opts w
                 = (if isInstanceOf E v c then Return v
                    else Throw (ETypeErrorMessage (nameof c) (constructorName v) name), w)).
  { destruct (primitive_constructor v Hv) as (c' & Hc' & _).
    rewrite (convertSingleValue_native E fuel d ti name opts w c c' v Hc Hself Hc').
    simpl in Hc.
    destruct Hc as [<- | [<- | [<- | []]]]; destruct v; try discriminate;
      injection Hc' as <-; reflexivity. }
  rewrite Hrun. destruct (isInstanceOf E v c); split; intros H;
    try reflexivity; try discriminate.
Qed.

(** X21: the default value of a type, when there is one, is an instance of
    the type. *)
Theorem getDefaultValue_instance (E : Env) (type : Ctor) :
  getDefaultValue type <> VUndefined ->
  isInstanceOf E (getDefaultValue type) type = true.
Proof.
  destruct type; simpl; intros H; try contradiction; reflexivity.
Qed.

(** X22: [parseToJSObject] leaves a value that is not a string alone and
    hands a string in double quotes to [JSON.parse].  A string without the
    quotes is returned unparsed when [String], [ArrayBuffer] or [DataView] is
    expected; when [Date] is expected it is parsed only if, trimmed, it is a
    run of digits; for any other expected type it is parsed. *)
Theorem parseToJSObject_decides (JSON_parse : string -> Result value) (expectedType : Ctor) :
  (forall json, typeof_string json = false ->
      parseToJSObject JSON_parse json expectedType = Ok json)
  /\ (forall jsonStr, hasQuotes jsonStr = true ->
      parseToJSObject JSON_parse (VString jsonStr) expectedType = JSON_parse jsonStr)
  /\ (forall jsonStr, hasQuotes jsonStr = false ->
      In expectedType [CString; CArrayBuffer; CDataView] ->
      parseToJSObject JSON_parse (VString jsonStr) expectedType = Ok (VString jsonStr))
  /\ (forall jsonStr, hasQuotes jsonStr = false ->
      expectedType = CDate ->
      parseToJSObject JSON_parse (VString jsonStr) expectedType
      = if allDigits (trim (list_ascii_of_string jsonStr)) then JSON_parse jsonStr
        else Ok (VString jsonStr))
  /\ (forall jsonStr, hasQuotes jsonStr = false ->
      ~ In expectedType [CString; CArrayBuffer; CDataView; CDate] ->
      parseToJSObject JSON_parse (VString jsonStr) expectedType = JSON_parse jsonStr).
Proof.
  split; [| split; [| split; [| split]]].
  - intros json Hjson. destruct json; try discriminate; reflexivity.
  - intros jsonStr Hquotes. unfold parseToJSObject, shouldOmitParseString.
    rewrite Hquotes. simpl. rewrite andb_false_r. reflexivity.
  - intros jsonStr Hquotes Hexpected. unfold parseToJSObject, shouldOmitParseString.
    rewrite Hquotes. simpl in Hexpected.
    destruct Hexpected as [<- | [<- | [<- | []]]]; reflexivity.
  - intros jsonStr Hquotes ->. unfold parseToJSObject, shouldOmitParseString.
    rewrite Hquotes. simpl.
    destruct (allDigits (trim (list_ascii_of_string jsonStr))); reflexivity.
  - intros jsonStr Hquotes Hexpected. unfold parseToJSObject, shouldOmitParseString.
    rewrite Hquotes.
    destruct expectedType; try (exfalso; apply Hexpected; simpl; tauto);
      simpl; rewrite ?andb_false_r; reflexivity.
Qed.

(* ================================================================== *)
(** ** json-member.ts: what the decorator injects *)

Lemma inject_cases log options_ propCtor target propKey :
  (exists problem,
      JsonMember.isSpecialPropertyType propCtor = Some problem
      /\ JsonMember.inject log options_ propCtor target propKey
         = ((log ++ [JsonMember.Logged_error (nameof target) propKey problem])%list, Ok None))
  \/ (JsonMember.isSpecialPropertyType propCtor = None
      /\ exists injected,
          JsonMember.inject log options_ propCtor target propKey = (log, Ok (Some injected))
          /\ JsonMember.ctor injected = propCtor
          /\ JsonMember.key injected = propKey
          /\ JsonMember.injectedDeserializer injected = JsonMember.deserializer options_
          /\ JsonMember.injectedName injected
             = match JsonMember.name options_ with
               | Some n => if String.eqb n "" then propKey else n
               | None => propKey
               end).
Proof.
  unfold JsonMember.inject.
  destruct (JsonMember.isSpecialPropertyType propCtor) as [problem |].
  - left. exists problem. split; reflexivity.
  - right. split; [reflexivity |]. eexists. repeat split.
Qed.

Lemma special_property_types (propCtor : option Ctor) :
  JsonMember.isSpecialPropertyType propCtor = None ->
  propCtor <> Some CArray /\ propCtor <> Some CSet /\ propCtor <> Some CMap.
Proof.
  destruct propCtor as [[] |]; simpl; intros H; try discriminate H;
    repeat split; discriminate.
Qed.

Section Decorators.
Variable E : Env.
Variables (reflection : JsonMember.Reflection) (options_ : JsonMember.IJsonMemberOptions).
Variables (target : Ctor) (propKey : string).

(** X24: a member that the decorator made by [jsonMember(options)] injects
    has a constructor or a custom deserializer, so that the deserializer
    finds a way to convert it; its constructor is not [Array], [Set] or
    [Map]; its key is the property key and its name the [name] option, or
    the property key when that option is missing or empty; and no error was
    logged on the way. *)
Theorem jsonMember_injects_usable_member log injected :
  JsonMember.decorateWith E reflection options_ target propKey = (log, Ok (Some injected)) ->
  (JsonMember.ctor injected <> None \/ JsonMember.injectedDeserializer injected <> None)
  /\ (JsonMember.ctor injected <> Some CArray
      /\ JsonMember.ctor injected <> Some CSet
      /\ JsonMember.ctor injected <> Some CMap)
  /\ JsonMember.key injected = propKey
  /\ JsonMember.injectedName injected
     = match JsonMember.name options_ with
       | Some n => if String.eqb n "" then propKey else n
       | None => propKey
       end
  /\ forallb (fun entry => negb (isLoggedError entry)) log = true.
Proof.
  intros Hrun.
  assert (Hinject : forall log0 propCtor,
             forallb (fun entry => negb (isLoggedError entry)) log0 = true ->
             (propCtor <> None \/ JsonMember.deserializer options_ <> None) ->
             JsonMember.inject log0 options_ propCtor target propKey
             = (log, Ok (Some injected)) ->
             (JsonMember.ctor injected <> None
              \/ JsonMember.injectedDeserializer injected <> None)
             /\ (JsonMember.ctor injected <> Some CArray
                 /\ JsonMember.ctor injected <> Some CSet
                 /\ JsonMember.ctor injected <> Some CMap)
             /\ JsonMember.key injected = propKey
             /\ JsonMember.injectedName injected
                = match JsonMember.name options_ with
                  | Some n => if String.eqb n "" then propKey else n
                  | None => propKey
                  end
             /\ forallb (fun entry => negb (isLoggedError entry)) log = true).
  { intros log0 propCtor Hlog0 Husable Hinj.
    destruct (inject_cases log0 options_ propCtor target propKey)
      as [(problem & _ & Hskip) | (Hplain & inj & Hdone & Hctor & Hkey & Hdes & Hname)].
    - rewrite Hskip in Hinj. discriminate Hinj.
    - rewrite Hdone in Hinj. injection Hinj as <- <-.
      rewrite Hctor, Hdes. repeat split; try assumption;
        apply (special_property_types propCtor Hplain). }
  unfold JsonMember.decorateWith in Hrun.
  destruct (JsonMember.constructor options_) as [[c |] |].
  - destruct reflection as [[detected |] |].
    + destruct (negb (isSubtypeOf E c detected)).
      * apply (fun H1 H2 => Hinject _ _ H1 H2 Hrun); [reflexivity | left; discriminate].
      * apply (fun H1 H2 => Hinject _ _ H1 H2 Hrun); [reflexivity | left; discriminate].
    + discriminate Hrun.
    + apply (fun H1 H2 => Hinject _ _ H1 H2 Hrun); [reflexivity | left; discriminate].
  - discriminate Hrun.
  - destruct reflection as [[detected |] |].
    + apply (fun H1 H2 => Hinject _ _ H1 H2 Hrun); [reflexivity | left; discriminate].
    + discriminate Hrun.
    + destruct (JsonMember.deserializer options_) eqn:Hdes; [| discriminate Hrun].
      apply (fun H1 H2 => Hinject _ _ H1 H2 Hrun); [reflexivity | right; discriminate].
Qed.

(** X25: the decorators never drop a member silently: whenever one of them
    returns without injecting, it has logged an error, and whenever it has
    logged an error, it has not injected. *)
Theorem jsonMember_skips_with_an_error log outcome :
  JsonMember.decorateWith E reflection options_ target propKey = (log, Ok outcome)
  \/ JsonMember.decorate reflection target propKey = (log, Ok outcome) ->
  outcome = None <-> existsb isLoggedError log = true.
Proof.
  assert (Hinject : forall propCtor warned,
             existsb isLoggedError warned = false ->
             JsonMember.inject warned options_ propCtor target propKey = (log, Ok outcome) ->
             outcome = None <-> existsb isLoggedError log = true).
  { intros propCtor warned Hwarned Hinj.
    destruct (inject_cases warned options_ propCtor target propKey)
      as [(problem & _ & Hskip) | (_ & inj & Hdone & _)].
    - rewrite Hskip in Hinj. injection Hinj as <- <-.
      rewrite existsb_app. simpl. rewrite orb_true_r. tauto.
    - rewrite Hdone in Hinj. injection Hinj as <- <-. rewrite Hwarned.
      split; intros H; discriminate H. }
  intros [Hrun | Hrun].
  - unfold JsonMember.decorateWith in Hrun.
    destruct (JsonMember.constructor options_) as [[c |] |].
    + destruct reflection as [[detected |] |].
      * destruct (negb (isSubtypeOf E c detected)).
        -- apply (fun H => Hinject _ _ H Hrun). reflexivity.
        -- apply (fun H => Hinject _ _ H Hrun). reflexivity.
      * discriminate Hrun.
      * apply (fun H => Hinject _ _ H Hrun). reflexivity.
    + injection Hrun as <- <-. simpl. tauto.
    + destruct reflection as [[detected |] |].
      * apply (fun H => Hinject _ _ H Hrun). reflexivity.
      * injection Hrun as <- <-. simpl. tauto.
      * destruct (JsonMember.deserializer options_).
        -- apply (fun H => Hinject _ _ H Hrun). reflexivity.
        -- injection Hrun as <- <-. simpl. tauto.
  - unfold JsonMember.decorate in Hrun.
    destruct reflection as [[c |] |].
    + destruct (JsonMember.isSpecialPropertyType (Some c)).
      * injection Hrun as <- <-. simpl. tauto.
      * injection Hrun as <- <-. simpl. split; intros H; discriminate H.
    + injection Hrun as <- <-. simpl. tauto.
    + injection Hrun as <- <-. simpl. tauto.
Qed.

(** X26: with a constructor given in the options, the decorator injects no
    other one.  When reflection is in use and has no type recorded for the
    property, the decorator throws (line 104).  Otherwise a given [Array],
    [Set] or [Map] is logged as an error and nothing is injected, and any
    other given constructor is injected; a detected type that the given
    constructor is not a subtype of costs a warning and nothing else. *)
Theorem jsonMember_constructor_option_wins (c : Ctor) :
  JsonMember.constructor options_ = Some (Some c) ->
  let run := JsonMember.decorateWith E reflection options_ target propKey in
  let warned :=
    match reflection with
    | Some (Some detected) =>
        if isSubtypeOf E c detected then []
        else [JsonMember.Logged_warning (nameof target) propKey JsonMember.TypeDoesNotMatch]
    | _ => []
    end in
  (reflection = Some None -> exists e, run = ([], Raise e))
  /\ (reflection <> Some None ->
      (forall problem,
          JsonMember.isSpecialPropertyType (Some c) = Some problem ->
          run = ((warned ++ [JsonMember.Logged_error (nameof target) propKey problem])%list,
                 Ok None))
      /\ (JsonMember.isSpecialPropertyType (Some c) = None ->
          exists injected,
            run = (warned, Ok (Some injected)) /\ JsonMember.ctor injected = Some c))
  /\ (forall log injected,
      run = (log, Ok (Some injected)) -> JsonMember.ctor injected = Some c).
Proof.
  intros Hgiven run warned.
  assert (Hrun : reflection <> Some None ->
                 run = JsonMember.inject warned options_ (Some c) target propKey).
  { intros Hrecorded. unfold run, warned, JsonMember.decorateWith. rewrite Hgiven.
    destruct reflection as [[detected |] |]; [| contradiction | reflexivity].
    destruct (isSubtypeOf E c detected); reflexivity. }
  assert (Hthrows : reflection = Some None -> exists e, run = ([], Raise e)).
  { intros ->. unfold run, JsonMember.decorateWith. rewrite Hgiven. eauto. }
  split; [exact Hthrows |]. split.
  - intros Hrecorded. rewrite (Hrun Hrecorded).
    destruct (inject_cases warned options_ (Some c) target propKey)
      as [(problem & Hspecial & Hskip) | (Hplain & inj & Hdone & Hctor & _)].
    + split.
      * intros problem' Hproblem. rewrite Hskip. congruence.
      * intros Hplain. congruence.
    + split.
      * intros problem Hproblem. congruence.
      * intros _. exists inj. split; [exact Hdone | exact Hctor].
  - intros log injected Hinjected.
    assert (Hrecorded : reflection <> Some None).
    { intros Hnone. destruct (Hthrows Hnone) as [e He]. congruence. }
    rewrite (Hrun Hrecorded) in Hinjected.
    destruct (inject_cases warned options_ (Some c) target propKey)
      as [(problem & _ & Hskip) | (_ & inj & Hdone & Hctor & _)]; congruence.
Qed.
End Decorators.

(* ================================================================== *)
(** ** Containers through convertSingleValue, nesting, and a handler that throws *)

Section ContainerDispatch.
Variable E : Env.
Variables (fuel : nat) (d : Deserializer) (typeInfo : IScopeTypeInfo).
Variables (memberName : label) (memberOptions : option OptionsBase) (w : World).

(** X23: with [Array], [Set] or [Map] expected, [convertSingleValue] hands a
    source array to the conversion of that container; a defined source that
    is not an array makes it throw, without anything reaching the error
    handler: for [Set] and [Map] a type-mismatch error with the name of the
    type of the source, for [Array] a type error that names the constructor
    of the source when that is a function. *)
Theorem convertSingleValue_container (v : value) (srcName : string) :
  isValueDefined v = true ->
  srcTypeNameForDebug v = Ok srcName ->
  let convert := convertSingleValue E (S fuel) d v typeInfo memberName memberOptions w in
  (selfConstructor typeInfo = CArray ->
   (instanceof_Array v = true ->
    convert = convertAsArray E fuel d v typeInfo memberName memberOptions w)
   /\ (instanceof_Array v = false ->
       (exists e, convert = (Throw e, w))
       /\ forall c, constructorOf v = Some c ->
            convert = (Throw (ETypeErrorMessage "Array" (nameof c) memberName), w)))
  /\ (selfConstructor typeInfo = CSet ->
      convert
      = if instanceof_Array v
        then convertAsSet E fuel d v typeInfo memberName memberOptions w
        else (Throw (ETypeMismatch "Set" "Array" srcName memberName), w))
  /\ (selfConstructor typeInfo = CMap ->
      convert
      = if instanceof_Array v
        then convertAsMap E fuel d v typeInfo memberName memberOptions w
        else (Throw (ETypeMismatch "Map" "a source array of key-value-pair objects"
                       srcName memberName), w)).
Proof.
  intros Hdefined Hname convert.
  split; [| split]; intros Hself; unfold convert; cbn [convertSingleValue];
    rewrite Hself, (bind_call_Ok _ srcName _ _ Hname);
    rewrite (defined_not_null v Hdefined), andb_false_r, Hdefined; simpl.
  - split; intros Harray; rewrite Harray; [reflexivity |].
    unfold bind, getConstructorRead. split.
    + destruct (defined_has_constructor v Hdefined) as [fn Hfn]. rewrite Hfn.
      cbv [ret]. unfold _makeTypeErrorMessage.
      destruct fn as [c | x]; [cbv [ret throw]; eauto |].
      destruct (canBeString x); cbv [ret throw]; eauto.
    + intros c Hc. rewrite (readConstructor_of_constructor v c Hc). reflexivity.
  - destruct (instanceof_Array v); reflexivity.
  - destruct (instanceof_Array v); reflexivity.
Qed.
End ContainerDispatch.

Section NestedArrays.
Variable E : Env.

Lemma convertSingleValue_of_array fuel d ti name opts w (elems : list value) :
  selfConstructor ti = CArray ->
  convertSingleValue E (S fuel) d (VArray elems) ti name opts w
  = convertAsArray E fuel d (VArray elems) ti name opts w.
Proof.
  intros Hself. cbn [convertSingleValue]. rewrite Hself.
  cbn [is_null]. rewrite andb_false_r. reflexivity.
Qed.

Lemma convertAsArray_same_primitives fuel d ti name opts w (c : Ctor) (others : list Ctor)
      (elems : list value) :
  In c [CNumber; CString; CBoolean] ->
  elementConstructor ti = Some (c :: others) ->
  Forall (fun x => constructorOf x = Some c) elems ->
  convertAsArray E (S (S fuel)) d (VArray elems) ti name opts w = (Return (VArray elems), w).
Proof.
  intros Hc Hctor Helems. cbn [convertAsArray]. rewrite Hctor.
  assert (Hmap : mapM (convertArrayElement (convertSingleValue E (S fuel) d) d
                         (elementScope c others ti) name opts) elems w
                 = (Return elems, w)).
  { induction Helems as [| x elems Hx _ IH]; [reflexivity |].
    cbn [mapM]. unfold bind. unfold convertArrayElement at 1. unfold tryCatch.
    rewrite (convertSingleValue_same_constructor E fuel d (elementScope c others ti)
               (LElement name) opts w c x Hc eq_refl Hx).
    rewrite IH. reflexivity. }
  unfold bind. rewrite Hmap. reflexivity.
Qed.

(** X27: element constructors are used up one level at a time: with the
    element constructors [Array, Number] an array of arrays of numbers comes
    back as it is (and so for strings and booleans), nothing being
    reported. *)
Theorem convertAsArray_nested fuel d ti name opts w (c : Ctor) (others : list Ctor)
        (rows : list value) :
  In c [CNumber; CString; CBoolean] ->
  elementConstructor ti = Some (CArray :: c :: others) ->
  Forall (fun row => exists elems,
              row = VArray elems /\ Forall (fun x => constructorOf x = Some c) elems) rows ->
  convertAsArray E (S (S (S (S fuel)))) d (VArray rows) ti name opts w
  = (Return (VArray rows), w).
Proof.
  intros Hc Hctor Hrows. cbn [convertAsArray]. rewrite Hctor.
  assert (Hmap : mapM (convertArrayElement (convertSingleValue E (S (S (S fuel))) d) d
                         (elementScope CArray (c :: others) ti) name opts) rows w
                 = (Return rows, w)).
  { induction Hrows as [| row rows (elems & -> & Helems) _ IH]; [reflexivity |].
    cbn [mapM]. unfold bind. unfold convertArrayElement at 1. unfold tryCatch.
    assert (Hrow : convertSingleValue E (S (S (S fuel))) d (VArray elems)
                     (elementScope CArray (c :: others) ti) (LElement name) opts w
                   = (Return (VArray elems), w)).
    { transitivity (convertAsArray E (S (S fuel)) d (VArray elems)
                      (elementScope CArray (c :: others) ti) (LElement name) opts w).
      - apply convertSingleValue_of_array. reflexivity.
      - apply (convertAsArray_same_primitives fuel d
                 (elementScope CArray (c :: others) ti) (LElement name) opts w c others
                 elems Hc eq_refl Helems). }
    rewrite Hrow, IH. reflexivity. }
  unfold bind. rewrite Hmap. reflexivity.
Qed.

Lemma mapM_app {A B} (f : A -> M B) (l l' : list A) (w : World) :
  mapM f (l ++ l') w
  = bind (mapM f l) (fun ys => bind (mapM f l') (fun ys' => ret (ys ++ ys')%list)) w.
Proof.
  revert w. induction l as [| x l IH]; intros w.
  - cbn [mapM app]. unfold bind, ret.
    destruct (mapM f l' w) as [[ys' | e |] w']; reflexivity.
  - cbn [mapM app]. unfold bind, ret.
    destruct (f x w) as [[y | e |] w1]; [| reflexivity | reflexivity].
    rewrite IH. unfold bind, ret.
    destruct (mapM f l w1) as [[ys | e |] w2]; [| reflexivity | reflexivity].
    destruct (mapM f l' w2) as [[ys' | e |] w3]; reflexivity.
Qed.

(** X28: an error handler that throws makes an element failure fatal: when
    the conversion of an element throws and the handler throws on that
    error, [convertAsArray] throws what the handler threw, once the elements
    before are converted, and the elements after it are not looked at. *)
Theorem convertAsArray_handler_escalates fuel d ti name opts w (first : Ctor)
        (others : list Ctor) (before after converted : list value) (element : value)
        (e escalated : Error) (w1 w2 : World) :
  elementConstructor ti = Some (first :: others) ->
  mapM (convertArrayElement (convertSingleValue E fuel d) d (elementScope first others ti)
                            name opts) before w
  = (Return converted, w1) ->
  convertSingleValue E fuel d element (elementScope first others ti) (LElement name) opts w1
  = (Throw e, w2) ->
  _errorHandler d e = Raise escalated ->
  convertAsArray E (S fuel) d (VArray (before ++ element :: after)) ti name opts w
  = (Throw escalated, (w2 ++ [e])%list).
Proof.
  intros Hctor Hbefore Helement Hhandler. cbn [convertAsArray]. rewrite Hctor.
  apply bind_throws. rewrite mapM_app. unfold bind at 1. rewrite Hbefore.
  apply bind_throws. cbn [mapM]. apply bind_throws.
  unfold convertArrayElement, tryCatch. rewrite Helement.
  apply bind_throws. unfold report. rewrite Hhandler. reflexivity.
Qed.
End NestedArrays.

(* ================================================================== *)
(** ** The further theorems at work *)

Lemma convertAsObject_not_an_object_witness :
  convertAsObject Example.env 1 newDeserializer (Example.num 5) (Example.scope Example.Shape)
                  Example.object None []
  = (Return VUndefined, [EMustBeDefinedObject Example.object]).
Proof.
  apply (convertAsObject_not_an_object Example.env 0 newDeserializer
           (Example.scope Example.Shape) Example.object None
           newDeserializer_handler_returns (Example.num 5) []).
  left. reflexivity.
Defined.

Lemma containers_missing_constructor_witness :
  convertAsSet Example.env 1 newDeserializer (VArray [Example.num 1])
               (Example.scope CSet) Example.object None []
  = (Return (VSet []), [EMissingElementCtor "Set" Example.object]).
Proof.
  apply (proj1 (containers_missing_constructor Example.env 0 newDeserializer
                  (Example.scope CSet) Example.object None
                  newDeserializer_handler_returns [Example.num 1] [])).
  left. reflexivity.
Defined.

(** The set of section 8 of the specification: [["a", 7, "b"]] against
    [String]. *)
Example convertAsSet_one_bad_element :
  convertAsSet Example.env 2 newDeserializer
               (VArray [VString "a"; Example.num 7; VString "b"; VString "a"])
               (Example.container CSet CString None) Example.object None []
  = (Return (VSet [VString "a"; VString "b"]),
     [ETypeErrorMessage "String" "Number" (LIndex Example.object 1)]).
Proof. reflexivity. Qed.

(** A set stores [-0] as [+0]. *)
Example convertAsSet_negative_zero :
  convertAsSet Example.env 2 newDeserializer (VArray [VNumber (S754_zero true)])
               (Example.container CSet CNumber None) Example.object None []
  = (Return (VSet [VNumber zero]), []).
Proof. reflexivity. Qed.

Lemma convertAsSet_elements_witness :
  exists out w',
    convertAsSet Example.env 3 newDeserializer
                 (VArray [VString "a"; Example.num 7; VString "a"])
                 (Example.container CSet CString None) Example.object None []
    = (Return (VSet out), w')
    /\ List.length out <= 3
    /\ noRepeats out.
Proof.
  destruct (convertAsSet_elements Example.env 2 newDeserializer
              (Example.container CSet CString None) Example.object None
              newDeserializer_handler_returns
              [VString "a"; Example.num 7; VString "a"] CString [] [] eq_refl)
    as (out & w' & Hrun & Hlen & Hno & _).
  - vm_compute. lia.
  - exists out, w'. split; [exact Hrun |]. split; [exact Hlen | exact Hno].
Defined.

Lemma convertAsArray_of_primitives_witness :
  convertAsArray Example.env 2 newDeserializer (VArray [VString "a"; VString "b"])
                 (Example.container CArray CString None) Example.object None []
  = (Return (VArray [VString "a"; VString "b"]), []).
Proof.
  apply (convertAsArray_of_primitives Example.env 0 newDeserializer
           (Example.container CArray CString None) Example.object None [] CString []).
  - simpl; tauto.
  - reflexivity.
  - repeat constructor.
Defined.

Lemma convertAsMap_keys_witness :
  convertAsMap Example.env 2 newDeserializer
    (VArray [VObject CObject [("key", VString "a"); ("value", Example.num 1)];
             VObject CObject [("key", VString "b"); ("value", Example.num 2)];
             VObject CObject [("key", VString "a"); ("value", Example.num 3)]])
    (Example.container CMap CNumber (Some CString)) Example.object None []
  = (Return (VMap [(VString "a", Example.num 3); (VString "b", Example.num 2)]), [])
  /\ noRepeats [VString "a"; VString "b"]
  /\ isValueDefined (VString "a") = true.
Proof.
  split; [reflexivity |].
  destruct (convertAsMap_keys Example.env 1 newDeserializer
              (VArray [VObject CObject [("key", VString "a"); ("value", Example.num 1)];
                       VObject CObject [("key", VString "b"); ("value", Example.num 2)];
                       VObject CObject [("key", VString "a"); ("value", Example.num 3)]])
              (Example.container CMap CNumber (Some CString)) Example.object None []
              [(VString "a", Example.num 3); (VString "b", Example.num 2)] [] eq_refl)
    as [Hdefined Hrepeats].
  split; [exact Hrepeats |].
  apply (Hdefined (VString "a") (Example.num 3)). left. reflexivity.
Defined.

Lemma deserializeMembers_staged_witness :
  deserializeMembers (convertSingleValue Sample.env 1 newDeserializer) newDeserializer
                     (VObject CObject [("label", VNull)]) Sample.pointMetadata [] []
  = (Return [("label", VNull)], [EMissingRequiredMember (LMember "Point" "x")])
  /\ NoDup (map fst [("label", VNull)])
  /\ retrievePreserveNull newDeserializer
       (mergeOptions (mergeOptions (options newDeserializer)
                                   (classOptions_ Sample.pointMetadata))
                     (memberOptions_ Sample.labelMember)) = true.
Proof.
  split; [reflexivity |].
  destruct (deserializeMembers_staged (convertSingleValue Sample.env 1 newDeserializer)
              newDeserializer (VObject CObject [("label", VNull)])
              Sample.pointMetadata [] [("label", VNull)] []
              [EMissingRequiredMember (LMember "Point" "x")] eq_refl)
    as [Hnodup _].
  split; [exact Hnodup | reflexivity].
Defined.

Lemma member_absent_or_null_witness :
  deserializeMember (convertSingleValue Sample.env 1 newDeserializer) newDeserializer
                    (VObject CObject [("label", VNull)]) Sample.pointMetadata []
                    [] ("x", Sample.xMember) []
  = (Return [], [EMissingRequiredMember (LMember "Point" "x")]).
Proof.
  assert (Hown : ~ In "x" Object_prototype_names)
    by (simpl; intuition discriminate).
  apply (proj1 (member_absent_or_null Sample.env 0 newDeserializer
                  (VObject CObject [("label", VNull)]) Sample.pointMetadata []
                  "x" Sample.xMember [] [] newDeserializer_handler_returns eq_refl
                  CNumber [("label", VNull)] eq_refl Hown eq_refl)).
  left. reflexivity.
Defined.

Lemma convertAsObject_no_converter_witness :
  convertAsObject Sample.env 2 newDeserializer (VObject CObject [("x", Example.num 7)])
                  (Example.scope Sample.Loose) Example.object None []
  = (Throw (ENoConverter (LMember "Loose" "tag")), []).
Proof.
  apply (convertAsObject_no_converter Sample.env 1 newDeserializer
           (VObject CObject [("x", Example.num 7)]) (Example.scope Sample.Loose)
           Example.object None [] [] Sample.Loose (Some Sample.looseMetadata)
           Sample.looseMetadata [] eq_refl eq_refl eq_refl eq_refl
           [("x", Sample.xMember)] "tag" Sample.tagMember [] [("x", Example.num 7)] []
           eq_refl eq_refl eq_refl eq_refl).
Defined.

Lemma convertAsObject_assigns_members_witness :
  exists props,
    convertAsObject Sample.env 2 newDeserializer (VObject CObject [("x", Example.num 7)])
                    (Example.scope Sample.Point) Example.object None []
    = (Return (VObject Sample.Point props), [])
    /\ getProp (VObject Sample.Point props) "x" = Example.num 7
    /\ getProp (VObject Sample.Point props) "visible" = VBoolean true.
Proof.
  destruct (convertAsObject_assigns_members Sample.env 1 newDeserializer
              (VObject CObject [("x", Example.num 7)]) (Example.scope Sample.Point)
              Example.object None [] [] Sample.Point (Some Sample.pointMetadata)
              Sample.pointMetadata [] eq_refl eq_refl eq_refl eq_refl
              [("x", Example.num 7)] [] Sample.Point
              [("x", Example.num 0); ("visible", VBoolean true)]
              eq_refl eq_refl eq_refl eq_refl)
    as (props & Hrun & Hprops).
  exists props. split; [exact Hrun |]. split; [apply (Hprops "x") | apply (Hprops "visible")].
Defined.

Lemma mergeKnownTypes_later_wins_witness :
  exists merged,
    _mergeKnownTypes newDeserializer
      [[("Shape", Example.Shape); ("Figure", Example.Shape)]; [("Figure", Example.Circle)]] []
    = (Return merged, [])
    /\ assoc "Figure" merged = Some Example.Circle
    /\ assoc "Shape" merged = Some Example.Shape.
Proof.
  destruct (mergeKnownTypes_later_wins newDeserializer
              [("Shape", Example.Shape); ("Figure", Example.Shape)]
              [("Figure", Example.Circle)] [] VUndefined eq_refl eq_refl)
    as (merged & Hrun & Hlookup).
  - repeat constructor; simpl; intuition discriminate.
  - repeat constructor; simpl; tauto.
  - exists merged. split; [exact Hrun |].
    split; [apply (Hlookup "Figure") | apply (Hlookup "Shape")].
Defined.

Lemma knownTypes_named_by_resolver_witness :
  _nameResolver Sample.named = Callable Sample.prefixed
  /\ _mergeKnownTypes Sample.named [[("P", Sample.Point)]] []
     = (Return [("app.Point", Sample.Point)], [])
  /\ Sample.prefixed Sample.Point = Ok "app.Point".
Proof.
  split; [reflexivity |]. split; [reflexivity |].
  apply (proj1 (knownTypes_named_by_resolver Sample.env Sample.named Sample.prefixed eq_refl)
               [[("P", Sample.Point)]] []
               [("app.Point", Sample.Point)] [] eq_refl "app.Point" Sample.Point).
  left. reflexivity.
Defined.

Lemma convertAsObject_untyped_flat_witness :
  convertAsObject Example.env 2 newDeserializer
                  (VObject CObject
                     [("a", Example.num 1); ("__proto__", VString "p"); ("b", VString "x")])
                  (Example.scope CObject) Example.object None []
  = (Return (VObject CObject [("a", Example.num 1); ("b", VString "x")]), []).
Proof.
  apply (convertAsObject_untyped_flat Example.env 0 newDeserializer CObject
           [("a", Example.num 1); ("__proto__", VString "p"); ("b", VString "x")]
           (Example.scope CObject)
           Example.object None [] [] CObject None [] eq_refl eq_refl).
  - repeat constructor; simpl; intuition discriminate.
  - repeat constructor.
Defined.

Lemma isInstanceOf_agrees_witness :
  isInstanceOf Example.env (VString "x") CString = true.
Proof.
  apply (proj2 (isInstanceOf_agrees Example.env 0 newDeserializer (Example.scope CString)
                  Example.object None [] CString (VString "x") eq_refl
                  (or_intror (or_introl eq_refl)) eq_refl)).
  reflexivity.
Defined.

Lemma getDefaultValue_instance_witness :
  isInstanceOf Example.env (VArray []) CArray = true.
Proof.
  apply (getDefaultValue_instance Example.env CArray). discriminate.
Defined.

Lemma parseToJSObject_decides_witness :
  parseToJSObject (fun _ => Raise (EUser VUndefined)) (VString "2020-01-01") CDate
  = Ok (VString "2020-01-01")
  /\ parseToJSObject (fun _ => Ok (Example.num 12)) (VString " 12 ") CDate
     = Ok (Example.num 12).
Proof.
  split.
  - apply (proj1 (proj2 (proj2 (proj2
             (parseToJSObject_decides (fun _ => Raise (EUser VUndefined)) CDate))))
             "2020-01-01" eq_refl eq_refl).
  - apply (proj1 (proj2 (proj2 (proj2
             (parseToJSObject_decides (fun _ => Ok (Example.num 12)) CDate))))
             " 12 " eq_refl eq_refl).
Defined.

Lemma jsonMember_injects_usable_member_witness :
  exists injected,
    JsonMember.decorateWith Sample.env (Some (Some CString)) Sample.xOptions Sample.Point "x"
    = ([JsonMember.Logged_warning "Point" "x" JsonMember.TypeDoesNotMatch],
       Ok (Some injected))
    /\ JsonMember.key injected = "x"
    /\ JsonMember.injectedName injected = "x-coordinate".
Proof.
  eexists. split; [reflexivity |].
  destruct (jsonMember_injects_usable_member Sample.env (Some (Some CString))
              Sample.xOptions Sample.Point "x" _ _ eq_refl)
    as (_ & _ & Hkey & Hname & _).
  split; [exact Hkey | exact Hname].
Defined.

Lemma jsonMember_skips_with_an_error_witness :
  existsb isLoggedError
          (fst (JsonMember.decorateWith Sample.env None JsonMember.noOptions Sample.Point "x"))
  = true.
Proof.
  apply (proj1 (jsonMember_skips_with_an_error Sample.env None JsonMember.noOptions
                  Sample.Point "x"
                  [JsonMember.Logged_error "Point" "x" JsonMember.ReflectRequired] None
                  (or_introl eq_refl))).
  reflexivity.
Defined.

Lemma jsonMember_constructor_option_wins_witness :
  exists injected,
    JsonMember.decorateWith Sample.env (Some (Some CString)) Sample.xOptions Sample.Point "x"
    = ([JsonMember.Logged_warning "Point" "x" JsonMember.TypeDoesNotMatch],
       Ok (Some injected))
    /\ JsonMember.ctor injected = Some CNumber.
Proof.
  destruct (jsonMember_constructor_option_wins Sample.env (Some (Some CString))
              Sample.xOptions Sample.Point "x" CNumber eq_refl)
    as (_ & Hrecorded & _).
  assert (Hdetected : Some (Some CString) <> Some (@None Ctor)) by discriminate.
  destruct (Hrecorded Hdetected) as [_ Hplain].
  destruct (Hplain eq_refl) as (injected & Hrun & Hctor).
  exists injected. split; [exact Hrun | exact Hctor].
Defined.

Lemma convertSingleValue_container_witness :
  convertSingleValue Example.env 1 newDeserializer (VString "x")
                     (Example.container CSet CString None) Example.object None []
  = (Throw (ETypeMismatch "Set" "Array" "String" Example.object), []).
Proof.
  apply (proj1 (proj2 (convertSingleValue_container Example.env 0 newDeserializer
                         (Example.container CSet CString None) Example.object None []
                         (VString "x") "String" eq_refl eq_refl))).
  reflexivity.
Defined.

Lemma convertAsArray_nested_witness :
  convertAsArray Example.env 4 newDeserializer
                 (VArray [VArray [Example.num 1; Example.num 2]; VArray [Example.num 3]])
                 {| selfConstructor := CArray; elementConstructor := Some [CArray; CNumber];
                    keyConstructor := None; knownTypes := [] |}
                 Example.object None []
  = (Return (VArray [VArray [Example.num 1; Example.num 2]; VArray [Example.num 3]]), []).
Proof.
  apply (convertAsArray_nested Example.env 0 newDeserializer
           {| selfConstructor := CArray; elementConstructor := Some [CArray; CNumber];
              keyConstructor := None; knownTypes := [] |}
           Example.object None [] CNumber []).
  - simpl; tauto.
  - reflexivity.
  - repeat constructor; eexists; (split; [reflexivity | repeat constructor]).
Defined.

Lemma convertAsArray_handler_escalates_witness :
  convertAsArray Example.env 2 Sample.strict
                 (VArray [Example.num 1; VString "bad"; Example.num 3])
                 (Example.container CArray CNumber None) Example.object None []
  = (Throw (EUser (VString "stop")),
     [ETypeErrorMessage "Number" "String" (LElement Example.object)]).
Proof.
  apply (convertAsArray_handler_escalates Example.env 1 Sample.strict
           (Example.container CArray CNumber None) Example.object None [] CNumber []
           [Example.num 1] [Example.num 3] [Example.num 1] (VString "bad")
           (ETypeErrorMessage "Number" "String" (LElement Example.object))
           (EUser (VString "stop")) [] [] eq_refl eq_refl eq_refl eq_refl).
Defined.
